(** * Folder-structure analysis of an API specification repository

    A shallow embedding of [analyze_specification.py]: the plane classifier,
    the folder-structure-v2 compliance rules, the RPaaS detector, the
    version-uniformity check, the per-organization analysis and the driver
    loop, followed by the properties proved about them.

    Conventions of the embedding.
    - A Python [str] is a Rocq [string]; a character is the code point of its
      byte, so the strings covered are those over U+0000..U+00FF, for which
      [str.isupper], [str.isalnum] and [str.lower] are tabulated exactly.
    - The operating system is POSIX ([os.sep] is the slash); [os.path] is
      [posixpath], transcribed function by function.
    - The file system is a finite tree of directories, files and symbolic
      links; a path is resolved name by name, as the system does.
    - A Python exception is a value of [exn]; code that can raise returns
      [py A]. *)

From Stdlib Require Import String Ascii List Bool Arith NArith Lia.
Import ListNotations.
Open Scope list_scope.
Open Scope string_scope.

(* ================================================================== *)
(** ** Python exceptions *)

Inductive exn : Type :=
| ValueError (msg : string)
| TypeError (msg : string)
| YAMLError (msg : string)
| OSError (msg : string).

(** [str(e)] *)
Definition exn_str (e : exn) : string :=
  match e with
  | ValueError m | TypeError m | YAMLError m | OSError m => m
  end.

Inductive py (A : Type) : Type :=
| Ok (a : A)
| Raise (e : exn).
Arguments Ok {A} a.
Arguments Raise {A} e.

Definition py_bind {A B : Type} (m : py A) (k : A -> py B) : py B :=
  match m with
  | Ok a => k a
  | Raise e => Raise e
  end.

Notation "x <- m ;; k" := (py_bind m (fun x => k))
  (at level 61, m at next level, right associativity).

(* ================================================================== *)
(** ** Characters and [str] methods *)

Module Str.

Definition code (c : ascii) : N := N_of_ascii c.

Definition in_range (lo hi : N) (c : ascii) : bool :=
  ((lo <=? code c) && (code c <=? hi))%N.

Definition is_code (n : N) (c : ascii) : bool := (code c =? n)%N.

(** [c.isupper()] for a one-character string: A-Z and the capital letters
    of the Latin-1 supplement (U+00C0..U+00DE but the multiplication sign). *)
Definition isupper (c : ascii) : bool :=
  in_range 65 90 c || in_range 192 214 c || in_range 216 222 c.

(** [c.isalnum()]: alphabetic, decimal, digit or numeric.  Below U+0100
    these are 0-9, A-Z, a-z, the ordinal indicators and the micro sign,
    the superscript digits, the vulgar fractions, and the letters of the
    Latin-1 supplement. *)
Definition isalnum (c : ascii) : bool :=
  in_range 48 57 c || in_range 65 90 c || in_range 97 122 c
  || is_code 170 c || is_code 178 c || is_code 179 c || is_code 181 c
  || is_code 185 c || is_code 186 c || in_range 188 190 c
  || in_range 192 214 c || in_range 216 246 c || in_range 248 255 c.

(** [c.lower()] *)
Definition lower_char (c : ascii) : ascii :=
  if isupper c then ascii_of_N (code c + 32) else c.

(** [s.lower()] *)
Fixpoint lower (s : string) : string :=
  match s with
  | EmptyString => EmptyString
  | String c s' => String (lower_char c) (lower s')
  end.

(** [all(f(c) for c in s)] *)
Fixpoint all_chars (f : ascii -> bool) (s : string) : bool :=
  match s with
  | EmptyString => true
  | String c s' => f c && all_chars f s'
  end.

(** [s.startswith(p)] *)
Fixpoint startswith (p s : string) : bool :=
  match p, s with
  | EmptyString, _ => true
  | String _ _, EmptyString => false
  | String a p', String b s' => Ascii.eqb a b && startswith p' s'
  end.

(** [needle in hay] *)
Fixpoint contains (needle hay : string) : bool :=
  startswith needle hay
  || match hay with
     | EmptyString => false
     | String _ hay' => contains needle hay'
     end.

(** [s.endswith(suf)] *)
Fixpoint endswith (suf s : string) : bool :=
  String.eqb suf s
  || match s with
     | EmptyString => false
     | String _ s' => endswith suf s'
     end.

(** [s.split(sep)] for a one-character separator *)
Fixpoint split (sep : ascii) (s : string) : list string :=
  match s with
  | EmptyString => [EmptyString]
  | String c s' =>
      if Ascii.eqb c sep then EmptyString :: split sep s'
      else match split sep s' with
           | [] => [String c EmptyString]
           | h :: t => String c h :: t
           end
  end.

(** [sep.join(l)] *)
Fixpoint join (sep : string) (l : list string) : string :=
  match l with
  | [] => EmptyString
  | [x] => x
  | x :: l' => x ++ sep ++ join sep l'
  end.

(** [s[n:]] *)
Fixpoint drop (n : nat) (s : string) : string :=
  match n, s with
  | O, _ => s
  | S _, EmptyString => EmptyString
  | S n', String _ s' => drop n' s'
  end.

(** [s[:n]] *)
Fixpoint take (n : nat) (s : string) : string :=
  match n, s with
  | O, _ => EmptyString
  | S _, EmptyString => EmptyString
  | S n', String c s' => String c (take n' s')
  end.

(** [s.rfind(c) + 1]: one past the last occurrence of [c], 0 when absent *)
Fixpoint rfind1 (c : ascii) (s : string) : nat :=
  match s with
  | EmptyString => 0
  | String a s' =>
      match rfind1 c s' with
      | O => if Ascii.eqb a c then 1 else 0
      | S k => S (S k)
      end
  end.

(** [s.lstrip(c)] *)
Fixpoint lstrip (c : ascii) (s : string) : string :=
  match s with
  | EmptyString => EmptyString
  | String a s' => if Ascii.eqb a c then lstrip c s' else s
  end.

(** [s.rstrip(c)] *)
Fixpoint rstrip (c : ascii) (s : string) : string :=
  match s with
  | EmptyString => EmptyString
  | String a s' =>
      match rstrip c s' with
      | EmptyString => if Ascii.eqb a c then EmptyString else String a EmptyString
      | r => String a r
      end
  end.

(** [x in l] for a list of strings *)
Definition mem (x : string) (l : list string) : bool :=
  existsb (String.eqb x) l.

(** [len(set(l))] *)
Definition distinct (l : list string) : list string := nodup string_dec l.

End Str.

(* ================================================================== *)
(** ** [os.path] on POSIX *)

Module posixpath.

Definition sep : ascii := "/"%char.

(** [basename(p)]: [i = p.rfind('/') + 1; return p[i:]] *)
Definition basename (p : string) : string :=
  Str.drop (Str.rfind1 sep p) p.

(** [dirname(p)] *)
Definition dirname (p : string) : string :=
  let head := Str.take (Str.rfind1 sep p) p in
  if negb (String.eqb head "") && negb (Str.all_chars (Ascii.eqb sep) head)
  then Str.rstrip sep head
  else head.

(** [join(a, b)] *)
Definition join (a b : string) : string :=
  if Str.startswith "/" b then b
  else if String.eqb a "" || Str.endswith "/" a then a ++ b
  else a ++ "/" ++ b.

(** [join(a, b, c)] *)
Definition join3 (a b c : string) : string := join (join a b) c.

(** [isabs(p)] *)
Definition isabs (p : string) : bool := Str.startswith "/" p.

(** The loop of [normpath] over the components, [acc] being [new_comps]
    in reverse. *)
Fixpoint norm_comps (initial_slashes : nat) (comps acc : list string)
  : list string :=
  match comps with
  | [] => rev acc
  | comp :: rest =>
      if String.eqb comp "" || String.eqb comp "." then
        norm_comps initial_slashes rest acc
      else if negb (String.eqb comp "..")
              || (Nat.eqb initial_slashes 0 && match acc with [] => true | _ => false end)
              || match acc with last :: _ => String.eqb last ".." | [] => false end
      then norm_comps initial_slashes rest (comp :: acc)
      else match acc with
           | _ :: acc' => norm_comps initial_slashes rest acc'
           | [] => norm_comps initial_slashes rest acc
           end
  end.

(** [normpath(path)] *)
Definition normpath (path : string) : string :=
  if String.eqb path "" then "."
  else
    let initial_slashes :=
      if Str.startswith "/" path then
        if Str.startswith "//" path && negb (Str.startswith "///" path)
        then 2 else 1
      else 0 in
    let comps := norm_comps initial_slashes (Str.split sep path) [] in
    let joined := Str.join "/" comps in
    let path' :=
      match initial_slashes with
      | 0 => joined
      | 1 => "/" ++ joined
      | _ => "//" ++ joined
      end in
    if String.eqb path' "" then "." else path'.

(** [abspath(path)], the working directory being [cwd] *)
Definition abspath (cwd path : string) : string :=
  normpath (if isabs path then path else join cwd path).

(** [len(commonprefix([l1, l2]))] *)
Fixpoint common_len (l1 l2 : list string) : nat :=
  match l1, l2 with
  | a :: l1', b :: l2' => if String.eqb a b then S (common_len l1' l2') else 0
  | _, _ => 0
  end.

(** [relpath(path, start)]; an empty [path] raises [ValueError]. *)
Definition relpath (cwd path start : string) : py string :=
  if String.eqb path "" then Raise (ValueError "no path specified")
  else
    let start_tail := Str.lstrip sep (abspath cwd start) in
    let path_tail := Str.lstrip sep (abspath cwd path) in
    let start_list :=
      if String.eqb start_tail "" then [] else Str.split sep start_tail in
    let path_list :=
      if String.eqb path_tail "" then [] else Str.split sep path_tail in
    let i := common_len start_list path_list in
    let rel_list :=
      (repeat ".." (List.length start_list - i) ++ skipn i path_list)%list in
    match rel_list with
    | [] => Ok "."
    | _ => Ok (Str.join "/" rel_list)
    end.

End posixpath.

(* ================================================================== *)
(** ** The plane classifier *)

(** [is_management_plane(project_or_file_path)] *)
Definition is_management_plane (project_or_file_path : string) : bool :=
  let folder_name := posixpath.basename project_or_file_path in
  if Str.contains ".Management" folder_name then true
  else if Str.contains "resource-manager" project_or_file_path then true
  else false.

(** The nested predicates of [check_folder_structure_v2_compliance]. *)

(** [is_pascal_case(s)] *)
Definition is_pascal_case (s : string) : bool :=
  match s with
  | EmptyString => false
  | String c0 _ =>
      if negb (Str.isupper c0) then false
      else Str.all_chars (fun c => Str.isalnum c || Ascii.eqb c "."%char) s
  end.

(** [is_valid_namespace_pattern(namespace)] *)
Definition is_valid_namespace_pattern (namespace : string) : bool :=
  if negb (Str.contains "." namespace) then false
  else
    let parts := Str.split "."%char namespace in
    if negb (Nat.eqb (List.length parts) 2) then false
    else forallb (fun part => is_pascal_case part
                              && negb (Str.contains "." part)) parts.

(** [is_valid_service_name(service_name)] *)
Definition is_valid_service_name (service_name : string) : bool :=
  Str.all_chars (fun c => Str.isalnum c || Ascii.eqb c "-"%char) service_name.

(* ================================================================== *)
(** ** The compliance rule engine *)

Section Compliance.

(** The working directory of the process ([os.getcwd()]), read by
    [relpath] when a path is relative. *)
Variable cwd : string.

(** [os.path.exists], the state of the file system as this function
    sees it. *)
Variable path_exists : string -> bool.

Definition namespace_reason (namespace_name : string) : string :=
  "Non-compliant namespace pattern '" ++ namespace_name
  ++ "': should be A.B format with PascalCase (e.g., Microsoft.Compute)".

Definition service_reason (service_name : string) : string :=
  "Non-compliant service name '" ++ service_name
  ++ "': should not contain special characters".

Definition too_short_reason (rel_path : string) : string :=
  "Path too short: " ++ rel_path.

Definition shared_folder_reason : string :=
  "Shared/common folder - compliant".

Definition mgmt_project_shape_reason (rel_path : string) : string :=
  "Non-compliant management plane TypeSpec structure: " ++ rel_path
  ++ " (must be exactly specification/{orgName}/resource-manager/{namespaceName}/{serviceName})".

Definition data_project_shape_reason (rel_path : string) : string :=
  "Non-compliant data plane TypeSpec structure: " ++ rel_path
  ++ " (must be exactly specification/{orgName}/data-plane/{serviceName})".

(** [has_typespec]: one of the two marker files exists in the folder. *)
Definition has_typespec (folder_path : string) : bool :=
  existsb (fun f => path_exists (posixpath.join folder_path f))
          ["tspconfig.yaml"; "main.tsp"].

(** [path_parts[i]]; every use is guarded by a test of [len(path_parts)]. *)
Definition part (path_parts : list string) (i : nat) : string :=
  nth i path_parts "".

(** [check_folder_structure_v2_compliance(folder_path, spec_base_path)] *)
Definition check_folder_structure_v2_compliance
  (folder_path spec_base_path : string) : py (bool * string) :=
  rel_path <- posixpath.relpath cwd folder_path spec_base_path ;;
  let path_parts := Str.split posixpath.sep rel_path in
  if Nat.ltb (List.length path_parts) 2 then
    Ok (false, too_short_reason rel_path)
  else if Str.mem (part path_parts 0) ["common-types"] then
    Ok (true, shared_folder_reason)
  else
    let folder_name := posixpath.basename folder_path in
    let has_typespec := has_typespec folder_path in
    let is_stable_preview_folder :=
      Str.mem (Str.lower folder_name) ["stable"; "preview"] in
    if has_typespec then
      if is_management_plane folder_path then
        if Nat.eqb (List.length path_parts) 4
           && String.eqb (part path_parts 1) "resource-manager" then
          let namespace_name := part path_parts 2 in
          let service_name := part path_parts 3 in
          if negb (is_valid_namespace_pattern namespace_name) then
            Ok (false, namespace_reason namespace_name)
          else if negb (is_valid_service_name service_name) then
            Ok (false, service_reason service_name)
          else Ok (true, "Compliant management plane TypeSpec project root")
        else
          Ok (false, mgmt_project_shape_reason rel_path)
      else
        if Nat.eqb (List.length path_parts) 3
           && String.eqb (part path_parts 1) "data-plane" then
          let service_name := part path_parts 2 in
          if negb (is_valid_service_name service_name) then
            Ok (false, service_reason service_name)
          else Ok (true, "Compliant data plane TypeSpec project root")
        else
          Ok (false, data_project_shape_reason rel_path)
    else if is_stable_preview_folder then
      if Str.contains "resource-manager" rel_path then
        if Nat.eqb (List.length path_parts) 5
           && String.eqb (part path_parts 1) "resource-manager"
           && String.eqb (part path_parts 4) folder_name then
          let namespace_name := part path_parts 2 in
          let service_name := part path_parts 3 in
          if negb (is_valid_namespace_pattern namespace_name) then
            Ok (false, namespace_reason namespace_name)
          else if negb (is_valid_service_name service_name) then
            Ok (false, service_reason service_name)
          else
            Ok (true, "Compliant management plane Swagger " ++ folder_name
                      ++ " folder")
        else
          Ok (false,
              "Non-compliant management plane Swagger " ++ folder_name
              ++ " structure: " ++ rel_path
              ++ " (must be exactly specification/{orgName}/resource-manager/{namespaceName}/{serviceName}/"
              ++ folder_name ++ ")")
      else if Str.contains "data-plane" rel_path then
        if Nat.eqb (List.length path_parts) 4
           && String.eqb (part path_parts 1) "data-plane"
           && String.eqb (part path_parts 3) folder_name then
          let service_name := part path_parts 2 in
          if negb (is_valid_service_name service_name) then
            Ok (false, service_reason service_name)
          else
            Ok (true, "Compliant data plane Swagger " ++ folder_name
                      ++ " folder")
        else
          Ok (false,
              "Non-compliant data plane Swagger " ++ folder_name
              ++ " structure: " ++ rel_path
              ++ " (must be exactly specification/{orgName}/data-plane/{serviceName}/"
              ++ folder_name ++ ")")
      else
        Ok (false,
            "Swagger " ++ folder_name
            ++ " folder not in resource-manager or data-plane structure: "
            ++ rel_path)
    else
      Ok (false,
          "Not a TypeSpec project root or Swagger stable/preview folder: "
          ++ rel_path).

End Compliance.

(* ================================================================== *)
(** ** The file system *)

(** A directory lists its entries in the order [os.scandir] reports them,
    each under its name (no [/] in it, and neither empty nor [.] nor
    [..]; of two entries with one name a path reaches the first).  A file
    holds its text, or [None] when reading it fails (no permission, bytes
    that are not UTF-8).  A symbolic link holds the node it leads to, or
    [None] when it dangles. *)
#[local] Set Warnings "-register-all".
Inductive fsnode : Type :=
| File (content : option string)
| Dir (entries : list (string * fsnode))
| Link (target : option fsnode).

(** The tree that sits at [fs_root].  [fs_root] is spelled from [/] or from
    the working directory, and the directories above it hold nothing but
    the way down to it. *)
Record filesystem : Type := {
  fs_root : string;
  fs_tree : fsnode
}.

Module os.

(** The node a path ends at once the links are followed: nothing behind a
    link that dangles. *)
Fixpoint resolve (n : fsnode) : option fsnode :=
  match n with
  | Link None => None
  | Link (Some target) => resolve target
  | File _ | Dir _ => Some n
  end.

(** [entry.is_symlink()] *)
Definition is_link (n : fsnode) : bool :=
  match n with Link _ => true | File _ | Dir _ => false end.

(** [entry.is_dir()], which follows links. *)
Definition is_dir (n : fsnode) : bool :=
  match resolve n with Some (Dir _) => true | _ => false end.

Definition entries (n : fsnode) : list (string * fsnode) :=
  match resolve n with Some (Dir es) => es | _ => [] end.

(** The names [os.walk] puts in [dirs]. *)
Definition dirnames (n : fsnode) : list string :=
  map fst (filter (fun e => is_dir (snd e)) (entries n)).

(** The names [os.walk] puts in [files]: every entry that is no directory,
    a link that dangles among them. *)
Definition filenames (n : fsnode) : list string :=
  map fst (filter (fun e => negb (is_dir (snd e))) (entries n)).

(** The names a path goes through, one after the other: an empty
    component and [.] name nothing. *)
Definition components (p : string) : list string :=
  filter (fun c => negb (String.eqb c "" || String.eqb c "."))
         (Str.split posixpath.sep p).

(** A path that ends in [/] or in [/.] names a directory or nothing. *)
Definition names_a_directory (p : string) : bool :=
  match rev (Str.split posixpath.sep p) with
  | last :: _ :: _ => String.eqb last "" || String.eqb last "."
  | _ => false
  end.

(** The entry of a directory under a name. *)
Definition child (es : list (string * fsnode)) (name : string)
  : option fsnode :=
  option_map snd (find (fun e => String.eqb (fst e) name) es).

(** The tree from where the spellings start, [/] or the working
    directory. *)
Definition tree_from_origin (fs : filesystem) : fsnode :=
  fold_right (fun name below => Dir [(name, below)])
             (fs_tree fs) (components (fs_root fs)).

(** The system's walk along the names of a path, from the directory
    [here]; [above] holds the directories the walk came through, the
    nearest first.  Every name but the last has to lead to a directory;
    [..] steps back to where the walk came from, [/..] is [/], and above
    the working directory the tree answers nothing.  (After a link to a
    directory the system steps back to the parent of the link's target,
    which this tree does not place.) *)
Fixpoint descend (absolute : bool) (above : list fsnode) (here : fsnode)
  (names : list string) : option fsnode :=
  match names with
  | [] => Some here
  | name :: rest =>
      match resolve here with
      | Some (Dir es) =>
          if String.eqb name ".." then
            match above with
            | parent :: above' => descend absolute above' parent rest
            | [] => if absolute then descend absolute [] here rest else None
            end
          else
            match child es name with
            | Some n => descend absolute (here :: above) n rest
            | None => None
            end
      | _ => None
      end
  end.

(** The node a path names, links in the way followed and the last one
    kept.  A path spelled from [/] names nothing in a tree spelled from
    the working directory, and the other way round. *)
Definition node_at (fs : filesystem) (p : string) : option fsnode :=
  if String.eqb p "" then None
  else if negb (Bool.eqb (posixpath.isabs p) (posixpath.isabs (fs_root fs)))
  then None
  else
    match descend (posixpath.isabs p) [] (tree_from_origin fs) (components p)
    with
    | Some n => if names_a_directory p && negb (is_dir n) then None else Some n
    | None => None
    end.

(** [os.path.exists(p)]: false for a link that dangles. *)
Definition path_exists (fs : filesystem) (p : string) : bool :=
  match node_at fs p with
  | Some n => match resolve n with Some _ => true | None => false end
  | None => false
  end.

(** [os.path.isdir(p)] *)
Definition path_isdir (fs : filesystem) (p : string) : bool :=
  match node_at fs p with Some n => is_dir n | None => false end.

(** [os.listdir(p)] *)
Definition listdir (fs : filesystem) (p : string) : py (list string) :=
  match node_at fs p with
  | Some n =>
      match resolve n with
      | Some (Dir es) => Ok (map fst es)
      | Some _ => Raise (OSError "Not a directory")
      | None => Raise (OSError "No such file or directory")
      end
  | None => Raise (OSError "No such file or directory")
  end.

(** [open(p, 'r', encoding='utf-8').read()] *)
Definition read_text (fs : filesystem) (p : string) : py string :=
  match node_at fs p with
  | Some n =>
      match resolve n with
      | Some (File (Some text)) => Ok text
      | Some (File None) => Raise (OSError "cannot read or decode")
      | Some _ => Raise (OSError "Is a directory")
      | None => Raise (OSError "No such file or directory")
      end
  | None => Raise (OSError "No such file or directory")
  end.

(** [os.walk(top)] below the directory [n] that [top] names, top-down,
    where the caller keeps in [dirs] the names that satisfy [keep]
    ([dirs[:] = [d for d in dirs if keep(d)]]).  Each step is
    [(root, dirs, files)].  A link to a directory is listed in [dirs] and
    not walked into ([followlinks] is left [False]). *)
Fixpoint walk_node (keep : string -> bool) (top : string) (n : fsnode)
  : list (string * list string * list string) :=
  match n with
  | File _ | Link _ => []
  | Dir es =>
      (top, filter keep (dirnames n), filenames n)
      :: (fix below (es : list (string * fsnode))
            : list (string * list string * list string) :=
            match es with
            | [] => []
            | (name, child) :: es' =>
                ((if is_dir child && negb (is_link child) && keep name
                  then walk_node keep (posixpath.join top name) child
                  else []) ++ below es')%list
            end) es
  end.

(** [os.walk(top)]: [top] itself may be a link to a directory; nothing
    when [top] is no directory. *)
Definition walk (fs : filesystem) (keep : string -> bool) (top : string)
  : list (string * list string * list string) :=
  match node_at fs top with
  | Some n =>
      match resolve n with
      | Some m => walk_node keep top m
      | None => []
      end
  | None => []
  end.

Definition step_root (st : string * list string * list string) : string :=
  fst (fst st).

Definition step_files (st : string * list string * list string)
  : list string := snd st.

End os.

(* ================================================================== *)
(** ** Scanning helpers *)

(** A walk whose caller leaves [dirs] as it is. *)
Definition keep_all (d : string) : bool := true.

(** [d.lower() != 'examples'] *)
Definition not_examples (d : string) : bool :=
  negb (String.eqb (Str.lower d) "examples").

(** [find_files_with_pattern(directory, pattern)] *)
Definition find_files_with_pattern (fs : filesystem)
  (directory pattern : string) : list string :=
  flat_map
    (fun st =>
       map (posixpath.join (os.step_root st))
           (filter (fun file => String.eqb file pattern) (os.step_files st)))
    (os.walk fs keep_all directory).

(** The test both swagger scans apply to a file of a walked directory. *)
Definition is_swagger_json (root file : string) : bool :=
  Str.endswith ".json" file
  && negb (Str.contains "examples" (Str.lower (posixpath.join root file))).

(** [find_swagger_files(org_path)] *)
Definition find_swagger_files (fs : filesystem) (org_path : string)
  : list string :=
  flat_map
    (fun st =>
       map (posixpath.join (os.step_root st))
           (filter (is_swagger_json (os.step_root st)) (os.step_files st)))
    (os.walk fs not_examples org_path).

(** [classify_swagger_files(swagger_files, org_path)] *)
Fixpoint classify_swagger_files (cwd : string) (swagger_files : list string)
  (org_path : string) : py (list string * list string) :=
  match swagger_files with
  | [] => Ok ([], [])
  | swagger_file :: rest =>
      rel_path <- posixpath.relpath cwd swagger_file org_path ;;
      r <- classify_swagger_files cwd rest org_path ;;
      let '(mgmt_swagger, data_swagger) := r in
      if Str.contains "resource-manager" rel_path then
        Ok (swagger_file :: mgmt_swagger, data_swagger)
      else if Str.contains "data-plane" rel_path then
        Ok (mgmt_swagger, swagger_file :: data_swagger)
      else Ok (mgmt_swagger, data_swagger)
  end.

(** [has_data_plane_swagger(org_path)] *)
Definition has_data_plane_swagger (fs : filesystem) (org_path : string)
  : bool :=
  let data_plane_path := posixpath.join org_path "data-plane" in
  if negb (os.path_exists fs data_plane_path) then false
  else
    existsb
      (fun st =>
         existsb
           (fun file =>
              Str.endswith ".json" file
              && (Str.contains "swagger" (Str.lower file)
                  || Str.contains "openapi" (Str.lower file)))
           (os.step_files st))
      (os.walk fs not_examples data_plane_path).

(** [count_readme_files_in_resource_manager(org_path)] *)
Definition count_readme_files_in_resource_manager (fs : filesystem)
  (org_path : string) : nat :=
  let rm_path := posixpath.join org_path "resource-manager" in
  if negb (os.path_exists fs rm_path) then 0
  else
    let readme_files := find_files_with_pattern fs rm_path "readme.md" in
    let readme_files_upper := find_files_with_pattern fs rm_path "README.md" in
    List.length (Str.distinct (readme_files ++ readme_files_upper)%list).

(* ================================================================== *)
(** ** The RPaaS detector *)

(** [is_rpaas_service(org_path)] *)
Definition is_rpaas_service (fs : filesystem) (org_path : string) : bool :=
  let rm_readme_path :=
    posixpath.join3 org_path "resource-manager" "readme.md" in
  let rm_readme_path :=
    if negb (os.path_exists fs rm_readme_path)
    then posixpath.join3 org_path "resource-manager" "README.md"
    else rm_readme_path in
  if negb (os.path_exists fs rm_readme_path) then false
  else
    match os.read_text fs rm_readme_path with
    | Ok content =>
        if Str.contains "openapi-subtype:" content
           && Str.contains "rpaas" (Str.lower content)
        then true else false
    | Raise _ => false
    end.

(* ================================================================== *)
(** ** The version-uniformity check *)

(** What [yaml.safe_load] returns: null, booleans, numbers (by their
    text), strings, sequences, and mappings as their items in order.  The
    tagged kinds (binary, timestamp, set) are left out. *)
Inductive yaml : Type :=
| YNull
| YBool (b : bool)
| YNum (repr : string)
| YStr (s : string)
| YSeq (items : list yaml)
| YMap (items : list (yaml * yaml)).

(** The searches of [re] and the loader of [yaml] that the check calls,
    each by its result: a search gives group 1 of the first match. *)
Record textlib : Type := {
  (** [re.search(r'(## Basic Information.*?)(?=##|\Z)', content,
      re.DOTALL | re.IGNORECASE)] *)
  search_basic_info : string -> option string;
  (** [re.search(r'default-tag:\s*(\S+)', section)] *)
  search_default_tag : string -> option string;
  (** [re.search(r'tag:\s*(\S+)', section)] *)
  search_tag : string -> option string;
  (** the fenced block guarded by [$(tag) == 'default_tag'], searched in
      [content] with [re.DOTALL]; the first argument is [default_tag] *)
  search_tag_block : string -> string -> option string;
  (** the alternative guard [$(default_tag)] *)
  search_tag_block_alt : string -> string -> option string;
  (** [yaml.safe_load(yaml_block)] *)
  yaml_safe_load : string -> py yaml
}.

(** [s[len(token):]] after the longest run of characters other than the
    slash, with the run: the greedy [[^/]+]. *)
Fixpoint span_no_slash (s : string) : string * string :=
  match s with
  | EmptyString => (EmptyString, EmptyString)
  | String c s' =>
      if Ascii.eqb c "/"%char then (EmptyString, s)
      else let '(tok, rest) := span_no_slash s' in (String c tok, rest)
  end.

(** The pattern [/(stable|preview)/([^/]+)/] matched at the start of [s]:
    group 2. *)
Definition version_match_here (s : string) : option string :=
  let after_kind :=
    if Str.startswith "/stable/" s then Some (Str.drop 8 s)
    else if Str.startswith "/preview/" s then Some (Str.drop 9 s)
    else None in
  match after_kind with
  | None => None
  | Some rest =>
      let '(tok, rest') := span_no_slash rest in
      if negb (String.eqb tok "") && Str.startswith "/" rest'
      then Some tok else None
  end.

(** [re.search(r'/(stable|preview)/([^/]+)/', input_file)]: group 2 of
    the leftmost match. *)
Fixpoint version_search (input_file : string) : option string :=
  match version_match_here input_file with
  | Some tok => Some tok
  | None =>
      match input_file with
      | EmptyString => None
      | String _ s' => version_search s'
      end
  end.

(** [yaml_data.get('input-file', [])] on a mapping's items *)
Fixpoint yaml_get_input_file (items : list (yaml * yaml)) : yaml :=
  match items with
  | [] => YSeq []
  | (YStr k, v) :: items' =>
      if String.eqb k "input-file" then v else yaml_get_input_file items'
  | _ :: items' => yaml_get_input_file items'
  end.

(** [iter(v)]: what a [for] loop over [v] visits. *)
Definition yaml_iter (v : yaml) : py (list yaml) :=
  match v with
  | YSeq items => Ok items
  | YMap items => Ok (map fst items)
  | YStr s => Ok (map (fun c => YStr (String c EmptyString))
                      (list_ascii_of_string s))
  | YNull | YBool _ | YNum _ => Raise (TypeError "object is not iterable")
  end.

(** The loop that fills [api_versions], the set as the list of the
    versions added so far; [re.search] raises on a value that is no
    string. *)
Fixpoint collect_api_versions (input_files : list yaml)
  (api_versions : list string) : py (list string) :=
  match input_files with
  | [] => Ok api_versions
  | YStr input_file :: rest =>
      match version_search input_file with
      | Some api_version =>
          collect_api_versions rest (api_versions ++ [api_version])%list
      | None => collect_api_versions rest api_versions
      end
  | _ :: _ => Raise (TypeError "expected string or bytes-like object")
  end.

Section VersionUniform.

Variable lib : textlib.

(** The default tag of a document, [None] when the loop [continue]s on
    [not default_tag]. *)
Definition find_default_tag (content : string) : option string :=
  let default_tag :=
    match search_basic_info lib content with
    | Some basic_info_section =>
        match search_default_tag lib basic_info_section with
        | Some t => Some t
        | None => search_tag lib basic_info_section
        end
    | None => None
    end in
  match default_tag with
  | Some t => if String.eqb t "" then None else Some t
  | None => None
  end.

(** The YAML block of the default tag, by either guard. *)
Definition find_tag_block (default_tag content : string) : option string :=
  match search_tag_block lib default_tag content with
  | Some b => Some b
  | None => search_tag_block_alt lib default_tag content
  end.

(** The inner [try] once [yaml_block] is known: whether the statements
    under [if len(api_versions) > 1] are reached.  [except yaml.YAMLError]
    turns a loader error into [continue]; any other exception leaves
    through the outer handler. *)
Definition block_has_issue (yaml_block : string) : py bool :=
  match yaml_safe_load lib yaml_block with
  | Raise (YAMLError _) => Ok false
  | Raise e => Raise e
  | Ok yaml_data =>
      match yaml_data with
      | YMap (item :: items) =>
          let input_files := yaml_get_input_file (item :: items) in
          input_files <-
            match input_files with
            | YStr s => Ok [YStr s]
            | v => yaml_iter v
            end ;;
          api_versions <- collect_api_versions input_files [] ;;
          Ok (Nat.ltb 1 (List.length (Str.distinct api_versions)))
      | _ => Ok false
      end
  end.

(** The body of the loop over the documents, up to the flagging
    statements, for a document that was read. *)
Definition content_has_issue (content : string) : py bool :=
  match find_default_tag content with
  | None => Ok false
  | Some default_tag =>
      match find_tag_block default_tag content with
      | None => Ok false
      | Some yaml_block => block_has_issue yaml_block
      end
  end.

(** Whether the check flags a document with this text: the outer
    [except Exception] skips the document. *)
Definition document_flagged (content : string) : bool :=
  match content_has_issue content with
  | Ok b => b
  | Raise _ => false
  end.

Variable cwd : string.
Variable fs : filesystem.

(** One turn of the loop over [readme_files]; the state is
    [(has_version_uniform_issue, problematic_readmes)]. *)
Definition check_readme (org_path : string) (st : bool * list string)
  (readme_path : string) : bool * list string :=
  match os.read_text fs readme_path with
  | Raise _ => st
  | Ok content =>
      if document_flagged content then
        match posixpath.relpath cwd readme_path org_path with
        | Ok rel_readme_path => (true, (snd st ++ [rel_readme_path])%list)
        | Raise _ => (true, snd st)
        end
      else st
  end.

(** The list [readme_files] the walk of [rm_path] collects. *)
Definition readme_files_below (rm_path : string) : list string :=
  flat_map
    (fun st =>
       map (posixpath.join (os.step_root st))
           (filter (fun file =>
                      Str.mem (Str.lower file) ["readme.md"; "README.md"])
                   (os.step_files st)))
    (os.walk fs keep_all rm_path).

(** [check_version_uniform_issues(org_path)] *)
Definition check_version_uniform_issues (org_path : string)
  : bool * list string :=
  let rm_path := posixpath.join org_path "resource-manager" in
  if negb (os.path_exists fs rm_path) then (false, [])
  else
    let readme_files := readme_files_below rm_path in
    fold_left (check_readme org_path) readme_files (false, []).

End VersionUniform.

(* ================================================================== *)
(** ** The per-organization analysis *)

(** The dictionary [analyze_organization] returns, and the one [main]
    builds for a failed analysis (the only one with an ['error'] key). *)
Record OrgRecord : Type := {
  organization : string;
  total_typespec_projects : nat;
  management_plane_typespec_projects : nat;
  data_plane_typespec_projects : nat;
  total_swagger_files : nat;
  management_plane_swagger_files : nat;
  data_plane_swagger_files : nat;
  total_folders : nat;
  compliant_folders : nat;
  non_compliant_folders : nat;
  org_fully_compliant : bool;
  is_simple_structure : bool;
  non_compliant_details : list (string * string);
  has_data_plane_swagger_field : bool;
  readme_count_in_rm : nat;
  is_rpaas_service_field : bool;
  has_version_uniform_issue : bool;
  problematic_readmes : list string;
  typespec_project_paths : list string;
  mgmt_typespec_project_paths : list string;
  data_typespec_project_paths : list string;
  swagger_file_paths : list string;
  mgmt_swagger_file_paths : list string;
  data_swagger_file_paths : list string;
  all_folder_paths : list string;
  compliant_folder_paths : list string;
  non_compliant_folder_paths : list string;
  error : option string
}.

Section Organization.

Variable lib : textlib.
Variable cwd : string.
Variable fs : filesystem.

(** [folder_name.lower() in ['stable', 'preview']] for the walked [root] *)
Definition is_stable_preview (root : string) : bool :=
  Str.mem (Str.lower (posixpath.basename root)) ["stable"; "preview"].

(** The inner walk that sets [has_swagger_in_this_branch]. *)
Definition has_swagger_in_this_branch (root : string) : bool :=
  existsb
    (fun st => existsb (is_swagger_json (os.step_root st)) (os.step_files st))
    (os.walk fs not_examples root).

(** The directories walked below [org_path], [examples] pruned. *)
Definition walked_roots (org_path : string) : list string :=
  map os.step_root (os.walk fs not_examples org_path).

(** The roots the first walk appends to [typespec_projects]. *)
Definition typespec_projects_of (org_path : string) : list string :=
  map os.step_root
    (filter (fun st => Str.mem "tspconfig.yaml" (os.step_files st)
                       || Str.mem "main.tsp" (os.step_files st))
            (os.walk fs not_examples org_path)).

(** The stable/preview folders the second walk appends to [all_folders]. *)
Definition swagger_version_folders (org_path : string) : list string :=
  filter (fun root => is_stable_preview root && has_swagger_in_this_branch root)
         (walked_roots org_path).

(** The set [mgmt_stable_preview_parents] ([plane_keyword] being
    ['resource-manager']) or [data_stable_preview_parents] (['data-plane']),
    without repetition. *)
Definition stable_preview_parents (plane_keyword org_path : string)
  : list string :=
  Str.distinct
    (map posixpath.dirname
       (filter (fun root => is_stable_preview root
                            && Str.contains plane_keyword root
                            && has_swagger_in_this_branch root)
               (walked_roots org_path))).

(** The loop [for folder in all_folders], the state being
    [(compliant_folders, non_compliant_folders)]. *)
Fixpoint check_all_folders (spec_base_path : string) (folders : list string)
  (st : list string * list (string * string))
  : py (list string * list (string * string)) :=
  match folders with
  | [] => Ok st
  | folder :: rest =>
      r <- check_folder_structure_v2_compliance cwd (os.path_exists fs)
             folder spec_base_path ;;
      let '(is_compliant, reason) := r in
      if is_compliant
      then check_all_folders spec_base_path rest
             ((fst st ++ [folder])%list, snd st)
      else check_all_folders spec_base_path rest
             (fst st, (snd st ++ [(folder, reason)])%list)
  end.

(** The simple-structure flag from the two plane checks, as the code
    assigns it. *)
Definition simple_structure_flag (org_path : string)
  (mgmt_typespec_projects data_typespec_projects : list string) : bool :=
  let is_simple_structure := true in
  let is_simple_structure :=
    if Nat.ltb 0 (List.length mgmt_typespec_projects) then
      let mgmt_stable_preview_parents :=
        stable_preview_parents "resource-manager" org_path in
      if negb (Nat.eqb (List.length mgmt_stable_preview_parents)
                       (List.length mgmt_typespec_projects))
      then false else is_simple_structure
    else is_simple_structure in
  let is_simple_structure :=
    if Nat.ltb 0 (List.length data_typespec_projects) then
      let data_stable_preview_parents :=
        stable_preview_parents "data-plane" org_path in
      if negb (Nat.eqb (List.length data_stable_preview_parents)
                       (List.length data_typespec_projects))
      then false else is_simple_structure
    else is_simple_structure in
  is_simple_structure.

(** [analyze_organization(org_path, spec_base_path)] *)
Definition analyze_organization (org_path spec_base_path : string)
  : py OrgRecord :=
  let org_name := posixpath.basename org_path in
  let typespec_projects := typespec_projects_of org_path in
  let swagger_files := find_swagger_files fs org_path in
  classified <- classify_swagger_files cwd swagger_files org_path ;;
  let '(mgmt_swagger_files, data_swagger_files) := classified in
  let mgmt_typespec_projects := filter is_management_plane typespec_projects in
  let data_typespec_projects :=
    filter (fun project => negb (is_management_plane project))
           typespec_projects in
  let all_folders :=
    (typespec_projects ++ swagger_version_folders org_path)%list in
  checked <- check_all_folders spec_base_path all_folders ([], []) ;;
  let '(compliant, non_compliant) := checked in
  let has_dp_swagger := has_data_plane_swagger fs org_path in
  let readme_count := count_readme_files_in_resource_manager fs org_path in
  let is_rpaas := is_rpaas_service fs org_path in
  let '(has_issue, problematic) :=
    check_version_uniform_issues lib cwd fs org_path in
  let org_is_fully_compliant :=
    Nat.eqb (List.length non_compliant) 0
    && Nat.ltb 0 (List.length all_folders) in
  let simple :=
    simple_structure_flag org_path mgmt_typespec_projects
      data_typespec_projects in
  Ok {| organization := org_name;
        total_typespec_projects := List.length typespec_projects;
        management_plane_typespec_projects :=
          List.length mgmt_typespec_projects;
        data_plane_typespec_projects := List.length data_typespec_projects;
        total_swagger_files := List.length swagger_files;
        management_plane_swagger_files := List.length mgmt_swagger_files;
        data_plane_swagger_files := List.length data_swagger_files;
        total_folders := List.length all_folders;
        compliant_folders := List.length compliant;
        non_compliant_folders := List.length non_compliant;
        org_fully_compliant := org_is_fully_compliant;
        is_simple_structure := simple;
        non_compliant_details := non_compliant;
        has_data_plane_swagger_field := has_dp_swagger;
        readme_count_in_rm := readme_count;
        is_rpaas_service_field := is_rpaas;
        has_version_uniform_issue := has_issue;
        problematic_readmes := problematic;
        typespec_project_paths := typespec_projects;
        mgmt_typespec_project_paths := mgmt_typespec_projects;
        data_typespec_project_paths := data_typespec_projects;
        swagger_file_paths := swagger_files;
        mgmt_swagger_file_paths := mgmt_swagger_files;
        data_swagger_file_paths := data_swagger_files;
        all_folder_paths := all_folders;
        compliant_folder_paths := compliant;
        non_compliant_folder_paths := map fst non_compliant;
        error := None |}.

End Organization.

(* ================================================================== *)
(** ** The driver *)

(** The entry [main] appends when the analysis of [org_name] raised [e]. *)
Definition failed_record (org_name : string) (e : exn) : OrgRecord :=
  {| organization := org_name;
     total_typespec_projects := 0;
     management_plane_typespec_projects := 0;
     data_plane_typespec_projects := 0;
     total_swagger_files := 0;
     management_plane_swagger_files := 0;
     data_plane_swagger_files := 0;
     total_folders := 0;
     compliant_folders := 0;
     non_compliant_folders := 0;
     org_fully_compliant := false;
     is_simple_structure := true;
     non_compliant_details := [];
     has_data_plane_swagger_field := false;
     readme_count_in_rm := 0;
     is_rpaas_service_field := false;
     has_version_uniform_issue := false;
     problematic_readmes := [];
     typespec_project_paths := [];
     mgmt_typespec_project_paths := [];
     data_typespec_project_paths := [];
     swagger_file_paths := [];
     mgmt_swagger_file_paths := [];
     data_swagger_file_paths := [];
     all_folder_paths := [];
     compliant_folder_paths := [];
     non_compliant_folder_paths := [];
     error := Some (exn_str e) |}.

Section Driver.

(** The call [analyze_organization(org_path, spec_base_path)] as it ends on
    the machine, by returning a record or by raising: the loop of [main]
    depends on nothing else of it. *)
Variable run_analysis : string -> string -> py OrgRecord.

(** The loop [for i, org_path in enumerate(org_dirs, 1)], [results] being
    the list built so far. *)
Fixpoint analysis_loop (spec_base_path : string) (org_dirs : list string)
  (results : list OrgRecord) : list OrgRecord :=
  match org_dirs with
  | [] => results
  | org_path :: rest =>
      let org_name := posixpath.basename org_path in
      match run_analysis org_path spec_base_path with
      | Ok result =>
          analysis_loop spec_base_path rest (results ++ [result])%list
      | Raise e =>
          analysis_loop spec_base_path rest
            (results ++ [failed_record org_name e])%list
      end
  end.

End Driver.

Definition spec_base_path_of_main : string :=
  "/Users/qiaoqiaozhang/code/azure-rest-api-specs/specification".

(** The organization directories [main] enumerates under
    [spec_base_path]; [os.listdir] raising ends the run. *)
Definition organization_dirs (fs : filesystem) (spec_base_path : string)
  : py (list string) :=
  items <- os.listdir fs spec_base_path ;;
  Ok (map (posixpath.join spec_base_path)
        (filter (fun item =>
                   os.path_isdir fs (posixpath.join spec_base_path item)
                   && negb (Str.startswith "." item)
                   && negb (String.eqb item "suppressions.yaml"))
                items)).

(** [main()] up to the list [results]; the summary and the spreadsheet
    are computed from [results] and add nothing to it. *)
Definition main_results (lib : textlib) (cwd : string) (fs : filesystem)
  : py (list OrgRecord) :=
  let spec_base_path := spec_base_path_of_main in
  org_dirs <- organization_dirs fs spec_base_path ;;
  Ok (analysis_loop (analyze_organization lib cwd fs) spec_base_path
        org_dirs []).

(* ================================================================== *)
(** ** The summary and the report rows of [main] *)

(** [sum(r[field] for r in results)] *)
Definition sum_of (field : OrgRecord -> nat) (results : list OrgRecord)
  : nat :=
  fold_right (fun r acc => field r + acc) 0 results.

(** [len([r for r in results if test(r)])] *)
Definition count_where (test : OrgRecord -> bool) (results : list OrgRecord)
  : nat :=
  List.length (filter test results).

(** The totals [main] prints under [=== SUMMARY ===]. *)
Record SummaryTotals : Type := {
  total_typespec : nat;
  total_mgmt_typespec : nat;
  total_data_typespec : nat;
  total_swagger : nat;
  total_mgmt_swagger : nat;
  total_data_swagger : nat;
  total_folders_analyzed : nat;
  total_compliant_folders : nat;
  total_non_compliant_folders : nat;
  total_fully_compliant_orgs : nat
}.

Definition summary_totals (results : list OrgRecord) : SummaryTotals :=
  {| total_typespec := sum_of total_typespec_projects results;
     total_mgmt_typespec := sum_of management_plane_typespec_projects results;
     total_data_typespec := sum_of data_plane_typespec_projects results;
     total_swagger := sum_of total_swagger_files results;
     total_mgmt_swagger := sum_of management_plane_swagger_files results;
     total_data_swagger := sum_of data_plane_swagger_files results;
     total_folders_analyzed := sum_of total_folders results;
     total_compliant_folders := sum_of compliant_folders results;
     total_non_compliant_folders := sum_of non_compliant_folders results;
     total_fully_compliant_orgs := count_where org_fully_compliant results |}.

(** One entry of [df_data]: a row of the sheet
    [Simplified Analysis Report], the fields being its columns. *)
Record ReportRow : Type := {
  row_organization : string;
  row_fully_compliant : bool;
  row_is_simple_structure : bool;
  row_is_rpaas_service : bool;
  row_has_data_plane : bool;
  row_has_typespec : bool;
  row_has_version_uniform_issue : bool;
  row_problematic_readmes : string;
  row_compliant_folders : string;
  row_non_compliant_folders : string
}.

(** [[os.path.relpath(p, spec_base_path) for p in paths]] *)
Fixpoint relpaths (cwd spec_base_path : string) (paths : list string)
  : py (list string) :=
  match paths with
  | [] => Ok []
  | p :: rest =>
      rel <- posixpath.relpath cwd p spec_base_path ;;
      rels <- relpaths cwd spec_base_path rest ;;
      Ok (rel :: rels)
  end.

(** The body of the loop [for result in results] that fills [df_data]. *)
Definition report_row (cwd spec_base_path : string) (result : OrgRecord)
  : py ReportRow :=
  let has_data_plane_typespec :=
    Nat.ltb 0 (data_plane_typespec_projects result) in
  let has_data_plane_swagger := has_data_plane_swagger_field result in
  let has_data_plane := has_data_plane_typespec || has_data_plane_swagger in
  let has_mgmt_plane_typespec :=
    Nat.ltb 0 (management_plane_typespec_projects result) in
  let has_mgmt_or_data_plane_typespec :=
    has_mgmt_plane_typespec || has_data_plane_typespec in
  compliant_folder_paths <-
    relpaths cwd spec_base_path (compliant_folder_paths result) ;;
  non_compliant_folder_paths <-
    relpaths cwd spec_base_path (non_compliant_folder_paths result) ;;
  let problematic_readmes_str :=
    match problematic_readmes result with
    | [] => ""
    | readmes => Str.join ";" readmes
    end in
  Ok {| row_organization := organization result;
        row_fully_compliant := org_fully_compliant result;
        row_is_simple_structure := is_simple_structure result;
        row_is_rpaas_service := is_rpaas_service_field result;
        row_has_data_plane := has_data_plane;
        row_has_typespec := has_mgmt_or_data_plane_typespec;
        row_has_version_uniform_issue := has_version_uniform_issue result;
        row_problematic_readmes := problematic_readmes_str;
        row_compliant_folders := Str.join ";" compliant_folder_paths;
        row_non_compliant_folders := Str.join ";" non_compliant_folder_paths |}.

(** [df_data]: the rows in the order of [results], or the first
    exception. *)
Fixpoint report_rows (cwd spec_base_path : string) (results : list OrgRecord)
  : py (list ReportRow) :=
  match results with
  | [] => Ok []
  | result :: rest =>
      row <- report_row cwd spec_base_path result ;;
      rows <- report_rows cwd spec_base_path rest ;;
      Ok (row :: rows)
  end.

(** [summary_data]: the rows of the sheet [Summary]. *)
Definition summary_data (results : list OrgRecord) : list (string * nat) :=
  let total_orgs := List.length results in
  let fully_compliant_orgs := count_where org_fully_compliant results in
  let rpaas_orgs := count_where is_rpaas_service_field results in
  let has_data_plane_orgs :=
    count_where (fun r => Nat.ltb 0 (data_plane_typespec_projects r)
                          || has_data_plane_swagger_field r) results in
  let has_both_planes_typespec_orgs :=
    count_where (fun r => Nat.ltb 0 (management_plane_typespec_projects r)
                          || Nat.ltb 0 (data_plane_typespec_projects r))
                results in
  [("Total Organizations", total_orgs);
   ("Fully Compliant Organizations", fully_compliant_orgs);
   ("RPaaS Organizations", rpaas_orgs);
   ("Organizations with Data Plane (TypeSpec or Swagger)",
    has_data_plane_orgs);
   ("Organizations with TypeSpec Projects",
    count_where (fun r => Nat.ltb 0 (total_typespec_projects r)) results);
   ("Organizations with Swagger Files",
    count_where (fun r => Nat.ltb 0 (total_swagger_files r)) results);
   ("Organizations with TypeSpec (Mgmt or Data Plane)",
    has_both_planes_typespec_orgs)].

(** What [main()] hands to the spreadsheet writer. *)
Record Report : Type := {
  report_totals : SummaryTotals;
  report_sheet : list ReportRow;
  report_summary : list (string * nat)
}.

(** [main()] up to the call of the spreadsheet writer. *)
Definition main_report (lib : textlib) (cwd : string) (fs : filesystem)
  : py Report :=
  results <- main_results lib cwd fs ;;
  let totals := summary_totals results in
  df_data <- report_rows cwd spec_base_path_of_main results ;;
  Ok {| report_totals := totals;
        report_sheet := df_data;
        report_summary := summary_data results |}.

(* ================================================================== *)
(** * The vocabulary of the properties

    The predicates in which the properties are stated, and the sample
    inputs at which they are instantiated. *)

(** ** Strings *)

(** [n] occurs in [h]. *)
Definition Substring (n h : string) : Prop :=
  exists p q, h = p ++ n ++ q.

(** The characters of a string. *)
Definition chars (s : string) : list ascii := list_ascii_of_string s.

(** The segments of a path, and the last of them. *)
Definition path_segments (p : string) : list string :=
  Str.split posixpath.sep p.

Definition last_segment (p : string) : string :=
  last (path_segments p) "".

(** ** The namespace pattern *)

(** A PascalCase token: non-empty, an uppercase letter first, every
    character alphanumeric or a dot. *)
Definition pascal_case_token (t : string) : Prop :=
  (exists c r, t = String c r /\ Str.isupper c = true)
  /\ forall x, In x (chars t) -> Str.isalnum x = true \/ x = "."%char.

Definition dot_free (t : string) : Prop := ~ In "."%char (chars t).

(** Exactly one dot, which splits the string into two PascalCase tokens
    with no dot in them. *)
Definition namespace_pattern (s : string) : Prop :=
  exists a b, s = a ++ "." ++ b
              /\ dot_free a /\ dot_free b
              /\ pascal_case_token a /\ pascal_case_token b.

(** ** The compliance rules for project roots *)

(** The mandated shapes of a project root's path below the repository
    root. *)
Definition mgmt_project_shape (rel : string) : Prop :=
  List.length (path_segments rel) = 4
  /\ part (path_segments rel) 1 = "resource-manager".

Definition data_project_shape (rel : string) : Prop :=
  List.length (path_segments rel) = 3
  /\ part (path_segments rel) 1 = "data-plane".

(** Splits the conjuncts of a verdict's description and closes each from
    the facts at hand; [D] is the distinctness of the reasons. *)
Ltac settle_verdict D :=
  repeat match goal with
         | |- _ /\ _ => split
         | |- _ <-> _ => split
         end;
  try exact D; intros;
  repeat match goal with H : _ /\ _ |- _ => destruct H end;
  try tauto; try discriminate; try congruence.

(** A file system view in which exactly [marker] exists. *)
Definition only_file (marker : string) : string -> bool :=
  fun p => String.eqb p marker.

(** ** The RPaaS flag *)

(** The resource-manager build-configuration document of an organization:
    [readme.md], or else [README.md], when it exists. *)
Definition rm_document (fs : filesystem) (org_path : string)
  : option string :=
  let lower_name := posixpath.join3 org_path "resource-manager" "readme.md" in
  let upper_name := posixpath.join3 org_path "resource-manager" "README.md" in
  if os.path_exists fs lower_name then Some lower_name
  else if os.path_exists fs upper_name then Some upper_name
  else None.

(** An organization whose resource-manager document spells the key
    [OpenAPI-Subtype:]. *)
Definition rpaas_capitalised_fs : filesystem :=
  {| fs_root := "/spec/contoso";
     fs_tree :=
       Dir [("resource-manager",
             Dir [("readme.md", File (Some "OpenAPI-Subtype: rpaas"))])] |}.

(** ** The driver loop *)

(** What the loop records for one organization. *)
Definition recorded (run_analysis : string -> string -> py OrgRecord)
  (spec_base_path org_path : string) : OrgRecord :=
  match run_analysis org_path spec_base_path with
  | Ok result => result
  | Raise e => failed_record (posixpath.basename org_path) e
  end.

(** The searches and the loader on texts in which nothing is found. *)
Definition no_textlib : textlib :=
  {| search_basic_info := fun _ => None;
     search_default_tag := fun _ => None;
     search_tag := fun _ => None;
     search_tag_block := fun _ _ => None;
     search_tag_block_alt := fun _ _ => None;
     yaml_safe_load := fun _ => Raise (YAMLError "") |}.

(** A run in which the analysis of the first organization raises and that
    of the second returns. *)
Definition sample_run (org_path spec_base_path : string) : py OrgRecord :=
  if String.eqb org_path "/spec/locked"
  then Raise (OSError "[Errno 13] Permission denied")
  else analyze_organization no_textlib "/"
         {| fs_root := "/spec";
            fs_tree := Dir [("locked", Dir []); ("contoso", Dir [])] |}
         org_path spec_base_path.

(** ** The fully-compliant flag *)

(** An organization directory with nothing in it. *)
Definition empty_org_fs : filesystem :=
  {| fs_root := "/spec"; fs_tree := Dir [("contoso", Dir [])] |}.

(** ** The simple-structure flag *)

(** One management-plane project, whose folder is the one parent of a
    version folder. *)
Definition one_project_fs : filesystem :=
  {| fs_root := "/spec";
     fs_tree :=
       Dir [("contoso",
             Dir [("resource-manager",
                   Dir [("Microsoft.Contoso",
                         Dir [("widgets",
                               Dir [("tspconfig.yaml", File (Some "emit: []"));
                                    ("stable",
                                     Dir [("2021-01-01",
                                           Dir [("widgets.json",
                                                 File (Some "{}"))])])])])])])] |}.

(** Two management-plane projects and three folders that are parents of
    version folders. *)
Definition three_parents_fs : filesystem :=
  {| fs_root := "/spec";
     fs_tree :=
       Dir [("contoso",
             Dir [("resource-manager",
                   Dir [("Microsoft.Contoso",
                         Dir [("widgets",
                               Dir [("tspconfig.yaml", File (Some "emit: []"));
                                    ("stable",
                                     Dir [("2021-01-01",
                                           Dir [("widgets.json",
                                                 File (Some "{}"))])])]);
                              ("gadgets",
                               Dir [("main.tsp", File (Some "import x;"));
                                    ("preview",
                                     Dir [("2022-02-02-preview",
                                           Dir [("gadgets.json",
                                                 File (Some "{}"))])])]);
                              ("legacy",
                               Dir [("stable",
                                     Dir [("2019-01-01",
                                           Dir [("legacy.json",
                                                 File (Some "{}"))])])])])])])] |}.

(** One data-plane project, whose folder is the one parent of a version
    folder, in an organization without a [data-plane] directory. *)
Definition unplaced_data_project_fs : filesystem :=
  {| fs_root := "/spec";
     fs_tree :=
       Dir [("contoso",
             Dir [("widgets",
                   Dir [("main.tsp", File (Some "import x;"));
                        ("stable",
                         Dir [("2021-01-01",
                               Dir [("widgets.json",
                                     File (Some "{}"))])])])])] |}.

(** A walk leaves out the directories named [examples], in any letter
    case. *)
Definition outside_examples (d : string) : bool :=
  if string_dec (Str.lower d) "examples" then false else true.

(** The project roots of an organization: the walked directories that list
    a marker file, one entry for each. *)
Definition project_roots (fs : filesystem) (org_path : string)
  : list string :=
  flat_map
    (fun st =>
       if in_dec string_dec "tspconfig.yaml" (os.step_files st)
       then [os.step_root st]
       else if in_dec string_dec "main.tsp" (os.step_files st)
            then [os.step_root st]
            else [])
    (os.walk fs outside_examples org_path).

(** The directory is named [stable] or [preview], in any letter case. *)
Definition named_stable_or_preview (root : string) : Prop :=
  Str.lower (last_segment root) = "stable"
  \/ Str.lower (last_segment root) = "preview".

(** Below [root], outside the [examples] directories, a file is listed
    whose name ends with [.json] and whose path has no [examples] in any
    letter case. *)
Definition definition_file_below (fs : filesystem) (root : string) : Prop :=
  exists st file stem,
    In st (os.walk fs outside_examples root)
    /\ In file (os.step_files st)
    /\ file = stem ++ ".json"
    /\ ~ Substring "examples"
           (Str.lower (posixpath.join (os.step_root st) file)).

(** A version folder of the organization whose path contains [keyword]. *)
Definition version_folder (fs : filesystem) (org_path keyword root : string)
  : Prop :=
  In root (map os.step_root (os.walk fs outside_examples org_path))
  /\ named_stable_or_preview root
  /\ Substring keyword root
  /\ definition_file_below fs root.

(** The segments of a list up to its last non-empty one. *)
Fixpoint without_trailing_empty (l : list string) : list string :=
  match l with
  | [] => []
  | s :: l' =>
      match without_trailing_empty l' with
      | [] => if String.eqb s "" then [] else [s]
      | kept => s :: kept
      end
  end.

(** The parent directory of a path: the segments before the last one,
    joined again without the empty segments that end them; when they are
    all empty the path starts at the root, and the parent is the slashes
    it starts with. *)
Definition parent_directory (p : string) : string :=
  let before := removelast (path_segments p) in
  match before with
  | [] => ""
  | _ :: _ =>
      if forallb (String.eqb "") before
      then Str.join "/" before ++ "/"
      else Str.join "/" (without_trailing_empty before)
  end.

(** [parents] lists, each once, the parent directories of the version
    folders whose path contains [keyword]. *)
Definition version_folder_parents (fs : filesystem)
  (org_path keyword : string) (parents : list string) : Prop :=
  NoDup parents
  /\ forall parent,
       In parent parents <->
       exists root,
         version_folder fs org_path keyword root
         /\ parent = parent_directory root.

(** The parent directories of the version folders that the plane
    classifier assigns to a plane, each once. *)
Definition classified_parents (fs : filesystem) (org_path : string)
  (management : bool) : list string :=
  nodup string_dec
    (map parent_directory
       (filter (fun root => Bool.eqb (is_management_plane root) management)
               (swagger_version_folders fs org_path))).

(** ** The version-folder pattern *)

(** [s] matches [/(stable|preview)/([^/]+)/] from its first character, the
    token being [tok] and [post] what follows the match. *)
Definition version_pattern_here (tok post s : string) : Prop :=
  exists kind,
    (kind = "stable" \/ kind = "preview")
    /\ s = "/" ++ kind ++ "/" ++ tok ++ "/" ++ post
    /\ tok <> ""
    /\ ~ In "/"%char (chars tok).

(** ** The version-uniformity verdict of a document *)

Definition is_text (v : yaml) : bool :=
  match v with YStr _ => true | _ => false end.

(** The input-file entries of a loaded block: the items of the value
    under [input-file], a single string standing for the one-element
    list; none when there is no such value or it cannot be iterated. *)
Definition input_file_entries (yaml_data : yaml) : list yaml :=
  match yaml_data with
  | YMap items =>
      match yaml_get_input_file items with
      | YStr s => [YStr s]
      | YSeq entries => entries
      | YMap kv => map fst kv
      | YNull | YBool _ | YNum _ => []
      end
  | _ => []
  end.

(** The version-folder tokens the pattern extracts from the entries that
    are strings. *)
Definition version_tokens (entries : list yaml) : list string :=
  flat_map
    (fun entry =>
       match entry with
       | YStr input_file =>
           match version_search input_file with
           | Some api_version => [api_version]
           | None => []
           end
       | _ => []
       end)
    entries.

(** Whether the check flags the document at [readme_path]: it can be
    read and its text is flagged. *)
Definition flagged_at (lib : textlib) (fs : filesystem)
  (readme_path : string) : bool :=
  match os.read_text fs readme_path with
  | Ok content => document_flagged lib content
  | Raise _ => false
  end.

(** ** A sample document *)

Definition nl : string := String (ascii_of_nat 10) "".

(** The body of a fenced block that lists [entries] under [input-file]. *)
Definition input_file_block (entries : list string) : string :=
  nl ++ "input-file:" ++ nl
  ++ Str.join "" (map (fun entry => "  - " ++ entry ++ nl) entries).

Definition sample_basic_info : string :=
  "## Basic Information" ++ nl ++ nl
  ++ "``` yaml" ++ nl
  ++ "openapi-type: arm" ++ nl
  ++ "tag: package-2022-02" ++ nl
  ++ "```" ++ nl ++ nl.

(** A build-configuration document whose default tag is
    [package-2022-02], the block of that tag having the body [block]. *)
Definition sample_readme (block : string) : string :=
  "# Contoso" ++ nl ++ nl
  ++ sample_basic_info
  ++ "### Tag: package-2022-02" ++ nl ++ nl
  ++ "``` yaml $(tag) == 'package-2022-02'" ++ block ++ "```" ++ nl.

(** What [re] and [yaml] answer on [sample_readme block], [loaded] being
    the value of the block body: the section runs to the next heading, the
    tag is the bare [tag:] declaration, the first guard syntax finds the
    block. *)
Definition sample_textlib (block : string) (loaded : yaml) : textlib :=
  {| search_basic_info := fun content =>
       if String.eqb content (sample_readme block)
       then Some sample_basic_info else None;
     search_default_tag := fun _ => None;
     search_tag := fun section =>
       if String.eqb section sample_basic_info
       then Some "package-2022-02" else None;
     search_tag_block := fun default_tag content =>
       if String.eqb default_tag "package-2022-02"
          && String.eqb content (sample_readme block)
       then Some block else None;
     search_tag_block_alt := fun _ _ => None;
     yaml_safe_load := fun text =>
       if String.eqb text block then Ok loaded
       else Raise (YAMLError "not the sample block") |}.

Definition two_versions : list string :=
  ["Microsoft.Contoso/stable/2021-01-01/widgets.json";
   "Microsoft.Contoso/stable/2022-02-02/widgets.json"].

Definition same_version_twice : list string :=
  ["Microsoft.Contoso/stable/2021-01-01/widgets.json";
   "Microsoft.Contoso/stable/2021-01-01/gadgets.json"].

(** The value of a block body that lists [entries], all of them text. *)
Definition loaded_entries (entries : list string) : yaml :=
  YMap [(YStr "input-file", YSeq (map YStr entries))].

(** The value of the block body that lists [two_versions] and then the
    number 5. *)
Definition loaded_with_number : yaml :=
  YMap [(YStr "input-file", YSeq (map YStr two_versions ++ [YNum "5"])%list)].

(** ** The scan and the record *)

(** Whether the path of [file] relative to [org_path] contains
    [keyword]. *)
Definition rel_contains (cwd org_path keyword file : string) : bool :=
  match posixpath.relpath cwd file org_path with
  | Ok rel => Str.contains keyword rel
  | Raise _ => false
  end.

(** Whether the compliance check gives [folder] a compliant verdict. *)
Definition judged_compliant (cwd : string) (fs : filesystem)
  (base folder : string) : bool :=
  match check_folder_structure_v2_compliance cwd (os.path_exists fs)
          folder base with
  | Ok (true, _) => true
  | _ => false
  end.

(** What the counts and the path lists of a record owe each other. *)
Definition consistent_record (r : OrgRecord) : Prop :=
  total_typespec_projects r
  = management_plane_typespec_projects r + data_plane_typespec_projects r
  /\ total_folders r = compliant_folders r + non_compliant_folders r
  /\ management_plane_swagger_files r + data_plane_swagger_files r
     <= total_swagger_files r
  /\ Forall (fun folder => folder <> "") (compliant_folder_paths r)
  /\ Forall (fun folder => folder <> "") (non_compliant_folder_paths r).

(** What a row of the report owes the record it is made from. *)
Definition row_of_record (r : OrgRecord) (row : ReportRow) : Prop :=
  row_organization row = organization r
  /\ row_fully_compliant row = org_fully_compliant r
  /\ row_is_simple_structure row = is_simple_structure r
  /\ row_is_rpaas_service row = is_rpaas_service_field r
  /\ row_has_version_uniform_issue row = has_version_uniform_issue r
  /\ row_has_typespec row = Nat.ltb 0 (total_typespec_projects r).

(** A specification directory with one organization, a hidden directory
    and the suppressions file. *)
Definition sample_specification_fs : filesystem :=
  {| fs_root := spec_base_path_of_main;
     fs_tree :=
       Dir [(".github", Dir [("main.tsp", File (Some "import x;"))]);
            ("suppressions.yaml", File (Some "[]"));
            ("contoso",
             Dir [("resource-manager",
                   Dir [("Microsoft.Contoso",
                         Dir [("widgets",
                               Dir [("tspconfig.yaml", File (Some "emit: []"));
                                    ("stable",
                                     Dir [("2021-01-01",
                                           Dir [("widgets.json",
                                                 File (Some "{}"))])])])])])]);
            ("common-types", Dir [])] |}.

(** An organization with symbolic links: a marker file that dangles, a
    link to a directory that holds a project, and a link to a file. *)
Definition linked_fs : filesystem :=
  {| fs_root := "/spec";
     fs_tree :=
       Dir [("contoso",
             Dir [("widgets",
                   Dir [("tspconfig.yaml", Link None);
                        ("stable",
                         Dir [("2021-01-01",
                               Dir [("widgets.json",
                                     File (Some "{}"))])])]);
                  ("latest",
                   Link (Some (Dir [("main.tsp", File (Some "import x;"))])));
                  ("readme.md", Link (Some (File (Some "# contoso"))))])] |}.

(* ================================================================== *)
(** * Properties *)

(** ** Strings *)

Lemma startswith_spec (p s : string) :
  Str.startswith p s = true <-> exists q, s = p ++ q.
Proof.
  revert s; induction p as [|a p IH]; intros s; simpl.
  - split; [intros _; now exists s | reflexivity].
  - destruct s as [|b s].
    + split; [discriminate | intros [q H]; discriminate].
    + rewrite andb_true_iff, Ascii.eqb_eq, IH. split.
      * intros [-> [q ->]]. now exists q.
      * intros [q H]. injection H as -> ->. split; [reflexivity | now exists q].
Qed.

Lemma endswith_spec (suf s : string) :
  Str.endswith suf s = true <-> exists p, s = p ++ suf.
Proof.
  induction s as [|c s IH]; simpl; rewrite orb_true_iff.
  - rewrite String.eqb_eq. split.
    + intros [-> | H]; [now exists "" | discriminate].
    + intros [p H]. left. destruct p; [now symmetry | discriminate].
  - rewrite String.eqb_eq, IH. split.
    + intros [-> | [p ->]]; [now exists "" | now exists (String c p)].
    + intros [p H]. destruct p as [|a p]; [left; now symmetry|].
      right. injection H as _ ->. now exists p.
Qed.

Lemma append_assoc (a b c : string) : (a ++ b) ++ c = a ++ b ++ c.
Proof. induction a as [|x a IH]; simpl; [reflexivity | now rewrite IH]. Qed.

(** A joined path ends with its last component. *)
Lemma join_suffix (a b : string) : exists q, posixpath.join a b = q ++ b.
Proof.
  unfold posixpath.join. destruct (Str.startswith "/" b); [now exists ""|].
  destruct (_ || _); [now exists a|].
  exists (a ++ "/"). now rewrite append_assoc.
Qed.

Lemma contains_unfold (n h : string) :
  Str.contains n h =
  Str.startswith n h
  || match h with EmptyString => false | String _ h' => Str.contains n h' end.
Proof. destruct h; reflexivity. Qed.

Lemma contains_spec (n h : string) :
  Str.contains n h = true <-> Substring n h.
Proof.
  induction h as [|c h IH]; rewrite contains_unfold, orb_true_iff.
  - split.
    + intros [H | H]; [|discriminate].
      apply startswith_spec in H as [q ->]. exists "", q. reflexivity.
    + intros [p [q H]]. left. apply startswith_spec.
      destruct p; [now exists q | discriminate].
  - rewrite IH. split.
    + intros [H | [p [q ->]]].
      * apply startswith_spec in H as [q ->]. exists "", q. reflexivity.
      * exists (String c p), q. reflexivity.
    + intros [p [q H]]. destruct p as [|a p].
      * left. apply startswith_spec. now exists q.
      * right. injection H as _ ->. now exists p, q.
Qed.

Lemma all_chars_spec (f : ascii -> bool) (s : string) :
  Str.all_chars f s = true <-> forall x, In x (chars s) -> f x = true.
Proof.
  induction s as [|c s IH]; simpl.
  - split; [intros _ x [] | reflexivity].
  - rewrite andb_true_iff, IH. split.
    + intros [Hc Hs] x [<- | Hx]; auto.
    + intros H. split; [apply H; now left | intros x Hx; apply H; now right].
Qed.

Lemma contains_char_spec (c : ascii) (s : string) :
  Str.contains (String c "") s = true <-> In c (chars s).
Proof.
  induction s as [|a s IH]; rewrite contains_unfold; simpl.
  - split; [discriminate | intros []].
  - rewrite orb_true_iff, IH, andb_true_r, Ascii.eqb_eq.
    split; (intros [H | H]; [left; now symmetry | now right]).
Qed.

Lemma split_not_nil (c : ascii) (s : string) : Str.split c s <> [].
Proof.
  destruct s as [|a s]; simpl; [discriminate|].
  destruct (Ascii.eqb a c); [discriminate|].
  destruct (Str.split c s); discriminate.
Qed.

Lemma join_cons (sep x : string) (l : list string) :
  l <> [] -> Str.join sep (x :: l) = x ++ sep ++ Str.join sep l.
Proof. destruct l; [congruence | reflexivity]. Qed.

Lemma join_split (c : ascii) (s : string) :
  Str.join (String c "") (Str.split c s) = s.
Proof.
  induction s as [|a s IH]; [reflexivity|].
  simpl Str.split. destruct (Ascii.eqb_spec a c) as [-> | Hne].
  - rewrite join_cons by apply split_not_nil. now rewrite IH.
  - pose proof (split_not_nil c s) as Hnil.
    destruct (Str.split c s) as [|h t]; [congruence|].
    destruct t as [|h' t]; rewrite <- IH; reflexivity.
Qed.

Lemma split_parts_free (c : ascii) (s : string) :
  Forall (fun part => ~ In c (chars part)) (Str.split c s).
Proof.
  induction s as [|a s IH]; simpl.
  - constructor; [intros [] | constructor].
  - destruct (Ascii.eqb_spec a c) as [-> | Hne].
    + constructor; [intros [] | exact IH].
    + destruct (Str.split c s) as [|h t]; [repeat constructor; simpl; intuition|].
      inversion IH; subst. constructor; [|assumption].
      simpl. intros [E | E]; [congruence | contradiction].
Qed.

Lemma split_free (c : ascii) (s : string) :
  ~ In c (chars s) -> Str.split c s = [s].
Proof.
  induction s as [|a s IH]; simpl; [reflexivity|]. intros H.
  destruct (Ascii.eqb_spec a c) as [-> | Hne]; [exfalso; apply H; now left|].
  rewrite IH by (intros E; apply H; now right). reflexivity.
Qed.

Lemma split_app (c : ascii) (a b : string) :
  ~ In c (chars a) -> Str.split c (a ++ String c b) = a :: Str.split c b.
Proof.
  induction a as [|x a IH]; simpl; intros H.
  - now rewrite Ascii.eqb_refl.
  - destruct (Ascii.eqb_spec x c) as [-> | Hne]; [exfalso; apply H; now left|].
    rewrite IH by (intros E; apply H; now right). reflexivity.
Qed.

Lemma rfind1_zero_free (c : ascii) (s : string) :
  Str.rfind1 c s = 0 -> ~ In c (chars s).
Proof.
  induction s as [|a s IH]; simpl; [intros _ []|].
  destruct (Str.rfind1 c s) eqn:E; [|discriminate].
  destruct (Ascii.eqb_spec a c); [discriminate|].
  intros _ [H | H]; [congruence | now apply IH].
Qed.

Lemma rfind1_pos_split (c : ascii) (s : string) (k : nat) :
  Str.rfind1 c s = S k -> exists h x t, Str.split c s = h :: x :: t.
Proof.
  revert k; induction s as [|a s IH]; simpl; [discriminate|]. intros k.
  destruct (Str.rfind1 c s) as [|j] eqn:E.
  - destruct (Ascii.eqb_spec a c); [|discriminate]. intros _.
    pose proof (split_not_nil c s).
    destruct (Str.split c s) as [|x t]; [congruence|]. now exists "", x, t.
  - intros _. destruct (IH j eq_refl) as [h [x [t ->]]].
    destruct (Ascii.eqb a c); [now exists "", h, (x :: t) | now exists (String a h), x, t].
Qed.

(** [basename] is the last segment of the path. *)
Lemma basename_last_segment (p : string) :
  posixpath.basename p = last_segment p.
Proof.
  unfold posixpath.basename, last_segment, path_segments.
  generalize posixpath.sep as c. intros c.
  induction p as [|a p IH]; [reflexivity|].
  simpl Str.rfind1. simpl Str.split.
  destruct (Str.rfind1 c p) as [|j] eqn:E.
  - pose proof (split_free c p (rfind1_zero_free c p E)) as Hs.
    destruct (Ascii.eqb a c); rewrite Hs; reflexivity.
  - destruct (rfind1_pos_split c p j E) as [h [x [t Hs]]].
    change (Str.drop (S (S j)) (String a p)) with (Str.drop (S j) p).
    rewrite IH, Hs. destruct (Ascii.eqb a c); reflexivity.
Qed.

(** ** The plane classifier *)

(** C1, as the code decides it: the classifier answers Management exactly
    when the last segment of the path contains [.Management] or the path
    contains [resource-manager] anywhere as a substring, and Data in every
    other case; it is a total function of the string. *)
Theorem is_management_plane_spec (P : string) :
  (is_management_plane P = true <->
   Substring ".Management" (last_segment P)
   \/ Substring "resource-manager" P)
  /\ (is_management_plane P = false <->
      ~ (Substring ".Management" (last_segment P)
         \/ Substring "resource-manager" P)).
Proof.
  assert (E : is_management_plane P
              = Str.contains ".Management" (last_segment P)
                || Str.contains "resource-manager" P).
  { unfold is_management_plane. rewrite basename_last_segment.
    destruct (Str.contains ".Management" (last_segment P)); [reflexivity|].
    destruct (Str.contains "resource-manager" P); reflexivity. }
  rewrite E, <- !contains_spec, <- orb_true_iff.
  split; [reflexivity|].
  destruct (_ || _); split; congruence.
Qed.

(** C1, the claim as stated, fails: a path in which [resource-manager] is
    only part of a segment is classified Management although no segment is
    [resource-manager] and the last segment has no [.Management]. *)
Lemma plane_rule_by_segment_fails :
  is_management_plane
    "specification/contoso/my-resource-manager-tools/widgets" = true
  /\ ~ (Substring ".Management"
         (last_segment
            "specification/contoso/my-resource-manager-tools/widgets")
        \/ In "resource-manager"
             (path_segments
                "specification/contoso/my-resource-manager-tools/widgets")).
Proof.
  split; [reflexivity|]. intros [H | H].
  - apply contains_spec in H. vm_compute in H. discriminate.
  - vm_compute in H. intuition discriminate.
Qed.

(** ** The namespace pattern *)

Lemma is_pascal_case_spec (t : string) :
  is_pascal_case t = true <-> pascal_case_token t.
Proof.
  unfold is_pascal_case, pascal_case_token. destruct t as [|c r].
  - split; [discriminate | intros [[c [r [H _]]] _]; discriminate].
  - destruct (Str.isupper c) eqn:U; simpl negb; cbv iota.
    + rewrite all_chars_spec. split.
      * intros H. split; [now exists c, r|]. intros x Hx.
        apply H in Hx. apply orb_true_iff in Hx as [Hx | Hx]; [now left|].
        right. now apply Ascii.eqb_eq.
      * intros [_ H] x Hx. apply H in Hx as [Hx | ->].
        -- now rewrite Hx.
        -- rewrite Ascii.eqb_refl. apply orb_true_r.
    + split; [discriminate|]. intros [[c' [r' [H U']]] _].
      injection H as -> ->. congruence.
Qed.

Lemma dot_free_spec (t : string) :
  Str.contains "." t = false <-> dot_free t.
Proof.
  unfold dot_free. rewrite <- contains_char_spec.
  destruct (Str.contains "." t); split; congruence.
Qed.

Lemma dots_of_two_parts (a b : string) :
  dot_free a -> dot_free b ->
  count_occ ascii_dec (chars (a ++ "." ++ b)) "."%char = 1.
Proof.
  unfold dot_free, chars. intros Ha Hb.
  induction a as [|x a IH]; simpl.
  - destruct (ascii_dec "." "."); [|congruence].
    f_equal. now apply count_occ_not_In.
  - simpl in Ha. destruct (ascii_dec x "."); [exfalso; apply Ha; now left|].
    apply IH. intros E. apply Ha. now right.
Qed.

(** C5: the namespace predicate holds exactly of the strings with one dot
    that splits them into two dot-free PascalCase tokens; it is a total
    boolean function, true on [Microsoft.Compute], false on
    [microsoft.compute], on [Microsoft.Compute.Extra] and on the empty
    string. *)
Theorem is_valid_namespace_pattern_spec :
  (forall s, is_valid_namespace_pattern s = true <-> namespace_pattern s)
  /\ (forall s, namespace_pattern s ->
                count_occ ascii_dec (chars s) "."%char = 1
                /\ List.length (Str.split "." s) = 2)
  /\ is_valid_namespace_pattern "Microsoft.Compute" = true
  /\ is_valid_namespace_pattern "microsoft.compute" = false
  /\ is_valid_namespace_pattern "Microsoft.Compute.Extra" = false
  /\ is_valid_namespace_pattern "" = false.
Proof.
  split; [|split; [|repeat split; reflexivity]].
  - intros s. unfold is_valid_namespace_pattern, namespace_pattern. split.
    + destruct (Str.contains "." s); simpl negb; cbv iota; [|discriminate].
      pose proof (join_split "." s) as J.
      destruct (Str.split "." s) as [|a [|b [|c l]]]; try discriminate.
      simpl. rewrite andb_true_r, !andb_true_iff, !negb_true_iff.
      rewrite !is_pascal_case_spec, !dot_free_spec.
      intros [[Pa Da] [Pb Db]]. exists a, b. simpl in J. now rewrite J.
    + intros [a [b [-> [Da [Db [Pa Pb]]]]]].
      assert (C : Str.contains "." (a ++ "." ++ b) = true).
      { apply contains_spec. now exists a, b. }
      rewrite C. simpl negb. cbv iota.
      change (a ++ "." ++ b) with (a ++ String "." b).
      rewrite (split_app "." a b Da), (split_free "." b Db). simpl.
      apply dot_free_spec in Da, Db. apply is_pascal_case_spec in Pa, Pb.
      now rewrite Pa, Pb, Da, Db.
  - intros s [a [b [-> [Da [Db _]]]]]. split.
    + now apply dots_of_two_parts.
    + change (a ++ "." ++ b) with (a ++ String "." b).
      now rewrite (split_app "." a b Da), (split_free "." b Db).
Qed.

(** ** The compliance rules for project roots *)

Lemma mem_common_types (x : string) :
  Str.mem x ["common-types"] = String.eqb x "common-types".
Proof. unfold Str.mem. simpl. apply orb_false_r. Qed.

(** The reasons of the failure causes differ whatever the names in them. *)
Lemma failure_reasons_distinct (r n s : string) :
  too_short_reason r <> namespace_reason n
  /\ too_short_reason r <> service_reason s
  /\ mgmt_project_shape_reason r <> namespace_reason n
  /\ mgmt_project_shape_reason r <> service_reason s
  /\ data_project_shape_reason r <> service_reason s
  /\ namespace_reason n <> service_reason s.
Proof.
  unfold too_short_reason, namespace_reason, service_reason,
    mgmt_project_shape_reason, data_project_shape_reason.
  repeat split; simpl; discriminate.
Qed.

(** A project root not in the shared folder: the verdict by plane. *)
Lemma project_root_verdict
  (cwd : string) (path_exists : string -> bool) (folder base rel : string) :
  posixpath.relpath cwd folder base = Ok rel ->
  has_typespec path_exists folder = true ->
  part (path_segments rel) 0 <> "common-types" ->
  check_folder_structure_v2_compliance cwd path_exists folder base =
  let parts := path_segments rel in
  if Nat.ltb (List.length parts) 2 then Ok (false, too_short_reason rel)
  else if is_management_plane folder then
    if Nat.eqb (List.length parts) 4
       && String.eqb (part parts 1) "resource-manager" then
      if negb (is_valid_namespace_pattern (part parts 2))
      then Ok (false, namespace_reason (part parts 2))
      else if negb (is_valid_service_name (part parts 3))
      then Ok (false, service_reason (part parts 3))
      else Ok (true, "Compliant management plane TypeSpec project root")
    else Ok (false, mgmt_project_shape_reason rel)
  else
    if Nat.eqb (List.length parts) 3
       && String.eqb (part parts 1) "data-plane" then
      if negb (is_valid_service_name (part parts 2))
      then Ok (false, service_reason (part parts 2))
      else Ok (true, "Compliant data plane TypeSpec project root")
    else Ok (false, data_project_shape_reason rel).
Proof.
  intros Hrel Hts Hct. unfold check_folder_structure_v2_compliance.
  rewrite Hrel. cbn [py_bind]. cbv zeta. fold (path_segments rel).
  rewrite mem_common_types, Hts.
  apply String.eqb_neq in Hct. rewrite Hct. reflexivity.
Qed.

Lemma mgmt_shape_reflect (rel : string) :
  Nat.eqb (List.length (path_segments rel)) 4
  && String.eqb (part (path_segments rel) 1) "resource-manager" = true
  <-> mgmt_project_shape rel.
Proof.
  unfold mgmt_project_shape.
  now rewrite andb_true_iff, Nat.eqb_eq, String.eqb_eq.
Qed.

Lemma data_shape_reflect (rel : string) :
  Nat.eqb (List.length (path_segments rel)) 3
  && String.eqb (part (path_segments rel) 1) "data-plane" = true
  <-> data_project_shape rel.
Proof.
  unfold data_project_shape.
  now rewrite andb_true_iff, Nat.eqb_eq, String.eqb_eq.
Qed.

(** C2, as the code decides it: a project root classified management
    plane whose first segment below the repository root is not
    [common-types] is compliant exactly when its relative path has 4
    segments, the second being [resource-manager], the third a namespace
    pattern and the fourth a service-name token; a shape mismatch, a
    namespace mismatch and a service-name mismatch each give their own
    reason, and these reasons differ from one another. *)
Theorem management_project_compliance
  (cwd : string) (path_exists : string -> bool) (folder base rel : string) :
  posixpath.relpath cwd folder base = Ok rel ->
  has_typespec path_exists folder = true ->
  is_management_plane folder = true ->
  part (path_segments rel) 0 <> "common-types" ->
  exists verdict reason,
    check_folder_structure_v2_compliance cwd path_exists folder base
    = Ok (verdict, reason)
    /\ (verdict = true <->
        mgmt_project_shape rel
        /\ is_valid_namespace_pattern (part (path_segments rel) 2) = true
        /\ is_valid_service_name (part (path_segments rel) 3) = true)
    /\ (~ mgmt_project_shape rel ->
        reason = too_short_reason rel
        \/ reason = mgmt_project_shape_reason rel)
    /\ (mgmt_project_shape rel ->
        is_valid_namespace_pattern (part (path_segments rel) 2) = false ->
        reason = namespace_reason (part (path_segments rel) 2))
    /\ (mgmt_project_shape rel ->
        is_valid_namespace_pattern (part (path_segments rel) 2) = true ->
        is_valid_service_name (part (path_segments rel) 3) = false ->
        reason = service_reason (part (path_segments rel) 3))
    /\ (forall r n s,
          too_short_reason r <> namespace_reason n
          /\ too_short_reason r <> service_reason s
          /\ mgmt_project_shape_reason r <> namespace_reason n
          /\ mgmt_project_shape_reason r <> service_reason s
          /\ namespace_reason n <> service_reason s).
Proof.
  intros Hrel Hts Hmp Hct.
  rewrite (project_root_verdict _ _ _ _ _ Hrel Hts Hct), Hmp. cbv zeta.
  pose proof (mgmt_shape_reflect rel) as Sh.
  assert (D : forall r n s,
             too_short_reason r <> namespace_reason n
             /\ too_short_reason r <> service_reason s
             /\ mgmt_project_shape_reason r <> namespace_reason n
             /\ mgmt_project_shape_reason r <> service_reason s
             /\ namespace_reason n <> service_reason s).
  { intros r n s. pose proof (failure_reasons_distinct r n s). tauto. }
  destruct (Nat.ltb_spec (List.length (path_segments rel)) 2) as [Hlt | Hge].
  - exists false, (too_short_reason rel).
    assert (N : ~ mgmt_project_shape rel)
      by (unfold mgmt_project_shape; lia).
    split; [reflexivity|]. settle_verdict D.
  - destruct (_ && _) eqn:B.
    + assert (S : mgmt_project_shape rel) by now apply Sh.
      destruct (is_valid_namespace_pattern _) eqn:Ens;
        [destruct (is_valid_service_name _) eqn:Esv|];
        simpl negb; cbv iota; eexists _, _;
        (split; [reflexivity|]); settle_verdict D.
    + assert (N : ~ mgmt_project_shape rel).
      { intros S. apply Sh in S. congruence. }
      exists false, (mgmt_project_shape_reason rel).
      split; [reflexivity|]. settle_verdict D.
Qed.

(** C2 at [contoso/resource-manager/Microsoft.Contoso/widgets], a project
    root: the hypotheses hold there, and the verdict is compliant. *)
Lemma management_project_compliance_witness :
  check_folder_structure_v2_compliance "/"
    (only_file "/spec/contoso/resource-manager/Microsoft.Contoso/widgets/tspconfig.yaml")
    "/spec/contoso/resource-manager/Microsoft.Contoso/widgets" "/spec"
  = Ok (true, "Compliant management plane TypeSpec project root")
  /\ exists verdict reason,
      check_folder_structure_v2_compliance "/"
        (only_file "/spec/contoso/resource-manager/Microsoft.Contoso/widgets/tspconfig.yaml")
        "/spec/contoso/resource-manager/Microsoft.Contoso/widgets" "/spec"
      = Ok (verdict, reason)
      /\ (verdict = true <->
          mgmt_project_shape "contoso/resource-manager/Microsoft.Contoso/widgets"
          /\ is_valid_namespace_pattern "Microsoft.Contoso" = true
          /\ is_valid_service_name "widgets" = true).
Proof.
  split; [reflexivity|].
  destruct (management_project_compliance "/"
              (only_file "/spec/contoso/resource-manager/Microsoft.Contoso/widgets/tspconfig.yaml")
              "/spec/contoso/resource-manager/Microsoft.Contoso/widgets"
              "/spec" "contoso/resource-manager/Microsoft.Contoso/widgets"
              eq_refl eq_refl eq_refl ltac:(discriminate))
    as [verdict [reason [E [V _]]]].
  exists verdict, reason. split; [exact E | exact V].
Defined.

(** C2, the claim as stated, fails: a project root below [common-types]
    that is classified management plane is compliant (the shared-folder
    rule) although its relative path has 3 segments, not 4. *)
Lemma management_rule_fails_in_shared_folder :
  has_typespec
    (only_file "/spec/common-types/resource-manager/shared/tspconfig.yaml")
    "/spec/common-types/resource-manager/shared" = true
  /\ is_management_plane "/spec/common-types/resource-manager/shared" = true
  /\ posixpath.relpath "/" "/spec/common-types/resource-manager/shared" "/spec"
     = Ok "common-types/resource-manager/shared"
  /\ check_folder_structure_v2_compliance "/"
       (only_file "/spec/common-types/resource-manager/shared/tspconfig.yaml")
       "/spec/common-types/resource-manager/shared" "/spec"
     = Ok (true, shared_folder_reason)
  /\ ~ (List.length (path_segments "common-types/resource-manager/shared") = 4
        /\ part (path_segments "common-types/resource-manager/shared") 1
           = "resource-manager"
        /\ is_valid_namespace_pattern
             (part (path_segments "common-types/resource-manager/shared") 2)
           = true
        /\ is_valid_service_name
             (part (path_segments "common-types/resource-manager/shared") 3)
           = true).
Proof.
  repeat split; try reflexivity. intros [H _]. vm_compute in H. discriminate.
Qed.

(** C3, as the code decides it: a project root classified data plane whose
    first segment below the repository root is not [common-types] is
    compliant exactly when its relative path has 3 segments, the second
    being [data-plane] and the third a service-name token. *)
Theorem data_project_compliance
  (cwd : string) (path_exists : string -> bool) (folder base rel : string) :
  posixpath.relpath cwd folder base = Ok rel ->
  has_typespec path_exists folder = true ->
  is_management_plane folder = false ->
  part (path_segments rel) 0 <> "common-types" ->
  exists verdict reason,
    check_folder_structure_v2_compliance cwd path_exists folder base
    = Ok (verdict, reason)
    /\ (verdict = true <->
        data_project_shape rel
        /\ is_valid_service_name (part (path_segments rel) 2) = true).
Proof.
  intros Hrel Hts Hmp Hct.
  rewrite (project_root_verdict _ _ _ _ _ Hrel Hts Hct), Hmp. cbv zeta.
  pose proof (data_shape_reflect rel) as Sh.
  destruct (Nat.ltb_spec (List.length (path_segments rel)) 2) as [Hlt | Hge].
  - exists false, (too_short_reason rel).
    assert (N : ~ data_project_shape rel)
      by (unfold data_project_shape; lia).
    split; [reflexivity|]. settle_verdict I.
  - destruct (_ && _) eqn:B.
    + assert (S : data_project_shape rel) by now apply Sh.
      destruct (is_valid_service_name _) eqn:Esv;
        simpl negb; cbv iota; eexists _, _;
        (split; [reflexivity|]); settle_verdict I.
    + assert (N : ~ data_project_shape rel).
      { intros S. apply Sh in S. congruence. }
      exists false, (data_project_shape_reason rel).
      split; [reflexivity|]. settle_verdict I.
Qed.

(** C3 at the two paths of the specification: [contoso/data-plane/widgets]
    is compliant, [contoso/data-plane/widgets/v1] (wrong depth) is not. *)
Lemma data_project_compliance_witness :
  (check_folder_structure_v2_compliance "/"
     (only_file "/spec/contoso/data-plane/widgets/main.tsp")
     "/spec/contoso/data-plane/widgets" "/spec"
   = Ok (true, "Compliant data plane TypeSpec project root")
   /\ check_folder_structure_v2_compliance "/"
        (only_file "/spec/contoso/data-plane/widgets/v1/main.tsp")
        "/spec/contoso/data-plane/widgets/v1" "/spec"
      = Ok (false, data_project_shape_reason "contoso/data-plane/widgets/v1"))
  /\ (exists verdict reason,
        check_folder_structure_v2_compliance "/"
          (only_file "/spec/contoso/data-plane/widgets/main.tsp")
          "/spec/contoso/data-plane/widgets" "/spec"
        = Ok (verdict, reason)
        /\ (verdict = true <->
            data_project_shape "contoso/data-plane/widgets"
            /\ is_valid_service_name "widgets" = true))
  /\ (exists verdict reason,
        check_folder_structure_v2_compliance "/"
          (only_file "/spec/contoso/data-plane/widgets/v1/main.tsp")
          "/spec/contoso/data-plane/widgets/v1" "/spec"
        = Ok (verdict, reason)
        /\ (verdict = true <->
            data_project_shape "contoso/data-plane/widgets/v1"
            /\ is_valid_service_name "widgets" = true)).
Proof.
  split; [split; reflexivity|]. split.
  - exact (data_project_compliance "/"
             (only_file "/spec/contoso/data-plane/widgets/main.tsp")
             "/spec/contoso/data-plane/widgets" "/spec"
             "contoso/data-plane/widgets"
             eq_refl eq_refl eq_refl ltac:(discriminate)).
  - exact (data_project_compliance "/"
             (only_file "/spec/contoso/data-plane/widgets/v1/main.tsp")
             "/spec/contoso/data-plane/widgets/v1" "/spec"
             "contoso/data-plane/widgets/v1"
             eq_refl eq_refl eq_refl ltac:(discriminate)).
Defined.

(** C3, the claim as stated, fails: a data-plane project root below
    [common-types] is compliant (the shared-folder rule) although its
    relative path has 2 segments and no [data-plane] segment. *)
Lemma data_rule_fails_in_shared_folder :
  has_typespec (only_file "/spec/common-types/widgets/main.tsp")
    "/spec/common-types/widgets" = true
  /\ is_management_plane "/spec/common-types/widgets" = false
  /\ posixpath.relpath "/" "/spec/common-types/widgets" "/spec"
     = Ok "common-types/widgets"
  /\ check_folder_structure_v2_compliance "/"
       (only_file "/spec/common-types/widgets/main.tsp")
       "/spec/common-types/widgets" "/spec"
     = Ok (true, shared_folder_reason)
  /\ ~ (List.length (path_segments "common-types/widgets") = 3
        /\ part (path_segments "common-types/widgets") 1 = "data-plane"
        /\ is_valid_service_name
             (part (path_segments "common-types/widgets") 2) = true).
Proof.
  repeat split; try reflexivity. intros [H _]. vm_compute in H. discriminate.
Qed.

(** ** The order of the first two rules *)

(** Past the guard on the number of segments the shared-folder rule
    decides: a directory whose relative path has at least 2 segments, the
    first being [common-types], is compliant with the shared-folder
    reason, whatever else holds of it. *)
Lemma shared_folder_compliance
  (cwd : string) (path_exists : string -> bool) (folder base rel : string) :
  posixpath.relpath cwd folder base = Ok rel ->
  part (path_segments rel) 0 = "common-types" ->
  2 <= List.length (path_segments rel) ->
  check_folder_structure_v2_compliance cwd path_exists folder base
  = Ok (true, shared_folder_reason).
Proof.
  intros Hrel Hct Hlen. unfold check_folder_structure_v2_compliance.
  rewrite Hrel. cbn [py_bind]. cbv zeta. fold (path_segments rel).
  rewrite mem_common_types, Hct.
  destruct (Nat.ltb_spec (List.length (path_segments rel)) 2); [lia|].
  reflexivity.
Qed.

Lemma shared_folder_compliance_witness :
  check_folder_structure_v2_compliance "/" (fun _ => false)
    "/spec/common-types/resource-management/v5" "/spec"
  = Ok (true, shared_folder_reason).
Proof.
  apply (shared_folder_compliance "/" (fun _ => false)
           "/spec/common-types/resource-management/v5" "/spec"
           "common-types/resource-management/v5" eq_refl eq_refl).
  simpl. lia.
Defined.

(** A path of fewer than 2 segments is non-compliant, first of all. *)
Lemma short_path_non_compliant
  (cwd : string) (path_exists : string -> bool) (folder base rel : string) :
  posixpath.relpath cwd folder base = Ok rel ->
  List.length (path_segments rel) < 2 ->
  check_folder_structure_v2_compliance cwd path_exists folder base
  = Ok (false, too_short_reason rel).
Proof.
  intros Hrel Hlen. unfold check_folder_structure_v2_compliance.
  rewrite Hrel. cbn [py_bind]. cbv zeta. fold (path_segments rel).
  destruct (Nat.ltb_spec (List.length (path_segments rel)) 2); [|lia].
  reflexivity.
Qed.

(** C4, a defect of the code: the guard on the number of segments (line 59)
    runs before the shared-folder rule (line 63), which the comment above
    it (line 62) announces as "always compliant".  So the directory
    [common-types] right below the base, holding [main.tsp], whose
    relative path is the one segment [common-types], is judged
    non-compliant, path too short, and not compliant with the
    shared-folder reason. *)
Theorem shared_folder_rule_is_not_first :
  posixpath.relpath "/" "/spec/common-types" "/spec" = Ok "common-types"
  /\ part (path_segments "common-types") 0 = "common-types"
  /\ List.length (path_segments "common-types") = 1
  /\ check_folder_structure_v2_compliance "/"
       (only_file "/spec/common-types/main.tsp") "/spec/common-types" "/spec"
     = Ok (false, too_short_reason "common-types").
Proof. repeat split. Qed.

(** ** The RPaaS flag *)

Lemma rpaas_marks_spec (content : string) :
  (if Str.contains "openapi-subtype:" content
      && Str.contains "rpaas" (Str.lower content)
   then true else false) = true
  <-> Substring "openapi-subtype:" content
      /\ Substring "rpaas" (Str.lower content).
Proof.
  rewrite <- !contains_spec.
  destruct (Str.contains "openapi-subtype:" content);
    destruct (Str.contains "rpaas" (Str.lower content)); simpl;
    intuition discriminate.
Qed.

(** C8, as the code decides it: the RPaaS flag is true exactly when the
    resource-manager build-configuration document exists, can be read, and
    its text contains [openapi-subtype:] as written (case-sensitively) and
    [rpaas] in any letter case. *)
Theorem is_rpaas_service_spec (fs : filesystem) (org_path : string) :
  is_rpaas_service fs org_path = true <->
  exists doc text,
    rm_document fs org_path = Some doc
    /\ os.read_text fs doc = Ok text
    /\ Substring "openapi-subtype:" text
    /\ Substring "rpaas" (Str.lower text).
Proof.
  unfold is_rpaas_service, rm_document. cbv zeta.
  set (lo := posixpath.join3 org_path "resource-manager" "readme.md").
  set (up := posixpath.join3 org_path "resource-manager" "README.md").
  assert (K : forall doc,
             match os.read_text fs doc with
             | Ok content =>
                 if Str.contains "openapi-subtype:" content
                    && Str.contains "rpaas" (Str.lower content)
                 then true else false
             | Raise _ => false
             end = true
             <-> exists d text,
                 Some doc = Some d /\ os.read_text fs d = Ok text
                 /\ Substring "openapi-subtype:" text
                 /\ Substring "rpaas" (Str.lower text)).
  { intros doc. destruct (os.read_text fs doc) as [content | e] eqn:R.
    - rewrite rpaas_marks_spec. split.
      + intros H. exists doc, content. rewrite R. tauto.
      + intros [d [text [E [R' H]]]]. injection E as <-.
        rewrite R in R'. injection R' as <-. exact H.
    - split; [discriminate|].
      intros [d [text [E [R' _]]]]. injection E as <-. congruence. }
  destruct (os.path_exists fs lo) eqn:E1; simpl negb; cbv iota.
  - rewrite E1. simpl negb. cbv iota. apply K.
  - destruct (os.path_exists fs up) eqn:E2; simpl negb; cbv iota.
    + apply K.
    + split; [discriminate|]. intros [d [text [E _]]]. discriminate.
Qed.

(** C8, the claim as stated, fails: the document exists and contains both
    marks when letter case is ignored, and the flag is false, because the
    key is matched as written. *)
Lemma rpaas_key_is_case_sensitive :
  rm_document rpaas_capitalised_fs "/spec/contoso"
  = Some "/spec/contoso/resource-manager/readme.md"
  /\ os.read_text rpaas_capitalised_fs
       "/spec/contoso/resource-manager/readme.md"
     = Ok "OpenAPI-Subtype: rpaas"
  /\ Substring (Str.lower "openapi-subtype:")
       (Str.lower "OpenAPI-Subtype: rpaas")
  /\ Substring (Str.lower "rpaas") (Str.lower "OpenAPI-Subtype: rpaas")
  /\ is_rpaas_service rpaas_capitalised_fs "/spec/contoso" = false.
Proof.
  repeat split; try reflexivity; apply contains_spec; reflexivity.
Qed.

(** ** The driver loop *)

Lemma analysis_loop_map (run_analysis : string -> string -> py OrgRecord)
  (spec_base_path : string) (org_dirs : list string) (results : list OrgRecord) :
  analysis_loop run_analysis spec_base_path org_dirs results
  = (results ++ map (recorded run_analysis spec_base_path) org_dirs)%list.
Proof.
  revert results. induction org_dirs as [|org_path rest IH]; intros results.
  - simpl. now rewrite app_nil_r.
  - cbn [analysis_loop map].
    assert (E : recorded run_analysis spec_base_path org_path
                = match run_analysis org_path spec_base_path with
                  | Ok result => result
                  | Raise e => failed_record (posixpath.basename org_path) e
                  end) by reflexivity.
    destruct (run_analysis org_path spec_base_path);
      rewrite IH, <- app_assoc, E; reflexivity.
Qed.

(** C9: when the analysis of the organization at position [i] raises, the
    loop records at position [i] the placeholder with the organization's
    name, zero counts, default flags, empty lists and the text of the
    exception, and goes on: the results have one record per organization,
    each organization whose analysis returns having the record it
    returned. *)
Theorem failed_analysis_is_recorded
  (run_analysis : string -> string -> py OrgRecord)
  (spec_base_path : string) (org_dirs : list string)
  (i : nat) (org_path : string) (e : exn) :
  nth_error org_dirs i = Some org_path ->
  run_analysis org_path spec_base_path = Raise e ->
  exists placeholder,
    nth_error (analysis_loop run_analysis spec_base_path org_dirs []) i
    = Some placeholder
    /\ placeholder = failed_record (posixpath.basename org_path) e
    /\ organization placeholder = posixpath.basename org_path
    /\ error placeholder = Some (exn_str e)
    /\ (total_typespec_projects placeholder = 0
        /\ management_plane_typespec_projects placeholder = 0
        /\ data_plane_typespec_projects placeholder = 0
        /\ total_swagger_files placeholder = 0
        /\ management_plane_swagger_files placeholder = 0
        /\ data_plane_swagger_files placeholder = 0
        /\ total_folders placeholder = 0
        /\ compliant_folders placeholder = 0
        /\ non_compliant_folders placeholder = 0
        /\ readme_count_in_rm placeholder = 0)
    /\ (org_fully_compliant placeholder = false
        /\ is_simple_structure placeholder = true
        /\ has_data_plane_swagger_field placeholder = false
        /\ is_rpaas_service_field placeholder = false
        /\ has_version_uniform_issue placeholder = false)
    /\ List.length (analysis_loop run_analysis spec_base_path org_dirs [])
       = List.length org_dirs
    /\ (forall j other,
          nth_error org_dirs j = Some other ->
          nth_error (analysis_loop run_analysis spec_base_path org_dirs []) j
          = Some (recorded run_analysis spec_base_path other))
    /\ (forall other result,
          run_analysis other spec_base_path = Ok result ->
          recorded run_analysis spec_base_path other = result).
Proof.
  intros Hi He. rewrite analysis_loop_map. simpl app.
  exists (failed_record (posixpath.basename org_path) e).
  split.
  { rewrite nth_error_map, Hi. simpl. unfold recorded. now rewrite He. }
  repeat split.
  - apply length_map.
  - intros j other Hj. now rewrite nth_error_map, Hj.
  - intros other result H. unfold recorded. now rewrite H.
Qed.

Lemma failed_analysis_is_recorded_witness :
  exists placeholder,
    nth_error (analysis_loop sample_run "/spec"
                 ["/spec/locked"; "/spec/contoso"] []) 0
    = Some placeholder
    /\ organization placeholder = "locked"
    /\ error placeholder = Some "[Errno 13] Permission denied"
    /\ List.length (analysis_loop sample_run "/spec"
                      ["/spec/locked"; "/spec/contoso"] []) = 2.
Proof.
  destruct (failed_analysis_is_recorded sample_run "/spec"
              ["/spec/locked"; "/spec/contoso"] 0 "/spec/locked"
              (OSError "[Errno 13] Permission denied") eq_refl eq_refl)
    as [placeholder [H0 [_ [H1 [H2 [_ [_ [H3 _]]]]]]]].
  exists placeholder. repeat split; assumption.
Defined.

(** ** The analysis returns *)

Lemma join_nonempty (a b : string) :
  a <> "" -> posixpath.join a b <> "".
Proof.
  intros Ha. unfold posixpath.join.
  destruct (Str.startswith "/" b) eqn:Sb.
  - apply startswith_spec in Sb as [q ->]. discriminate.
  - destruct a as [|c a]; [congruence|].
    destruct (_ || _); discriminate.
Qed.

Lemma relpath_returns (cwd path start : string) :
  path <> "" -> exists rel, posixpath.relpath cwd path start = Ok rel.
Proof.
  intros Hp. unfold posixpath.relpath.
  apply String.eqb_neq in Hp. rewrite Hp. cbv zeta.
  destruct (_ ++ _)%list; eauto.
Qed.

(** Every directory a walk visits from a named top has a name. *)
Lemma walk_node_roots_named (keep : string -> bool) :
  forall (n : fsnode) (top : string),
    top <> "" ->
    Forall (fun st => os.step_root st <> "") (os.walk_node keep top n).
Proof.
  fix IH 1. intros [content | es | target] top Htop; simpl.
  - constructor.
  - constructor; [exact Htop|].
    induction es as [|[name child] es' IHes]; simpl.
    + constructor.
    + apply Forall_app. split; [|exact IHes].
      destruct (os.is_dir child && negb (os.is_link child) && keep name).
      * apply IH. now apply join_nonempty.
      * constructor.
  - constructor.
Qed.

Lemma walk_roots_named (fs : filesystem) (keep : string -> bool)
  (top : string) :
  top <> "" -> Forall (fun st => os.step_root st <> "") (os.walk fs keep top).
Proof.
  intros Htop. unfold os.walk.
  destruct (os.node_at fs top) as [n |]; [|constructor].
  destruct (os.resolve n); [now apply walk_node_roots_named | constructor].
Qed.

Lemma walked_roots_named (fs : filesystem) (org_path : string) :
  org_path <> "" -> Forall (fun root => root <> "") (walked_roots fs org_path).
Proof.
  intros H. unfold walked_roots. apply Forall_map.
  now apply walk_roots_named.
Qed.

Lemma typespec_projects_named (fs : filesystem) (org_path : string) :
  org_path <> "" ->
  Forall (fun root => root <> "") (typespec_projects_of fs org_path).
Proof.
  intros H. unfold typespec_projects_of. apply Forall_map.
  apply Forall_forall. intros st Hst. apply filter_In in Hst as [Hst _].
  pose proof (walk_roots_named fs not_examples org_path H) as W.
  rewrite Forall_forall in W. now apply W.
Qed.

Lemma swagger_version_folders_named (fs : filesystem) (org_path : string) :
  org_path <> "" ->
  Forall (fun root => root <> "") (swagger_version_folders fs org_path).
Proof.
  intros H. unfold swagger_version_folders.
  apply Forall_forall. intros root Hr. apply filter_In in Hr as [Hr _].
  pose proof (walked_roots_named fs org_path H) as W.
  rewrite Forall_forall in W. now apply W.
Qed.

Lemma swagger_files_named (fs : filesystem) (org_path : string) :
  org_path <> "" ->
  Forall (fun file => file <> "") (find_swagger_files fs org_path).
Proof.
  intros H. unfold find_swagger_files.
  apply Forall_forall. intros file Hf.
  apply in_flat_map in Hf as [st [Hst Hf]].
  apply in_map_iff in Hf as [name [<- _]].
  apply join_nonempty.
  pose proof (walk_roots_named fs not_examples org_path H) as W.
  rewrite Forall_forall in W. now apply W.
Qed.

Lemma classify_swagger_files_returns (cwd org_path : string)
  (swagger_files : list string) :
  Forall (fun file => file <> "") swagger_files ->
  exists mgmt data,
    classify_swagger_files cwd swagger_files org_path = Ok (mgmt, data).
Proof.
  induction 1 as [|file rest Hfile _ IH]; simpl.
  - now exists [], [].
  - destruct (relpath_returns cwd file org_path Hfile) as [rel ->].
    destruct IH as [mgmt [data ->]]. cbn [py_bind].
    destruct (Str.contains "resource-manager" rel); [eauto|].
    destruct (Str.contains "data-plane" rel); eauto.
Qed.

Lemma compliance_check_returns (cwd : string) (path_exists : string -> bool)
  (folder base : string) :
  folder <> "" ->
  exists verdict reason,
    check_folder_structure_v2_compliance cwd path_exists folder base
    = Ok (verdict, reason).
Proof.
  intros Hf. unfold check_folder_structure_v2_compliance.
  destruct (relpath_returns cwd folder base Hf) as [rel ->].
  cbn [py_bind]. cbv zeta.
  repeat match goal with
         | |- context [if ?b then _ else _] => destruct b
         end; eauto.
Qed.

(** The loop over the candidate folders returns, and sorts every folder
    into one of the two lists. *)
Lemma check_all_folders_returns (cwd : string) (fs : filesystem)
  (base : string) (folders : list string) :
  Forall (fun folder => folder <> "") folders ->
  forall st, exists compliant non_compliant,
    check_all_folders cwd fs base folders st = Ok (compliant, non_compliant)
    /\ List.length compliant + List.length non_compliant
       = List.length (fst st) + List.length (snd st) + List.length folders
    /\ List.length (snd st) <= List.length non_compliant.
Proof.
  induction 1 as [|folder rest Hfolder _ IH]; intros [c n]; simpl.
  - exists c, n. repeat split; lia.
  - destruct (compliance_check_returns cwd (os.path_exists fs) folder base
                Hfolder) as [verdict [reason ->]].
    cbn [py_bind]. destruct verdict.
    + destruct (IH ((c ++ [folder])%list, n)) as [c' [n' [E [L M]]]].
      exists c', n'. simpl in L, M. rewrite length_app in L. simpl in L.
      repeat split; [exact E | lia | lia].
    + destruct (IH (c, (n ++ [(folder, reason)])%list)) as [c' [n' [E [L M]]]].
      exists c', n'. simpl in L, M. rewrite length_app in L, M. simpl in L, M.
      repeat split; [exact E | lia | lia].
Qed.

(** The analysis of a named organization returns a record, whose fields
    are those the scan computes. *)
Lemma analyze_organization_returns (lib : textlib) (cwd : string)
  (fs : filesystem) (org_path base : string) :
  org_path <> "" ->
  exists r,
    analyze_organization lib cwd fs org_path base = Ok r
    /\ all_folder_paths r
       = (typespec_projects_of fs org_path
          ++ swagger_version_folders fs org_path)%list
    /\ total_folders r = List.length (all_folder_paths r)
    /\ compliant_folders r + non_compliant_folders r = total_folders r
    /\ org_fully_compliant r
       = Nat.eqb (non_compliant_folders r) 0 && Nat.ltb 0 (total_folders r)
    /\ mgmt_typespec_project_paths r
       = filter is_management_plane (typespec_projects_of fs org_path)
    /\ data_typespec_project_paths r
       = filter (fun project => negb (is_management_plane project))
                (typespec_projects_of fs org_path)
    /\ management_plane_typespec_projects r
       = List.length (mgmt_typespec_project_paths r)
    /\ data_plane_typespec_projects r
       = List.length (data_typespec_project_paths r)
    /\ is_simple_structure r
       = simple_structure_flag fs org_path (mgmt_typespec_project_paths r)
           (data_typespec_project_paths r).
Proof.
  intros Horg. unfold analyze_organization. cbv zeta.
  destruct (classify_swagger_files_returns cwd org_path _
              (swagger_files_named fs org_path Horg)) as [mgmt [data ->]].
  cbn [py_bind].
  assert (F : Forall (fun folder => folder <> "")
                (typespec_projects_of fs org_path
                 ++ swagger_version_folders fs org_path)%list).
  { apply Forall_app. split;
      [now apply typespec_projects_named
      | now apply swagger_version_folders_named]. }
  destruct (check_all_folders_returns cwd fs base _ F ([], []))
    as [c [n [-> [L _]]]].
  cbn [py_bind].
  destruct (check_version_uniform_issues lib cwd fs org_path)
    as [issue readmes].
  eexists. split; [reflexivity|]. simpl in *.
  repeat split; lia.
Qed.

(** ** The fully-compliant flag *)

(** C10: the candidate folders of an organization are its project roots
    and its qualifying stable/preview folders; the fully-compliant flag
    holds exactly when there is at least one candidate folder and none is
    non-compliant, so an organization without candidate folders has zero
    non-compliant folders and is not fully compliant. *)
Theorem fully_compliant_needs_a_folder (lib : textlib) (cwd : string)
  (fs : filesystem) (org_path base : string) :
  org_path <> "" ->
  exists r,
    analyze_organization lib cwd fs org_path base = Ok r
    /\ all_folder_paths r
       = (typespec_projects_of fs org_path
          ++ swagger_version_folders fs org_path)%list
    /\ (org_fully_compliant r = true <->
        all_folder_paths r <> [] /\ non_compliant_folders r = 0)
    /\ (all_folder_paths r = [] ->
        non_compliant_folders r = 0 /\ org_fully_compliant r = false).
Proof.
  intros Horg.
  destruct (analyze_organization_returns lib cwd fs org_path base Horg)
    as [r [E [A [T [S [C _]]]]]].
  exists r. split; [exact E|]. split; [exact A|].
  rewrite C, T. split.
  - rewrite andb_true_iff, Nat.eqb_eq, Nat.ltb_lt.
    destruct (all_folder_paths r); simpl; split.
    + lia.
    + intros [H _]. congruence.
    + intros [H _]. split; [discriminate | exact H].
    + intros [_ H]. split; [exact H | lia].
  - intros N. rewrite N in *. simpl in *.
    assert (Z : non_compliant_folders r = 0) by lia.
    rewrite Z. split; reflexivity.
Qed.

Lemma fully_compliant_needs_a_folder_witness :
  exists r,
    analyze_organization no_textlib "/" empty_org_fs "/spec/contoso" "/spec"
    = Ok r
    /\ all_folder_paths r = []
    /\ non_compliant_folders r = 0
    /\ org_fully_compliant r = false.
Proof.
  destruct (fully_compliant_needs_a_folder no_textlib "/" empty_org_fs
              "/spec/contoso" "/spec" ltac:(discriminate))
    as [r [E [A [_ N]]]].
  exists r. split; [exact E|].
  assert (A' : all_folder_paths r = []) by (rewrite A; reflexivity).
  split; [exact A'|]. exact (N A').
Defined.

(** ** The simple-structure flag *)

(** The parents collected for a plane are the distinct parent directories
    of the walked stable/preview folders whose path contains the plane's
    keyword and which hold a definition file. *)
Lemma stable_preview_parents_spec (fs : filesystem)
  (plane_keyword org_path parent : string) :
  In parent (stable_preview_parents fs plane_keyword org_path) <->
  exists root,
    In root (walked_roots fs org_path)
    /\ is_stable_preview root = true
    /\ Substring plane_keyword root
    /\ has_swagger_in_this_branch fs root = true
    /\ parent = posixpath.dirname root.
Proof.
  unfold stable_preview_parents, Str.distinct.
  rewrite nodup_In, in_map_iff. split.
  - intros [root [<- H]]. apply filter_In in H as [H B].
    rewrite !andb_true_iff, contains_spec in B.
    exists root. tauto.
  - intros [root [H [S [K [W ->]]]]]. exists root. split; [reflexivity|].
    apply filter_In. split; [exact H|].
    apply contains_spec in K. now rewrite S, K, W.
Qed.

Lemma stable_preview_parents_distinct (fs : filesystem)
  (plane_keyword org_path : string) :
  NoDup (stable_preview_parents fs plane_keyword org_path).
Proof. apply NoDup_nodup. Qed.

Lemma simple_structure_flag_spec (fs : filesystem) (org_path : string)
  (mgmt data : list string) :
  simple_structure_flag fs org_path mgmt data = true <->
  (List.length mgmt = 0
   \/ List.length (stable_preview_parents fs "resource-manager" org_path)
      = List.length mgmt)
  /\ (List.length data = 0
      \/ List.length (stable_preview_parents fs "data-plane" org_path)
         = List.length data).
Proof.
  unfold simple_structure_flag. cbv zeta.
  destruct (Nat.ltb_spec 0 (List.length mgmt)) as [Hm | Hm];
    destruct (Nat.ltb_spec 0 (List.length data)) as [Hd | Hd];
    repeat match goal with
           | |- context [Nat.eqb ?a ?b] => destruct (Nat.eqb_spec a b)
           end; simpl; split; intros H; try discriminate; try reflexivity;
    try lia.
Qed.

(** *** The walk and its pruning *)

Lemma walk_node_ext (keep keep' : string -> bool) :
  (forall d, keep d = keep' d) ->
  forall (n : fsnode) (top : string),
    os.walk_node keep top n = os.walk_node keep' top n.
Proof.
  intros E. fix IH 1. intros [content | es | target] top; simpl;
    try reflexivity.
  f_equal; [now rewrite (filter_ext _ _ E)|].
  induction es as [|[name child] es' IHes]; [reflexivity|].
  rewrite IHes, E.
  destruct (os.is_dir child && negb (os.is_link child) && keep' name);
    [now rewrite IH | reflexivity].
Qed.

Lemma walk_ext (fs : filesystem) (keep keep' : string -> bool) (top : string) :
  (forall d, keep d = keep' d) -> os.walk fs keep top = os.walk fs keep' top.
Proof.
  intros E. unfold os.walk. destruct (os.node_at fs top) as [n |]; [|reflexivity].
  destruct (os.resolve n); [now apply walk_node_ext | reflexivity].
Qed.

Lemma walk_outside_examples (fs : filesystem) (top : string) :
  os.walk fs not_examples top = os.walk fs outside_examples top.
Proof.
  apply walk_ext. intros d. unfold not_examples, outside_examples.
  destruct (string_dec (Str.lower d) "examples") as [-> | N]; [reflexivity|].
  apply String.eqb_neq in N. now rewrite N.
Qed.

Lemma mem_spec (x : string) (l : list string) :
  Str.mem x l = true <-> In x l.
Proof.
  unfold Str.mem. rewrite existsb_exists. split.
  - intros [y [H E]]. apply String.eqb_eq in E. now subst y.
  - intros H. exists x. split; [exact H | apply String.eqb_refl].
Qed.

(** The projects the analysis collects are the project roots. *)
Lemma typespec_projects_project_roots (fs : filesystem) (org_path : string) :
  typespec_projects_of fs org_path = project_roots fs org_path.
Proof.
  unfold typespec_projects_of, project_roots.
  rewrite walk_outside_examples.
  induction (os.walk fs outside_examples org_path) as [|st l IH];
    [reflexivity|].
  cbn [filter flat_map map]. rewrite <- IH.
  destruct (in_dec string_dec "tspconfig.yaml" (os.step_files st)) as [T | T].
  - apply mem_spec in T. rewrite T. reflexivity.
  - destruct (Str.mem "tspconfig.yaml" (os.step_files st)) eqn:MT;
      [apply mem_spec in MT; contradiction|].
    destruct (in_dec string_dec "main.tsp" (os.step_files st)) as [M | M].
    + apply mem_spec in M. rewrite M. reflexivity.
    + destruct (Str.mem "main.tsp" (os.step_files st)) eqn:MM;
        [apply mem_spec in MM; contradiction | reflexivity].
Qed.

(** *** The version folders *)

Lemma is_stable_preview_spec (root : string) :
  is_stable_preview root = true <-> named_stable_or_preview root.
Proof.
  unfold is_stable_preview, named_stable_or_preview.
  rewrite mem_spec, basename_last_segment. simpl. intuition congruence.
Qed.

Lemma has_swagger_in_this_branch_spec (fs : filesystem) (root : string) :
  has_swagger_in_this_branch fs root = true <-> definition_file_below fs root.
Proof.
  unfold has_swagger_in_this_branch, definition_file_below.
  rewrite walk_outside_examples, existsb_exists. split.
  - intros [st [Hst H]]. apply existsb_exists in H as [file [Hf J]].
    unfold is_swagger_json in J. apply andb_true_iff in J as [J X].
    apply endswith_spec in J as [stem ->].
    exists st, (stem ++ ".json"), stem. repeat split; try assumption.
    rewrite <- contains_spec. apply negb_true_iff in X. congruence.
  - intros [st [file [stem [Hst [Hf [-> X]]]]]]. exists st.
    split; [exact Hst|]. apply existsb_exists. exists (stem ++ ".json").
    split; [exact Hf|]. unfold is_swagger_json. apply andb_true_iff. split.
    + apply endswith_spec. now exists stem.
    + apply negb_true_iff. rewrite <- contains_spec in X.
      now destruct (Str.contains "examples" _).
Qed.

(** *** The parent directory *)

Lemma all_slashes_segments (c : ascii) (h : string) :
  forallb (String.eqb "") (Str.split c h) = Str.all_chars (Ascii.eqb c) h.
Proof.
  induction h as [|a h IH]; [reflexivity|]. simpl.
  rewrite (Ascii.eqb_sym c a).
  destruct (Ascii.eqb a c); [exact IH|].
  destruct (Str.split c h); reflexivity.
Qed.

Lemma without_trailing_empty_joined (c : ascii) (l : list string) :
  without_trailing_empty l <> [] ->
  Str.join (String c "") (without_trailing_empty l) <> "".
Proof.
  induction l as [|s l IH]; simpl; [congruence|].
  destruct (without_trailing_empty l) as [|k ks].
  - destruct (String.eqb_spec s ""); [congruence|]. intros _. exact n.
  - intros _. cbn [Str.join]. destruct s; discriminate.
Qed.

Lemma rstrip_segments (c : ascii) (h : string) :
  Str.join (String c "") (without_trailing_empty (Str.split c h))
  = Str.rstrip c h.
Proof.
  induction h as [|a h IH]; [reflexivity|].
  simpl Str.split. simpl Str.rstrip.
  destruct (Ascii.eqb_spec a c) as [-> | Hne].
  - cbn [without_trailing_empty]. rewrite <- IH.
    pose proof (without_trailing_empty_joined c (Str.split c h)) as N.
    destruct (without_trailing_empty (Str.split c h)) as [|k ks];
      [reflexivity|].
    rewrite join_cons by discriminate.
    destruct (Str.join (String c "") (k :: ks)) eqn:J;
      [exfalso; now apply N | reflexivity].
  - pose proof (split_not_nil c h) as Hnil.
    destruct (Str.split c h) as [|s rest]; [congruence|].
    cbn [without_trailing_empty] in *.
    destruct (without_trailing_empty rest) as [|k ks].
    + destruct (String.eqb_spec s "") as [-> | Hs].
      * simpl in IH. rewrite <- IH. reflexivity.
      * simpl in IH. rewrite <- IH. cbn [String.eqb].
        destruct s; [congruence | reflexivity].
    + rewrite join_cons in IH by discriminate.
      rewrite join_cons by discriminate. rewrite <- IH.
      destruct s; reflexivity.
Qed.

Lemma rstrip_sep_last (c : ascii) (h : string) :
  Str.rstrip c (h ++ String c "") = Str.rstrip c h.
Proof.
  induction h as [|a h IH]; simpl.
  - now rewrite Ascii.eqb_refl.
  - now rewrite IH.
Qed.

Lemma all_chars_sep_last (c : ascii) (h : string) :
  Str.all_chars (Ascii.eqb c) (h ++ String c "")
  = Str.all_chars (Ascii.eqb c) h.
Proof.
  induction h as [|a h IH]; simpl.
  - now rewrite Ascii.eqb_refl.
  - now rewrite IH.
Qed.

(** What comes before the last slash, in the string and in the
    segments. *)
Lemma head_segments (c : ascii) (p : string) :
  match Str.rfind1 c p with
  | 0 => Str.split c p = [p]
  | S k =>
      exists h,
        Str.take (S k) p = h ++ String c ""
        /\ removelast (Str.split c p) = Str.split c h
  end.
Proof.
  induction p as [|a p IH]; [reflexivity|].
  simpl Str.rfind1. simpl Str.split.
  destruct (Str.rfind1 c p) as [|j] eqn:E.
  - destruct (Ascii.eqb_spec a c) as [-> | Hne]; rewrite IH.
    + exists "". split; reflexivity.
    + reflexivity.
  - destruct IH as [h [T R]].
    destruct (rfind1_pos_split c p j E) as [x [y [t Hs]]].
    exists (String a h). split.
    + change (Str.take (S (S j)) (String a p))
        with (String a (Str.take (S j) p)).
      now rewrite T.
    + rewrite Hs in *. simpl Str.split.
      destruct (Ascii.eqb a c).
      * change (removelast ("" :: x :: y :: t))
          with ("" :: removelast (x :: y :: t)).
        now rewrite R.
      * change (removelast (String a x :: y :: t))
          with (String a x :: removelast (y :: t)).
        change (removelast (x :: y :: t)) with (x :: removelast (y :: t)) in R.
        rewrite <- R. reflexivity.
Qed.

(** [dirname] gives the parent directory. *)
Lemma dirname_parent_directory (p : string) :
  posixpath.dirname p = parent_directory p.
Proof.
  unfold posixpath.dirname, parent_directory, path_segments. cbv zeta.
  pose proof (head_segments posixpath.sep p) as H.
  destruct (Str.rfind1 posixpath.sep p) as [|k].
  - rewrite H. reflexivity.
  - destruct H as [h [-> ->]].
    pose proof (split_not_nil posixpath.sep h) as Hnil.
    rewrite all_chars_sep_last, rstrip_sep_last.
    rewrite <- (rstrip_segments posixpath.sep h).
    rewrite <- (all_slashes_segments posixpath.sep h).
    assert (J : Str.join "/" (Str.split posixpath.sep h) = h)
      by apply (join_split posixpath.sep h).
    rewrite J.
    assert (Z : (h ++ String posixpath.sep "" =? "") = false)
      by (now destruct h).
    rewrite Z. cbn [negb andb].
    destruct (Str.split posixpath.sep h) as [|s rest]; [congruence|].
    now destruct (forallb (String.eqb "") (s :: rest)).
Qed.

(** *** The parents the code collects *)

Lemma stable_preview_parents_are_version_folder_parents (fs : filesystem)
  (org_path keyword : string) :
  version_folder_parents fs org_path keyword
    (stable_preview_parents fs keyword org_path).
Proof.
  split; [apply stable_preview_parents_distinct|]. intros parent.
  rewrite stable_preview_parents_spec. unfold version_folder, walked_roots.
  rewrite walk_outside_examples.
  split.
  - intros [root [W [N [K [J ->]]]]]. exists root.
    rewrite <- dirname_parent_directory.
    apply is_stable_preview_spec in N.
    apply has_swagger_in_this_branch_spec in J. tauto.
  - intros [root [[W [N [K J]]] ->]]. exists root.
    rewrite dirname_parent_directory.
    apply is_stable_preview_spec in N.
    apply has_swagger_in_this_branch_spec in J. tauto.
Qed.

(** Two lists of the parents have one length. *)
Lemma version_folder_parents_length (fs : filesystem)
  (org_path keyword : string) (l l' : list string) :
  version_folder_parents fs org_path keyword l ->
  version_folder_parents fs org_path keyword l' ->
  List.length l = List.length l'.
Proof.
  intros [N M] [N' M']. apply Nat.le_antisymm; apply NoDup_incl_length;
    try assumption; intros x Hx; [apply M', M | apply M, M']; exact Hx.
Qed.

Lemma parents_counted (fs : filesystem) (org_path keyword : string) (n : nat) :
  List.length (stable_preview_parents fs keyword org_path) = n <->
  exists parents,
    version_folder_parents fs org_path keyword parents
    /\ List.length parents = n.
Proof.
  split.
  - intros H. exists (stable_preview_parents fs keyword org_path).
    split; [apply stable_preview_parents_are_version_folder_parents | exact H].
  - intros [parents [V <-]].
    apply (version_folder_parents_length fs org_path keyword); [|exact V].
    apply stable_preview_parents_are_version_folder_parents.
Qed.

(** C7, as the code decides it: the simple-structure flag of an
    organization's record is true exactly when, for the management plane
    and for the data plane independently, the organization has no project
    on the plane (the projects being assigned by the plane classifier) or
    the number of distinct parent directories of the version folders whose
    path contains the plane's keyword, [resource-manager] for the
    management plane and [data-plane] for the data plane, equals the
    number of the plane's projects.  A version folder is a walked
    directory named [stable] or [preview] in any letter case below which,
    outside the [examples] directories, a [.json] file is listed whose
    path has no [examples]. *)
Theorem simple_structure_by_keyword (lib : textlib) (cwd : string)
  (fs : filesystem) (org_path base : string) :
  org_path <> "" ->
  exists r,
    analyze_organization lib cwd fs org_path base = Ok r
    /\ management_plane_typespec_projects r
       = List.length (filter is_management_plane (project_roots fs org_path))
    /\ data_plane_typespec_projects r
       = List.length (filter (fun project => negb (is_management_plane project))
                        (project_roots fs org_path))
    /\ (is_simple_structure r = true <->
        (management_plane_typespec_projects r = 0
         \/ exists parents,
              version_folder_parents fs org_path "resource-manager" parents
              /\ List.length parents = management_plane_typespec_projects r)
        /\ (data_plane_typespec_projects r = 0
            \/ exists parents,
                 version_folder_parents fs org_path "data-plane" parents
                 /\ List.length parents = data_plane_typespec_projects r)).
Proof.
  intros Horg.
  destruct (analyze_organization_returns lib cwd fs org_path base Horg)
    as [r [E [_ [_ [_ [_ [M [D [Cm [Cd F]]]]]]]]]].
  exists r. split; [exact E|].
  rewrite Cm, Cd, F, M, D, typespec_projects_project_roots.
  split; [reflexivity|]. split; [reflexivity|].
  rewrite simple_structure_flag_spec, !parents_counted. reflexivity.
Qed.

(** C7 at the two organizations of the specification: one project with its
    one version-folder parent gives a true flag; two projects with three
    distinct version-folder parents give a false flag. *)
Lemma simple_structure_by_keyword_witness :
  (exists r,
     analyze_organization no_textlib "/" one_project_fs "/spec/contoso" "/spec"
     = Ok r
     /\ management_plane_typespec_projects r = 1
     /\ version_folder_parents one_project_fs "/spec/contoso" "resource-manager"
          ["/spec/contoso/resource-manager/Microsoft.Contoso/widgets"]
     /\ is_simple_structure r = true)
  /\ (exists r,
        analyze_organization no_textlib "/" three_parents_fs "/spec/contoso"
          "/spec" = Ok r
        /\ management_plane_typespec_projects r = 2
        /\ version_folder_parents three_parents_fs "/spec/contoso"
             "resource-manager"
             ["/spec/contoso/resource-manager/Microsoft.Contoso/widgets";
              "/spec/contoso/resource-manager/Microsoft.Contoso/gadgets";
              "/spec/contoso/resource-manager/Microsoft.Contoso/legacy"]
        /\ is_simple_structure r = false).
Proof.
  split.
  - destruct (simple_structure_by_keyword no_textlib "/" one_project_fs
                "/spec/contoso" "/spec" ltac:(discriminate))
      as [r [E [M [D S]]]].
    exists r. split; [exact E|].
    assert (M1 : management_plane_typespec_projects r = 1)
      by (rewrite M; reflexivity).
    assert (D0 : data_plane_typespec_projects r = 0)
      by (rewrite D; reflexivity).
    assert (V : version_folder_parents one_project_fs "/spec/contoso"
                  "resource-manager"
                  ["/spec/contoso/resource-manager/Microsoft.Contoso/widgets"])
      by exact (stable_preview_parents_are_version_folder_parents
                  one_project_fs "/spec/contoso" "resource-manager").
    split; [exact M1|]. split; [exact V|].
    apply S. rewrite M1, D0. split; [right | left; reflexivity].
    eexists. split; [exact V | reflexivity].
  - destruct (simple_structure_by_keyword no_textlib "/" three_parents_fs
                "/spec/contoso" "/spec" ltac:(discriminate))
      as [r [E [M [D S]]]].
    exists r. split; [exact E|].
    assert (M2 : management_plane_typespec_projects r = 2)
      by (rewrite M; reflexivity).
    assert (V : version_folder_parents three_parents_fs "/spec/contoso"
                  "resource-manager"
                  ["/spec/contoso/resource-manager/Microsoft.Contoso/widgets";
                   "/spec/contoso/resource-manager/Microsoft.Contoso/gadgets";
                   "/spec/contoso/resource-manager/Microsoft.Contoso/legacy"])
      by exact (stable_preview_parents_are_version_folder_parents
                  three_parents_fs "/spec/contoso" "resource-manager").
    split; [exact M2|]. split; [exact V|].
    destruct (is_simple_structure r); [|reflexivity].
    destruct S as [S _]. destruct (S eq_refl) as [[Z | [parents [P L]]] _].
    + rewrite M2 in Z. discriminate.
    + rewrite M2 in L.
      pose proof (version_folder_parents_length _ _ _ _ _ V P) as Q.
      rewrite L in Q. discriminate.
Defined.

(** C7, the claim as stated, fails where the plane classifier and the
    keyword part: the project [/spec/contoso/widgets] is a data-plane
    project, its folder [stable] is a version folder that the classifier
    assigns to the data plane, so the data plane has one project and one
    version-folder parent and the management plane has no project; yet the
    flag is false, the path of the version folder not containing
    [data-plane]. *)
Lemma classified_version_folder_is_not_counted :
  exists r,
    analyze_organization no_textlib "/" unplaced_data_project_fs
      "/spec/contoso" "/spec" = Ok r
    /\ management_plane_typespec_projects r = 0
    /\ data_plane_typespec_projects r = 1
    /\ mgmt_typespec_project_paths r = []
    /\ data_typespec_project_paths r = ["/spec/contoso/widgets"]
    /\ swagger_version_folders unplaced_data_project_fs "/spec/contoso"
       = ["/spec/contoso/widgets/stable"]
    /\ is_management_plane "/spec/contoso/widgets/stable" = false
    /\ classified_parents unplaced_data_project_fs "/spec/contoso" false
       = ["/spec/contoso/widgets"]
    /\ List.length
         (classified_parents unplaced_data_project_fs "/spec/contoso" false)
       = data_plane_typespec_projects r
    /\ is_simple_structure r = false.
Proof.
  eexists. split; [vm_compute; reflexivity|]. repeat split.
Qed.

(** ** The version-folder pattern *)

Lemma span_no_slash_spec (s tok rest : string) :
  span_no_slash s = (tok, rest) ->
  s = tok ++ rest
  /\ ~ In "/"%char (chars tok)
  /\ (rest = "" \/ exists post, rest = "/" ++ post).
Proof.
  revert tok rest. induction s as [|c s IH]; simpl; intros tok rest H.
  - injection H as <- <-. repeat split; [intros [] | now left].
  - destruct (Ascii.eqb_spec c "/") as [-> | Hne].
    + injection H as <- <-. repeat split; [intros [] | right; now exists s].
    + destruct (span_no_slash s) as [t r]. injection H as <- <-.
      destruct (IH t r eq_refl) as [-> [F R]]. repeat split; [|exact R].
      simpl. intros [E | E]; [congruence | contradiction].
Qed.

Lemma span_no_slash_token (tok post : string) :
  ~ In "/"%char (chars tok) ->
  span_no_slash (tok ++ String "/" post) = (tok, String "/" post).
Proof.
  induction tok as [|c tok IH]; simpl; intros F; [reflexivity|].
  destruct (Ascii.eqb_spec c "/") as [-> | Hne]; [exfalso; apply F; now left|].
  rewrite IH by (intros E; apply F; now right). reflexivity.
Qed.

Lemma version_match_here_spec (s tok : string) :
  version_match_here s = Some tok <->
  exists post, version_pattern_here tok post s.
Proof.
  unfold version_match_here, version_pattern_here. split.
  - destruct (Str.startswith "/stable/" s) eqn:S1;
      [|destruct (Str.startswith "/preview/" s) eqn:S2; [|discriminate]].
    + apply startswith_spec in S1 as [q ->].
      change (Str.drop 8 ("/stable/" ++ q)) with q.
      destruct (span_no_slash q) as [t r] eqn:Sp.
      destruct (span_no_slash_spec q t r Sp) as [-> [F R]].
      destruct (String.eqb_spec t ""); simpl negb; cbv iota; [discriminate|].
      destruct (Str.startswith "/" r) eqn:Sr; simpl; [|discriminate].
      apply startswith_spec in Sr as [post ->].
      intros H. injection H as <-.
      exists post, "stable". repeat split; auto.
    + apply startswith_spec in S2 as [q ->].
      change (Str.drop 9 ("/preview/" ++ q)) with q.
      destruct (span_no_slash q) as [t r] eqn:Sp.
      destruct (span_no_slash_spec q t r Sp) as [-> [F R]].
      destruct (String.eqb_spec t ""); simpl negb; cbv iota; [discriminate|].
      destruct (Str.startswith "/" r) eqn:Sr; simpl; [|discriminate].
      apply startswith_spec in Sr as [post ->].
      intros H. injection H as <-.
      exists post, "preview". repeat split; auto.
  - intros [post [kind [[-> | ->] [-> [Ne F]]]]]; simpl;
      rewrite (span_no_slash_token tok post F);
      apply String.eqb_neq in Ne; rewrite Ne; reflexivity.
Qed.

Lemma version_search_unfold (s : string) :
  version_search s =
  match version_match_here s with
  | Some tok => Some tok
  | None => match s with
            | EmptyString => None
            | String _ s' => version_search s'
            end
  end.
Proof. destruct s; reflexivity. Qed.

(** A token the search returns is the token of an occurrence of the
    pattern in the string. *)
Lemma version_search_sound (s tok : string) :
  version_search s = Some tok ->
  exists pre post rest,
    s = pre ++ rest /\ version_pattern_here tok post rest.
Proof.
  induction s as [|c s IH]; rewrite version_search_unfold;
    destruct (version_match_here _) as [t |] eqn:M; try discriminate.
  - intros H. injection H as H. subst t.
    apply version_match_here_spec in M as [post M].
    exists "", post, (String c s). split; [reflexivity | exact M].
  - intros H. destruct (IH H) as [pre [post [rest [E P]]]].
    exists (String c pre), post, rest. split; [now rewrite E | exact P].
Qed.

(** The search finds a token whenever the pattern occurs in the string. *)
Lemma version_search_complete (pre rest tok post : string) :
  version_pattern_here tok post rest ->
  exists tok', version_search (pre ++ rest) = Some tok'.
Proof.
  intros P. assert (M : version_match_here rest = Some tok)
    by (apply version_match_here_spec; now exists post).
  induction pre as [|c pre IH]; cbn [append]; rewrite version_search_unfold.
  - rewrite M. now exists tok.
  - destruct (version_match_here (String c (pre ++ rest))) as [t |];
      [now exists t | exact IH].
Qed.

(** ** The version-uniformity verdict of a document *)

Lemma collect_api_versions_spec (entries : list yaml) (seen : list string) :
  collect_api_versions entries seen =
  if forallb is_text entries
  then Ok (seen ++ version_tokens entries)%list
  else Raise (TypeError "expected string or bytes-like object").
Proof.
  revert seen. induction entries as [|entry rest IH]; intros seen; simpl.
  - now rewrite app_nil_r.
  - destruct entry; simpl; try reflexivity.
    destruct (version_search s); rewrite IH;
      destruct (forallb is_text rest); try reflexivity.
    now rewrite <- app_assoc.
Qed.

(** The verdict of the inner block once the body is loaded. *)
Lemma block_has_issue_loaded (lib : textlib) (yaml_block : string)
  (yaml_data : yaml) :
  yaml_safe_load lib yaml_block = Ok yaml_data ->
  match block_has_issue lib yaml_block with
  | Ok b =>
      b = forallb is_text (input_file_entries yaml_data)
          && Nat.ltb 1 (List.length
                          (Str.distinct
                             (version_tokens (input_file_entries yaml_data))))
  | Raise _ =>
      forallb is_text (input_file_entries yaml_data) = false
      \/ List.length
           (Str.distinct (version_tokens (input_file_entries yaml_data))) = 0
  end.
Proof.
  intros L. unfold block_has_issue. rewrite L.
  destruct yaml_data as [| b | n | s | entries | items]; try reflexivity.
  destruct items as [|item items]; [reflexivity|].
  unfold input_file_entries.
  destruct (yaml_get_input_file (item :: items)) as [| b | n | s | l | kv];
    cbn [yaml_iter py_bind]; try (right; reflexivity);
    rewrite collect_api_versions_spec;
    match goal with
    | |- context [forallb is_text ?l] => destruct (forallb is_text l)
    end; cbn [py_bind app andb]; auto.
Qed.

(** C6, as the code decides it: for a document in which the default tag
    and its fenced block are found and the block body loads, the check
    flags the document exactly when every input-file entry is a string and
    the entries yield more than one distinct version-folder token. *)
Theorem document_flagged_spec (lib : textlib)
  (content default_tag yaml_block : string) (yaml_data : yaml) :
  find_default_tag lib content = Some default_tag ->
  find_tag_block lib default_tag content = Some yaml_block ->
  yaml_safe_load lib yaml_block = Ok yaml_data ->
  (document_flagged lib content = true <->
   forallb is_text (input_file_entries yaml_data) = true
   /\ 1 < List.length
            (Str.distinct (version_tokens (input_file_entries yaml_data)))).
Proof.
  intros T B L. unfold document_flagged, content_has_issue. rewrite T, B.
  pose proof (block_has_issue_loaded lib yaml_block yaml_data L) as H.
  destruct (block_has_issue lib yaml_block) as [b | e].
  - subst b. now rewrite andb_true_iff, Nat.ltb_lt.
  - split; [discriminate|]. intros [F N].
    destruct H as [H | H]; [congruence | lia].
Qed.

(** C6 at the two documents of the specification: the block that
    references [stable/2021-01-01] and [stable/2022-02-02] is flagged, the
    block that references [stable/2021-01-01] twice is not. *)
Lemma document_flagged_spec_witness :
  document_flagged
    (sample_textlib (input_file_block two_versions)
       (loaded_entries two_versions))
    (sample_readme (input_file_block two_versions)) = true
  /\ document_flagged
       (sample_textlib (input_file_block same_version_twice)
          (loaded_entries same_version_twice))
       (sample_readme (input_file_block same_version_twice)) = false.
Proof.
  split.
  - apply (document_flagged_spec
             (sample_textlib (input_file_block two_versions)
                (loaded_entries two_versions))
             (sample_readme (input_file_block two_versions))
             "package-2022-02" (input_file_block two_versions)
             (loaded_entries two_versions) eq_refl eq_refl eq_refl).
    split; [reflexivity | vm_compute; lia].
  - destruct (document_flagged _ _) eqn:E; [|reflexivity].
    apply (document_flagged_spec
             (sample_textlib (input_file_block same_version_twice)
                (loaded_entries same_version_twice))
             (sample_readme (input_file_block same_version_twice))
             "package-2022-02" (input_file_block same_version_twice)
             (loaded_entries same_version_twice) eq_refl eq_refl eq_refl)
      in E.
    destruct E as [_ E]. vm_compute in E. lia.
Defined.

(** C6, the claim as stated, fails: in a document whose default tag and
    block are found and whose block body loads, the entries yield two
    distinct version-folder tokens, and the document is not flagged,
    because one entry is a number and the search raises on it. *)
Lemma number_entry_not_flagged :
  find_default_tag
    (sample_textlib (input_file_block (two_versions ++ ["5"])%list)
       loaded_with_number)
    (sample_readme (input_file_block (two_versions ++ ["5"])%list))
  = Some "package-2022-02"
  /\ find_tag_block
       (sample_textlib (input_file_block (two_versions ++ ["5"])%list)
          loaded_with_number)
       "package-2022-02"
       (sample_readme (input_file_block (two_versions ++ ["5"])%list))
     = Some (input_file_block (two_versions ++ ["5"])%list)
  /\ yaml_safe_load
       (sample_textlib (input_file_block (two_versions ++ ["5"])%list)
          loaded_with_number)
       (input_file_block (two_versions ++ ["5"])%list)
     = Ok loaded_with_number
  /\ Str.distinct (version_tokens (input_file_entries loaded_with_number))
     = ["2021-01-01"; "2022-02-02"]
  /\ document_flagged
       (sample_textlib (input_file_block (two_versions ++ ["5"])%list)
          loaded_with_number)
       (sample_readme (input_file_block (two_versions ++ ["5"])%list))
     = false.
Proof. repeat split. Qed.

(** The organization's version-uniformity flag is raised exactly when one
    of the documents below [resource-manager] is flagged. *)
Lemma check_readme_fold (lib : textlib) (cwd : string) (fs : filesystem)
  (org_path : string) (readme_files : list string) (st : bool * list string) :
  fst (fold_left (check_readme lib cwd fs org_path) readme_files st)
  = fst st || existsb (flagged_at lib fs) readme_files.
Proof.
  revert st. induction readme_files as [|readme_path rest IH]; intros st.
  - simpl. now rewrite orb_false_r.
  - cbn [fold_left existsb]. rewrite IH. unfold check_readme, flagged_at.
    destruct (os.read_text fs readme_path) as [content | e];
      [|reflexivity].
    destruct (document_flagged lib content); [|reflexivity].
    destruct (posixpath.relpath cwd readme_path org_path); simpl;
      now rewrite orb_true_r.
Qed.

Lemma check_version_uniform_issues_flag (lib : textlib) (cwd : string)
  (fs : filesystem) (org_path : string) :
  fst (check_version_uniform_issues lib cwd fs org_path)
  = os.path_exists fs (posixpath.join org_path "resource-manager")
    && existsb (flagged_at lib fs)
         (readme_files_below fs (posixpath.join org_path "resource-manager")).
Proof.
  unfold check_version_uniform_issues. cbv zeta.
  destruct (os.path_exists fs _); simpl; [|reflexivity].
  apply check_readme_fold.
Qed.

(** ** The run of [main] *)

(** Once the organizations are enumerated, [main] ends with one record per
    organization directory, in order, whether or not its analysis
    raised. *)
Lemma main_results_cover_every_organization (lib : textlib) (cwd : string)
  (fs : filesystem) (org_dirs : list string) :
  organization_dirs fs spec_base_path_of_main = Ok org_dirs ->
  main_results lib cwd fs
  = Ok (map (recorded (analyze_organization lib cwd fs)
               spec_base_path_of_main) org_dirs).
Proof.
  intros H. unfold main_results. cbv zeta. rewrite H. cbn [py_bind].
  now rewrite analysis_loop_map.
Qed.

(** ** The model on the values of the specification's examples *)

Example service_name_examples :
  is_valid_service_name "batch-ai" = true
  /\ is_valid_service_name "batch_ai" = false.
Proof. split; reflexivity. Qed.

Example misnested_version_folder :
  check_folder_structure_v2_compliance "/" (fun _ => false)
    "/spec/contoso/resource-manager/Microsoft.Contoso/widgets/extra/stable"
    "/spec"
  = Ok (false,
        "Non-compliant management plane Swagger stable structure: contoso/resource-manager/Microsoft.Contoso/widgets/extra/stable (must be exactly specification/{orgName}/resource-manager/{namespaceName}/{serviceName}/stable)").
Proof. reflexivity. Qed.

Example namespace_reason_example :
  check_folder_structure_v2_compliance "/"
    (only_file "/spec/contoso/resource-manager/microsoft.contoso/widgets/tspconfig.yaml")
    "/spec/contoso/resource-manager/microsoft.contoso/widgets" "/spec"
  = Ok (false, namespace_reason "microsoft.contoso").
Proof. reflexivity. Qed.

Example posixpath_examples :
  posixpath.relpath "/home/user" "/a/b" "/spec/x" = Ok "../../a/b"
  /\ posixpath.relpath "/home/user" "docs/../specs/contoso" "/home"
     = Ok "user/specs/contoso"
  /\ posixpath.relpath "/" "/spec" "/spec" = Ok "."
  /\ posixpath.normpath "//a/./b/../c/" = "//a/c"
  /\ posixpath.normpath "///a//b" = "/a/b"
  /\ posixpath.dirname "/spec/contoso/stable" = "/spec/contoso"
  /\ posixpath.dirname "stable" = ""
  /\ posixpath.basename "/spec/contoso/" = ""
  /\ posixpath.join "/spec/" "contoso" = "/spec/contoso"
  /\ posixpath.join "/spec" "/abs" = "/abs".
Proof. repeat split. Qed.

(** The file system with links: a walk lists a link to a directory among
    the directories and does not enter it, and lists a link that dangles
    among the files, where [os.path.exists] denies it; a path is resolved
    name by name, whatever its spelling. *)
Example file_system_examples :
  os.walk linked_fs keep_all "/spec/contoso"
  = [("/spec/contoso", ["widgets"; "latest"], ["readme.md"]);
     ("/spec/contoso/widgets", ["stable"], ["tspconfig.yaml"]);
     ("/spec/contoso/widgets/stable", ["2021-01-01"], []);
     ("/spec/contoso/widgets/stable/2021-01-01", [], ["widgets.json"])]
  /\ os.walk linked_fs keep_all "/spec/contoso/latest"
     = [("/spec/contoso/latest", [], ["main.tsp"])]
  /\ typespec_projects_of linked_fs "/spec/contoso" = ["/spec/contoso/widgets"]
  /\ os.path_exists linked_fs "/spec/contoso/widgets/tspconfig.yaml" = false
  /\ has_typespec (os.path_exists linked_fs) "/spec/contoso/widgets" = false
  /\ os.path_exists linked_fs "/spec/contoso/latest/main.tsp" = true
  /\ os.read_text linked_fs "/spec/contoso/readme.md" = Ok "# contoso"
  /\ os.listdir linked_fs "/spec/contoso/latest" = Ok ["main.tsp"]
  /\ os.path_isdir linked_fs "/spec/contoso/" = true
  /\ os.path_isdir linked_fs "/spec//contoso/./widgets" = true
  /\ os.path_isdir linked_fs "/spec/contoso/widgets/../latest" = true
  /\ os.path_exists linked_fs "/spec/contoso/readme.md/" = false
  /\ os.path_exists linked_fs "/spec/contoso/gadgets/../widgets" = false
  /\ os.path_exists linked_fs "/" = true
  /\ os.path_exists linked_fs "" = false
  /\ os.walk linked_fs keep_all "/spec/contoso/"
     = [("/spec/contoso/", ["widgets"; "latest"], ["readme.md"]);
        ("/spec/contoso/widgets", ["stable"], ["tspconfig.yaml"]);
        ("/spec/contoso/widgets/stable", ["2021-01-01"], []);
        ("/spec/contoso/widgets/stable/2021-01-01", [], ["widgets.json"])].
Proof. repeat split. Qed.

(* ================================================================== *)
(** * Further properties of the code *)

(** ** The compliance rules for version folders *)

(** A stable/preview folder that is no project root and lies outside the
    shared folder: the verdict by the plane keyword in its relative
    path. *)
Lemma version_folder_verdict
  (cwd : string) (path_exists : string -> bool) (folder base rel : string) :
  posixpath.relpath cwd folder base = Ok rel ->
  has_typespec path_exists folder = false ->
  is_stable_preview folder = true ->
  part (path_segments rel) 0 <> "common-types" ->
  check_folder_structure_v2_compliance cwd path_exists folder base =
  let parts := path_segments rel in
  let folder_name := posixpath.basename folder in
  if Nat.ltb (List.length parts) 2 then Ok (false, too_short_reason rel)
  else if Str.contains "resource-manager" rel then
    if Nat.eqb (List.length parts) 5
       && String.eqb (part parts 1) "resource-manager"
       && String.eqb (part parts 4) folder_name then
      if negb (is_valid_namespace_pattern (part parts 2))
      then Ok (false, namespace_reason (part parts 2))
      else if negb (is_valid_service_name (part parts 3))
      then Ok (false, service_reason (part parts 3))
      else Ok (true, "Compliant management plane Swagger " ++ folder_name
                     ++ " folder")
    else
      Ok (false,
          "Non-compliant management plane Swagger " ++ folder_name
          ++ " structure: " ++ rel
          ++ " (must be exactly specification/{orgName}/resource-manager/{namespaceName}/{serviceName}/"
          ++ folder_name ++ ")")
  else if Str.contains "data-plane" rel then
    if Nat.eqb (List.length parts) 4
       && String.eqb (part parts 1) "data-plane"
       && String.eqb (part parts 3) folder_name then
      if negb (is_valid_service_name (part parts 2))
      then Ok (false, service_reason (part parts 2))
      else Ok (true, "Compliant data plane Swagger " ++ folder_name
                     ++ " folder")
    else
      Ok (false,
          "Non-compliant data plane Swagger " ++ folder_name
          ++ " structure: " ++ rel
          ++ " (must be exactly specification/{orgName}/data-plane/{serviceName}/"
          ++ folder_name ++ ")")
  else
    Ok (false,
        "Swagger " ++ folder_name
        ++ " folder not in resource-manager or data-plane structure: "
        ++ rel).
Proof.
  intros Hrel Hts Hsp Hct. unfold check_folder_structure_v2_compliance.
  rewrite Hrel. cbn [py_bind]. cbv zeta. fold (path_segments rel).
  rewrite mem_common_types, Hts.
  apply String.eqb_neq in Hct. rewrite Hct.
  unfold is_stable_preview in Hsp. rewrite Hsp. reflexivity.
Qed.

(** X1: a stable/preview folder that is no project root, lies outside the
    shared folder and has [resource-manager] in its relative path is
    compliant exactly when the path has 5 segments, the second being
    [resource-manager] and the fifth the folder's own name, with a valid
    namespace third and a valid service name fourth. *)
Theorem management_version_folder_compliance
  (cwd : string) (path_exists : string -> bool) (folder base rel : string) :
  posixpath.relpath cwd folder base = Ok rel ->
  has_typespec path_exists folder = false ->
  is_stable_preview folder = true ->
  part (path_segments rel) 0 <> "common-types" ->
  Substring "resource-manager" rel ->
  exists verdict reason,
    check_folder_structure_v2_compliance cwd path_exists folder base
    = Ok (verdict, reason)
    /\ (verdict = true <->
        List.length (path_segments rel) = 5
        /\ part (path_segments rel) 1 = "resource-manager"
        /\ part (path_segments rel) 4 = posixpath.basename folder
        /\ is_valid_namespace_pattern (part (path_segments rel) 2) = true
        /\ is_valid_service_name (part (path_segments rel) 3) = true).
Proof.
  intros Hrel Hts Hsp Hct Hrm.
  rewrite (version_folder_verdict _ _ _ _ _ Hrel Hts Hsp Hct). cbv zeta.
  apply contains_spec in Hrm. rewrite Hrm.
  destruct (Nat.ltb_spec (List.length (path_segments rel)) 2) as [Hlt | Hge].
  - eexists _, _. split; [reflexivity|]. split; [discriminate|].
    intros [H _]. lia.
  - destruct (Nat.eqb_spec (List.length (path_segments rel)) 5) as [L | L];
      destruct (String.eqb_spec (part (path_segments rel) 1) "resource-manager")
        as [R | R];
      destruct (String.eqb_spec (part (path_segments rel) 4)
                  (posixpath.basename folder)) as [N | N];
      cbn [andb];
      try (eexists _, _; split; [reflexivity|];
           split; [discriminate | intros H; tauto]).
    destruct (is_valid_namespace_pattern _) eqn:Ens;
      [destruct (is_valid_service_name _) eqn:Esv|];
      cbn [negb]; eexists _, _; (split; [reflexivity|]);
      split; try discriminate; try tauto;
      intros H; decompose [and] H; congruence.
Qed.

Lemma management_version_folder_compliance_witness :
  exists verdict reason,
    check_folder_structure_v2_compliance "/" (fun _ => false)
      "/spec/contoso/resource-manager/Microsoft.Contoso/widgets/Preview"
      "/spec" = Ok (verdict, reason)
    /\ (verdict = true <->
        List.length
          (path_segments
             "contoso/resource-manager/Microsoft.Contoso/widgets/Preview") = 5
        /\ "resource-manager" = "resource-manager"
        /\ "Preview" = "Preview"
        /\ is_valid_namespace_pattern "Microsoft.Contoso" = true
        /\ is_valid_service_name "widgets" = true).
Proof.
  apply (management_version_folder_compliance "/" (fun _ => false)
           "/spec/contoso/resource-manager/Microsoft.Contoso/widgets/Preview"
           "/spec"
           "contoso/resource-manager/Microsoft.Contoso/widgets/Preview"
           eq_refl eq_refl eq_refl).
  - discriminate.
  - apply contains_spec. reflexivity.
Defined.

(** X2: a stable/preview folder that is no project root, lies outside the
    shared folder and has [data-plane] but not [resource-manager] in its
    relative path is compliant exactly when the path has 4 segments, the
    second being [data-plane] and the fourth the folder's own name, with a
    valid service name third. *)
Theorem data_version_folder_compliance
  (cwd : string) (path_exists : string -> bool) (folder base rel : string) :
  posixpath.relpath cwd folder base = Ok rel ->
  has_typespec path_exists folder = false ->
  is_stable_preview folder = true ->
  part (path_segments rel) 0 <> "common-types" ->
  ~ Substring "resource-manager" rel ->
  Substring "data-plane" rel ->
  exists verdict reason,
    check_folder_structure_v2_compliance cwd path_exists folder base
    = Ok (verdict, reason)
    /\ (verdict = true <->
        List.length (path_segments rel) = 4
        /\ part (path_segments rel) 1 = "data-plane"
        /\ part (path_segments rel) 3 = posixpath.basename folder
        /\ is_valid_service_name (part (path_segments rel) 2) = true).
Proof.
  intros Hrel Hts Hsp Hct Hrm Hdp.
  rewrite (version_folder_verdict _ _ _ _ _ Hrel Hts Hsp Hct). cbv zeta.
  rewrite <- contains_spec in Hrm. apply not_true_is_false in Hrm.
  apply contains_spec in Hdp. rewrite Hrm, Hdp.
  destruct (Nat.ltb_spec (List.length (path_segments rel)) 2) as [Hlt | Hge].
  - eexists _, _. split; [reflexivity|]. split; [discriminate|].
    intros [H _]. lia.
  - destruct (Nat.eqb_spec (List.length (path_segments rel)) 4) as [L | L];
      destruct (String.eqb_spec (part (path_segments rel) 1) "data-plane")
        as [R | R];
      destruct (String.eqb_spec (part (path_segments rel) 3)
                  (posixpath.basename folder)) as [N | N];
      cbn [andb];
      try (eexists _, _; split; [reflexivity|];
           split; [discriminate | intros H; tauto]).
    destruct (is_valid_service_name _) eqn:Esv;
      cbn [negb]; eexists _, _; (split; [reflexivity|]);
      split; try discriminate; try tauto;
      intros H; decompose [and] H; congruence.
Qed.

Lemma data_version_folder_compliance_witness :
  exists verdict reason,
    check_folder_structure_v2_compliance "/" (fun _ => false)
      "/spec/contoso/data-plane/widgets/stable" "/spec" = Ok (verdict, reason)
    /\ (verdict = true <->
        List.length (path_segments "contoso/data-plane/widgets/stable") = 4
        /\ "data-plane" = "data-plane"
        /\ "stable" = "stable"
        /\ is_valid_service_name "widgets" = true).
Proof.
  apply (data_version_folder_compliance "/" (fun _ => false)
           "/spec/contoso/data-plane/widgets/stable" "/spec"
           "contoso/data-plane/widgets/stable" eq_refl eq_refl eq_refl).
  - discriminate.
  - intros H. apply contains_spec in H. discriminate.
  - apply contains_spec. reflexivity.
Defined.

(** ** What a compliant verdict implies *)

(** A folder that is neither a project root nor named stable/preview is
    non-compliant outside the shared folder. *)
Lemma unanchored_folder_verdict
  (cwd : string) (path_exists : string -> bool) (folder base rel : string) :
  posixpath.relpath cwd folder base = Ok rel ->
  has_typespec path_exists folder = false ->
  is_stable_preview folder = false ->
  part (path_segments rel) 0 <> "common-types" ->
  exists reason,
    check_folder_structure_v2_compliance cwd path_exists folder base
    = Ok (false, reason).
Proof.
  intros Hrel Hts Hsp Hct. unfold check_folder_structure_v2_compliance.
  rewrite Hrel. cbn [py_bind]. cbv zeta. fold (path_segments rel).
  rewrite mem_common_types, Hts.
  apply String.eqb_neq in Hct. rewrite Hct.
  unfold is_stable_preview in Hsp. rewrite Hsp.
  destruct (Nat.ltb _ _); eauto.
Qed.

(** X3: outside the shared folder, a compliant folder is a project root
    or a stable/preview folder, and its relative path is either
    [org/resource-manager/namespace/service] with at most the version
    folder after it, or [org/data-plane/service] with at most the version
    folder after it, the namespace and the service name being valid. *)
Theorem compliant_folder_shape
  (cwd : string) (path_exists : string -> bool)
  (folder base rel reason : string) :
  posixpath.relpath cwd folder base = Ok rel ->
  check_folder_structure_v2_compliance cwd path_exists folder base
  = Ok (true, reason) ->
  part (path_segments rel) 0 <> "common-types" ->
  (has_typespec path_exists folder = true \/ is_stable_preview folder = true)
  /\ ((part (path_segments rel) 1 = "resource-manager"
       /\ is_valid_namespace_pattern (part (path_segments rel) 2) = true
       /\ is_valid_service_name (part (path_segments rel) 3) = true
       /\ (List.length (path_segments rel) = 4
           \/ List.length (path_segments rel) = 5))
      \/ (part (path_segments rel) 1 = "data-plane"
          /\ is_valid_service_name (part (path_segments rel) 2) = true
          /\ (List.length (path_segments rel) = 3
              \/ List.length (path_segments rel) = 4))).
Proof.
  intros Hrel Hc Hct.
  destruct (has_typespec path_exists folder) eqn:Hts.
  - split; [now left|].
    rewrite (project_root_verdict _ _ _ _ _ Hrel Hts Hct) in Hc.
    cbv zeta in Hc.
    repeat match type of Hc with
           | context [if ?b then _ else _] => destruct b eqn:?
           end; try discriminate;
      repeat match goal with
             | H : _ && _ = true |- _ => apply andb_true_iff in H as [? ?]
             | H : negb _ = false |- _ => apply negb_false_iff in H
             | H : Nat.eqb _ _ = true |- _ => apply Nat.eqb_eq in H
             | H : String.eqb _ _ = true |- _ => apply String.eqb_eq in H
             end; tauto.
  - destruct (is_stable_preview folder) eqn:Hsp.
    + split; [now right|].
      rewrite (version_folder_verdict _ _ _ _ _ Hrel Hts Hsp Hct) in Hc.
      cbv zeta in Hc.
      repeat match type of Hc with
             | context [if ?b then _ else _] => destruct b eqn:?
             end; try discriminate;
        repeat match goal with
               | H : _ && _ = true |- _ => apply andb_true_iff in H as [? ?]
               | H : negb _ = false |- _ => apply negb_false_iff in H
               | H : Nat.eqb _ _ = true |- _ => apply Nat.eqb_eq in H
               | H : String.eqb _ _ = true |- _ => apply String.eqb_eq in H
               end; tauto.
    + destruct (unanchored_folder_verdict _ _ _ _ _ Hrel Hts Hsp Hct)
        as [reason' E].
      congruence.
Qed.

Lemma compliant_folder_shape_witness :
  (has_typespec (fun _ => false)
     "/spec/contoso/data-plane/widgets/preview" = true
   \/ is_stable_preview "/spec/contoso/data-plane/widgets/preview" = true)
  /\ (("data-plane" = "resource-manager"
       /\ is_valid_namespace_pattern "widgets" = true
       /\ is_valid_service_name "preview" = true
       /\ (4 = 4 \/ 4 = 5))
      \/ ("data-plane" = "data-plane"
          /\ is_valid_service_name "widgets" = true
          /\ (4 = 3 \/ 4 = 4))).
Proof.
  apply (compliant_folder_shape "/" (fun _ => false)
           "/spec/contoso/data-plane/widgets/preview" "/spec"
           "contoso/data-plane/widgets/preview"
           "Compliant data plane Swagger preview folder" eq_refl eq_refl).
  discriminate.
Defined.

(** X4: the compliance check raises exactly on the empty folder path, with
    the [ValueError] of [relpath]; every other folder path gets a
    verdict. *)
Theorem compliance_check_raises_on_empty_path
  (cwd : string) (path_exists : string -> bool) (folder base : string) :
  (folder = "" <->
   check_folder_structure_v2_compliance cwd path_exists folder base
   = Raise (ValueError "no path specified"))
  /\ (folder <> "" <->
      exists verdict reason,
        check_folder_structure_v2_compliance cwd path_exists folder base
        = Ok (verdict, reason)).
Proof.
  destruct (string_dec folder "") as [-> | Hne].
  - assert (E : check_folder_structure_v2_compliance cwd path_exists "" base
                = Raise (ValueError "no path specified")) by reflexivity.
    split; split; try tauto.
    + intros [v [r H]]. congruence.
  - destruct (compliance_check_returns cwd path_exists folder base Hne)
      as [v [r E]].
    split; split; try tauto; try congruence.
    intros _. now exists v, r.
Qed.

(** ** The record of an organization *)

Lemma filter_split_length {A : Type} (f : A -> bool) (l : list A) :
  List.length (filter f l) + List.length (filter (fun x => negb (f x)) l)
  = List.length l.
Proof.
  induction l as [|x l IH]; [reflexivity|]. simpl.
  destruct (f x); simpl; lia.
Qed.

Lemma classify_swagger_files_filter (cwd org_path : string)
  (swagger_files : list string) :
  Forall (fun file => file <> "") swagger_files ->
  classify_swagger_files cwd swagger_files org_path
  = Ok (filter (rel_contains cwd org_path "resource-manager") swagger_files,
        filter (fun file =>
                  negb (rel_contains cwd org_path "resource-manager" file)
                  && rel_contains cwd org_path "data-plane" file)
               swagger_files).
Proof.
  induction 1 as [|file rest Hfile _ IH]; [reflexivity|].
  destruct (relpath_returns cwd file org_path Hfile) as [rel E].
  assert (R : forall keyword,
             rel_contains cwd org_path keyword file
             = Str.contains keyword rel)
    by (intros keyword; unfold rel_contains; now rewrite E).
  cbn [classify_swagger_files filter]. rewrite E, IH, !R. cbn [py_bind].
  destruct (Str.contains "resource-manager" rel); [reflexivity|].
  destruct (Str.contains "data-plane" rel); reflexivity.
Qed.

Lemma classified_at_most_total (cwd org_path : string)
  (swagger_files : list string) :
  List.length
    (filter (rel_contains cwd org_path "resource-manager") swagger_files)
  + List.length
      (filter (fun file =>
                 negb (rel_contains cwd org_path "resource-manager" file)
                 && rel_contains cwd org_path "data-plane" file)
              swagger_files)
  <= List.length swagger_files.
Proof.
  induction swagger_files as [|x l IH]; [simpl; lia|]. simpl.
  destruct (rel_contains cwd org_path "resource-manager" x); simpl;
    [lia|].
  destruct (rel_contains cwd org_path "data-plane" x); simpl; lia.
Qed.

(** X7: the classification of swagger files keeps, in order, the files
    whose relative path contains [resource-manager] as management plane,
    and of the others those whose relative path contains [data-plane] as
    data plane; no file is in both lists and files with neither keyword
    are in none. *)
Theorem classify_swagger_files_partition (cwd org_path : string)
  (swagger_files : list string) :
  Forall (fun file => file <> "") swagger_files ->
  exists mgmt data,
    classify_swagger_files cwd swagger_files org_path = Ok (mgmt, data)
    /\ mgmt = filter (rel_contains cwd org_path "resource-manager")
                swagger_files
    /\ data = filter (fun file =>
                        negb (rel_contains cwd org_path "resource-manager" file)
                        && rel_contains cwd org_path "data-plane" file)
                     swagger_files
    /\ (forall file, In file mgmt -> ~ In file data)
    /\ List.length mgmt + List.length data <= List.length swagger_files.
Proof.
  intros H. eexists _, _.
  split; [exact (classify_swagger_files_filter cwd org_path _ H)|].
  split; [reflexivity|]. split; [reflexivity|]. split.
  - intros file M D. apply filter_In in M as [_ M]. apply filter_In in D as [_ D].
    rewrite M in D. discriminate.
  - apply classified_at_most_total.
Qed.

Lemma classify_swagger_files_partition_witness :
  exists mgmt data,
    classify_swagger_files "/"
      ["/spec/contoso/resource-manager/a.json";
       "/spec/contoso/data-plane/b.json";
       "/spec/contoso/other/c.json";
       "/spec/contoso/resource-manager/data-plane/d.json"]
      "/spec/contoso" = Ok (mgmt, data)
    /\ mgmt = ["/spec/contoso/resource-manager/a.json";
               "/spec/contoso/resource-manager/data-plane/d.json"]
    /\ data = ["/spec/contoso/data-plane/b.json"].
Proof.
  destruct (classify_swagger_files_partition "/" "/spec/contoso"
              ["/spec/contoso/resource-manager/a.json";
               "/spec/contoso/data-plane/b.json";
               "/spec/contoso/other/c.json";
               "/spec/contoso/resource-manager/data-plane/d.json"])
    as [mgmt [data [E [M [D _]]]]].
  - repeat constructor; discriminate.
  - exists mgmt, data. split; [exact E|]. split; [exact M | exact D].
Defined.

(** The loop over the candidate folders sorts them, in order, by the
    verdict of the check. *)
Lemma check_all_folders_partition (cwd : string) (fs : filesystem)
  (base : string) (folders : list string) :
  Forall (fun folder => folder <> "") folders ->
  forall st, exists compliant non_compliant,
    check_all_folders cwd fs base folders st = Ok (compliant, non_compliant)
    /\ compliant
       = (fst st ++ filter (judged_compliant cwd fs base) folders)%list
    /\ map fst non_compliant
       = (map fst (snd st)
          ++ filter (fun folder => negb (judged_compliant cwd fs base folder))
               folders)%list.
Proof.
  induction 1 as [|folder rest Hfolder _ IH]; intros [c n].
  - exists c, n. simpl. now rewrite !app_nil_r.
  - destruct (compliance_check_returns cwd (os.path_exists fs) folder base
                Hfolder) as [verdict [reason V]].
    assert (J : judged_compliant cwd fs base folder = verdict)
      by (unfold judged_compliant; rewrite V; now destruct verdict).
    cbn [check_all_folders filter]. rewrite V, J.
    cbn [py_bind]. destruct verdict; cbn [negb].
    + destruct (IH ((c ++ [folder])%list, n)) as [c' [n' [E [C N]]]].
      exists c', n'. split; [exact E|]. cbn [fst snd] in *.
      split; [now rewrite C, <- app_assoc | exact N].
    + destruct (IH (c, (n ++ [(folder, reason)])%list)) as [c' [n' [E [C N]]]].
      exists c', n'. split; [exact E|]. cbn [fst snd] in *.
      split; [exact C|]. rewrite N, map_app, <- app_assoc. reflexivity.
Qed.

Lemma all_folders_named (fs : filesystem) (org_path : string) :
  org_path <> "" ->
  Forall (fun folder => folder <> "")
    (typespec_projects_of fs org_path
     ++ swagger_version_folders fs org_path)%list.
Proof.
  intros H. apply Forall_app. split;
    [now apply typespec_projects_named
    | now apply swagger_version_folders_named].
Qed.

Lemma filter_named (f : string -> bool) (l : list string) :
  Forall (fun x => x <> "") l -> Forall (fun x => x <> "") (filter f l).
Proof.
  rewrite !Forall_forall. intros H x Hx. apply filter_In in Hx as [Hx _].
  now apply H.
Qed.

(** X8: the analysis of an organization with a non-empty path returns a
    record without error whose name is the base name of the path, whose
    project count is the sum of the two planes' counts, whose swagger
    counts by plane do not exceed the total, and whose compliant and
    non-compliant folders are, in order, the candidate folders the check
    accepts and rejects, so that their counts sum to the total. *)
Theorem analysis_record_invariants (lib : textlib) (cwd : string)
  (fs : filesystem) (org_path base : string) :
  org_path <> "" ->
  exists r,
    analyze_organization lib cwd fs org_path base = Ok r
    /\ organization r = posixpath.basename org_path
    /\ error r = None
    /\ total_typespec_projects r
       = management_plane_typespec_projects r
         + data_plane_typespec_projects r
    /\ management_plane_swagger_files r + data_plane_swagger_files r
       <= total_swagger_files r
    /\ total_typespec_projects r <= total_folders r
    /\ compliant_folder_paths r
       = filter (judged_compliant cwd fs base) (all_folder_paths r)
    /\ non_compliant_folder_paths r
       = filter (fun folder => negb (judged_compliant cwd fs base folder))
                (all_folder_paths r)
    /\ map fst (non_compliant_details r) = non_compliant_folder_paths r
    /\ compliant_folders r = List.length (compliant_folder_paths r)
    /\ non_compliant_folders r = List.length (non_compliant_folder_paths r)
    /\ total_folders r = compliant_folders r + non_compliant_folders r.
Proof.
  intros Horg. unfold analyze_organization. cbv zeta.
  rewrite (classify_swagger_files_filter cwd org_path _
             (swagger_files_named fs org_path Horg)).
  pose proof (classified_at_most_total cwd org_path
                (find_swagger_files fs org_path)) as L.
  cbn [py_bind].
  destruct (check_all_folders_partition cwd fs base _
              (all_folders_named fs org_path Horg) ([], []))
    as [c [n [-> [C N]]]].
  cbn [py_bind].
  destruct (check_version_uniform_issues lib cwd fs org_path)
    as [issue readmes].
  eexists. split; [reflexivity|]. cbn [fst snd map app] in C, N.
  cbn -[filter].
  assert (T : List.length
                (typespec_projects_of fs org_path
                 ++ swagger_version_folders fs org_path)%list
              = List.length c + List.length n).
  { rewrite <- (length_map fst n), N, C. symmetry.
    apply filter_split_length. }
  repeat split; try reflexivity; try assumption.
  - symmetry. apply filter_split_length.
  - rewrite length_app. lia.
  - symmetry. apply length_map.
Qed.

Lemma analysis_record_invariants_witness :
  exists r,
    analyze_organization no_textlib "/" three_parents_fs "/spec/contoso"
      "/spec" = Ok r
    /\ organization r = "contoso"
    /\ error r = None
    /\ total_typespec_projects r
       = management_plane_typespec_projects r
         + data_plane_typespec_projects r
    /\ total_folders r = compliant_folders r + non_compliant_folders r.
Proof.
  destruct (analysis_record_invariants no_textlib "/" three_parents_fs
              "/spec/contoso" "/spec" ltac:(discriminate))
    as [r [E [O [Er [T [_ [_ [_ [_ [_ [_ [_ F]]]]]]]]]]]].
  exists r. repeat split; assumption.
Defined.

(** ** The search for the version folder *)

Lemma version_search_leftmost (s tok : string) :
  version_search s = Some tok ->
  exists pre rest,
    s = pre ++ rest
    /\ version_match_here rest = Some tok
    /\ forall pre' rest',
         s = pre' ++ rest' -> String.length pre' < String.length pre ->
         version_match_here rest' = None.
Proof.
  induction s as [|c s IH]; rewrite version_search_unfold;
    destruct (version_match_here _) as [t |] eqn:M; try discriminate.
  - intros H. injection H as H. subst t. exists "", (String c s).
    split; [reflexivity|]. split; [exact M|]. intros pre' rest' _ L.
    simpl in L. lia.
  - intros H. destruct (IH H) as [pre [rest [E [Mr Min]]]].
    exists (String c pre), rest. split; [now rewrite E|].
    split; [exact Mr|]. intros pre' rest' E' L.
    destruct pre' as [|c' pre'].
    + simpl in E'. now subst rest'.
    + injection E' as _ E'. apply (Min pre' rest' E'). simpl in L. lia.
Qed.

Lemma version_search_none (s : string) :
  version_search s = None ->
  forall pre rest, s = pre ++ rest -> version_match_here rest = None.
Proof.
  induction s as [|c s IH]; rewrite version_search_unfold;
    destruct (version_match_here _) as [t |] eqn:M; try discriminate;
    intros H pre rest E.
  - destruct pre; [|discriminate]. simpl in E. now subst rest.
  - destruct pre as [|c' pre].
    + simpl in E. now subst rest.
    + injection E as _ E. now apply (IH H pre rest).
Qed.

(** X9: the search returns the token of the leftmost place where
    [/stable/] or [/preview/] is followed by a non-empty run of characters
    other than the slash and then a slash, and returns nothing exactly
    when the string has no such place. *)
Theorem version_search_spec (s : string) :
  match version_search s with
  | Some tok =>
      exists pre rest post,
        s = pre ++ rest
        /\ version_pattern_here tok post rest
        /\ forall pre' rest' tok' post',
             s = pre' ++ rest' -> version_pattern_here tok' post' rest' ->
             String.length pre <= String.length pre'
  | None =>
      forall pre rest tok post,
        s = pre ++ rest -> ~ version_pattern_here tok post rest
  end.
Proof.
  destruct (version_search s) as [tok |] eqn:V.
  - destruct (version_search_leftmost s tok V) as [pre [rest [E [M Min]]]].
    apply version_match_here_spec in M as [post M].
    exists pre, rest, post. split; [exact E|]. split; [exact M|].
    intros pre' rest' tok' post' E' P.
    destruct (Nat.le_gt_cases (String.length pre) (String.length pre'))
      as [L | L]; [exact L|].
    assert (N : version_match_here rest' = Some tok')
      by (apply version_match_here_spec; now exists post').
    rewrite (Min pre' rest' E' L) in N. discriminate.
  - intros pre rest tok post E P.
    assert (N : version_match_here rest = Some tok)
      by (apply version_match_here_spec; now exists post).
    rewrite (version_search_none s V pre rest E) in N. discriminate.
Qed.

(** ** The version-uniformity report of an organization *)

Lemma join_named (a b : string) : b <> "" -> posixpath.join a b <> "".
Proof.
  intros Hb. destruct (join_suffix a b) as [q ->].
  destruct q; [exact Hb | discriminate].
Qed.

Lemma readme_files_named (fs : filesystem) (rm_path : string) :
  rm_path <> "" ->
  Forall (fun readme_path => readme_path <> "") (readme_files_below fs rm_path).
Proof.
  intros H. unfold readme_files_below. apply Forall_forall.
  intros readme_path Hr. apply in_flat_map in Hr as [st [Hst Hr]].
  apply in_map_iff in Hr as [name [<- _]]. apply join_nonempty.
  pose proof (walk_roots_named fs keep_all rm_path H) as W.
  rewrite Forall_forall in W. now apply W.
Qed.

(** The list of problematic documents grows by one relative path for each
    flagged document. *)
Lemma check_readme_fold_list (lib : textlib) (cwd : string) (fs : filesystem)
  (org_path : string) (readme_files : list string) :
  Forall (fun readme_path => readme_path <> "") readme_files ->
  forall st,
    List.length
      (snd (fold_left (check_readme lib cwd fs org_path) readme_files st))
    = List.length (snd st)
      + List.length (filter (flagged_at lib fs) readme_files).
Proof.
  induction 1 as [|readme_path rest Hp _ IH]; intros st.
  - simpl. lia.
  - cbn [fold_left filter]. rewrite IH. unfold check_readme, flagged_at.
    destruct (os.read_text fs readme_path) as [content | e]; [|reflexivity].
    destruct (document_flagged lib content); [|reflexivity].
    destruct (relpath_returns cwd readme_path org_path Hp) as [rel ->].
    cbn [snd]. rewrite length_app. simpl. lia.
Qed.

(** X10: the version-uniformity check answers [(False, [])] when the
    organization has no [resource-manager] entry; otherwise the flag says
    whether some document below it (named [readme.md] in any letter case)
    can be read and is flagged, the list has one entry per such document,
    and so the flag is raised exactly when the list is not empty. *)
Theorem version_uniform_report (lib : textlib) (cwd : string)
  (fs : filesystem) (org_path : string) :
  (os.path_exists fs (posixpath.join org_path "resource-manager") = false ->
   check_version_uniform_issues lib cwd fs org_path = (false, []))
  /\ fst (check_version_uniform_issues lib cwd fs org_path)
     = os.path_exists fs (posixpath.join org_path "resource-manager")
       && existsb (flagged_at lib fs)
            (readme_files_below fs
               (posixpath.join org_path "resource-manager"))
  /\ (os.path_exists fs (posixpath.join org_path "resource-manager") = true ->
      List.length (snd (check_version_uniform_issues lib cwd fs org_path))
      = List.length
          (filter (flagged_at lib fs)
             (readme_files_below fs
                (posixpath.join org_path "resource-manager"))))
  /\ (fst (check_version_uniform_issues lib cwd fs org_path) = true <->
      snd (check_version_uniform_issues lib cwd fs org_path) <> []).
Proof.
  unfold check_version_uniform_issues. cbv zeta.
  set (rm_path := posixpath.join org_path "resource-manager").
  assert (Hrm : rm_path <> "") by (apply join_named; discriminate).
  pose proof (check_readme_fold lib cwd fs org_path
                (readme_files_below fs rm_path) (false, [])) as F.
  pose proof (check_readme_fold_list lib cwd fs org_path
                (readme_files_below fs rm_path)
                (readme_files_named fs rm_path Hrm) (false, [])) as L.
  cbn [fst snd List.length] in F, L.
  destruct (os.path_exists fs rm_path); cbn [negb andb].
  - split; [discriminate|]. split; [exact F|]. split; [intros _; exact L|].
    rewrite F.
    destruct (snd (fold_left _ _ _)) as [|x l] eqn:S; simpl in L.
    + split; [|congruence]. intros E. apply existsb_exists in E as [p [Hp Fp]].
      assert (In p (filter (flagged_at lib fs) (readme_files_below fs rm_path)))
        by (apply filter_In; now split).
      destruct (filter _ _); [contradiction | discriminate].
    + split; [discriminate|]. intros _.
      destruct (filter (flagged_at lib fs) (readme_files_below fs rm_path))
        as [|p l'] eqn:Q; [discriminate|].
      assert (I : In p (filter (flagged_at lib fs)
                          (readme_files_below fs rm_path)))
        by (rewrite Q; now left).
      apply filter_In in I. apply existsb_exists. now exists p.
  - repeat split; try reflexivity; try discriminate. intros H. now elim H.
Qed.

(** ** What a flagged document needs *)

Lemma version_tokens_length (entries : list yaml) :
  List.length (version_tokens entries) <= List.length entries.
Proof.
  induction entries as [|entry rest IH]; [simpl; lia|].
  unfold version_tokens in *. cbn [flat_map]. rewrite length_app.
  destruct entry; simpl; try lia.
  destruct (version_search s); simpl; lia.
Qed.

Lemma distinct_length (l : list string) :
  List.length (Str.distinct l) <= List.length l.
Proof.
  unfold Str.distinct. induction l as [|x l IH]; [simpl; lia|].
  simpl. destruct (in_dec string_dec x l); simpl; lia.
Qed.

Lemma find_default_tag_named (lib : textlib) (content tag : string) :
  find_default_tag lib content = Some tag -> tag <> "".
Proof.
  unfold find_default_tag.
  destruct (match search_basic_info lib content with
            | Some section => _
            | None => None
            end) as [t |]; [|discriminate].
  destruct (String.eqb_spec t ""); [discriminate|].
  intros H. now injection H as <-.
Qed.

(** X11: a document is flagged only if a non-empty default tag is found,
    the block of that tag is found, and the block body loads to a
    non-empty mapping whose [input-file] value has at least two entries,
    all of them strings; a missing tag, a missing block, a body that does
    not load or a body without [input-file] never flags the document. *)
Theorem flagged_document_requirements (lib : textlib) (content : string) :
  document_flagged lib content = true ->
  exists default_tag yaml_block items,
    find_default_tag lib content = Some default_tag
    /\ default_tag <> ""
    /\ find_tag_block lib default_tag content = Some yaml_block
    /\ yaml_safe_load lib yaml_block = Ok (YMap items)
    /\ items <> []
    /\ forallb is_text (input_file_entries (YMap items)) = true
    /\ 2 <= List.length (input_file_entries (YMap items)).
Proof.
  unfold document_flagged, content_has_issue.
  destruct (find_default_tag lib content) as [tag |] eqn:T; [|discriminate].
  destruct (find_tag_block lib tag content) as [block |] eqn:B;
    [|discriminate].
  destruct (yaml_safe_load lib block) as [yaml_data | e] eqn:L.
  - pose proof (block_has_issue_loaded lib block yaml_data L) as H.
    destruct (block_has_issue lib block) as [b | e]; [|discriminate].
    intros ->. symmetry in H. apply andb_true_iff in H as [F N].
    apply Nat.ltb_lt in N.
    pose proof (distinct_length (version_tokens (input_file_entries yaml_data))).
    pose proof (version_tokens_length (input_file_entries yaml_data)).
    assert (E : 2 <= List.length (input_file_entries yaml_data)) by lia.
    destruct yaml_data as [| b | n | s | entries | items];
      try (simpl in E; lia).
    exists tag, block, items. split; [reflexivity|].
    split; [exact (find_default_tag_named lib content tag T)|].
    split; [exact B|]. split; [exact L|].
    split; [|split; assumption].
    intros ->. simpl in E. lia.
  - unfold block_has_issue. rewrite L. destruct e; discriminate.
Qed.

Lemma flagged_document_requirements_witness :
  exists default_tag yaml_block items,
    find_default_tag
      (sample_textlib (input_file_block two_versions)
         (loaded_entries two_versions))
      (sample_readme (input_file_block two_versions)) = Some default_tag
    /\ default_tag <> ""
    /\ find_tag_block
         (sample_textlib (input_file_block two_versions)
            (loaded_entries two_versions))
         default_tag (sample_readme (input_file_block two_versions))
       = Some yaml_block
    /\ yaml_safe_load
         (sample_textlib (input_file_block two_versions)
            (loaded_entries two_versions)) yaml_block = Ok (YMap items)
    /\ items <> []
    /\ forallb is_text (input_file_entries (YMap items)) = true
    /\ 2 <= List.length (input_file_entries (YMap items)).
Proof.
  exact (flagged_document_requirements
           (sample_textlib (input_file_block two_versions)
              (loaded_entries two_versions))
           (sample_readme (input_file_block two_versions)) eq_refl).
Defined.

(** ** The report of [main] *)

Lemma analyze_organization_consistent (lib : textlib) (cwd : string)
  (fs : filesystem) (org_path base : string) :
  org_path <> "" ->
  exists r,
    analyze_organization lib cwd fs org_path base = Ok r
    /\ consistent_record r
    /\ organization r = posixpath.basename org_path.
Proof.
  intros Horg. unfold analyze_organization. cbv zeta.
  rewrite (classify_swagger_files_filter cwd org_path _
             (swagger_files_named fs org_path Horg)).
  pose proof (classified_at_most_total cwd org_path
                (find_swagger_files fs org_path)) as L.
  cbn [py_bind].
  pose proof (all_folders_named fs org_path Horg) as A.
  destruct (check_all_folders_partition cwd fs base _ A ([], []))
    as [c [n [-> [C N]]]].
  cbn [py_bind].
  destruct (check_version_uniform_issues lib cwd fs org_path)
    as [issue readmes].
  eexists. split; [reflexivity|]. cbn [fst snd map app] in C, N.
  unfold consistent_record. cbn -[filter].
  split; [|reflexivity]. split; [symmetry; apply filter_split_length|].
  split.
  { rewrite <- (length_map fst n), N, C. symmetry.
    apply filter_split_length. }
  split; [exact L|]. rewrite N, C.
  split; now apply filter_named.
Qed.

Lemma failed_record_consistent (org_name : string) (e : exn) :
  consistent_record (failed_record org_name e).
Proof. unfold consistent_record. simpl. repeat split; auto. Qed.

Lemma recorded_consistent (lib : textlib) (cwd : string) (fs : filesystem)
  (base org_path : string) :
  org_path <> "" ->
  consistent_record (recorded (analyze_organization lib cwd fs) base org_path)
  /\ organization (recorded (analyze_organization lib cwd fs) base org_path)
     = posixpath.basename org_path.
Proof.
  intros H. unfold recorded.
  destruct (analyze_organization_consistent lib cwd fs org_path base H)
    as [r [-> [C O]]].
  now split.
Qed.

Lemma organization_dirs_named (fs : filesystem) (base : string)
  (org_dirs : list string) :
  base <> "" ->
  organization_dirs fs base = Ok org_dirs ->
  Forall (fun org_path => org_path <> "") org_dirs.
Proof.
  intros Hb. unfold organization_dirs.
  destruct (os.listdir fs base) as [items | e]; [|discriminate].
  cbn [py_bind]. intros H. injection H as <-.
  apply Forall_map. apply Forall_forall. intros item _.
  now apply join_nonempty.
Qed.

Lemma relpaths_returns (cwd base : string) (paths : list string) :
  Forall (fun p => p <> "") paths ->
  exists rels, relpaths cwd base paths = Ok rels.
Proof.
  induction 1 as [|p rest Hp _ [rels IH]]; [now exists []|].
  cbn [relpaths]. destruct (relpath_returns cwd p base Hp) as [rel ->].
  rewrite IH. cbn [py_bind]. eauto.
Qed.

Lemma report_row_returns (cwd base : string) (r : OrgRecord) :
  consistent_record r ->
  exists row, report_row cwd base r = Ok row /\ row_of_record r row.
Proof.
  intros [T [_ [_ [Fc Fn]]]]. unfold report_row. cbv zeta.
  destruct (relpaths_returns cwd base _ Fc) as [rc ->].
  destruct (relpaths_returns cwd base _ Fn) as [rn ->].
  cbn [py_bind]. eexists. split; [reflexivity|].
  unfold row_of_record. cbn. repeat split. rewrite T.
  destruct (management_plane_typespec_projects r);
    destruct (data_plane_typespec_projects r); reflexivity.
Qed.

Lemma report_rows_returns (cwd base : string) (results : list OrgRecord) :
  Forall consistent_record results ->
  exists rows,
    report_rows cwd base results = Ok rows /\ Forall2 row_of_record results rows.
Proof.
  induction 1 as [|r rest Hr _ [rows [IH F]]]; [exists []; now split|].
  cbn [report_rows]. destruct (report_row_returns cwd base r Hr) as [row [-> R]].
  rewrite IH. cbn [py_bind]. exists (row :: rows). split; [reflexivity|].
  now constructor.
Qed.

Lemma spec_base_path_named : spec_base_path_of_main <> "".
Proof. discriminate. Qed.

Lemma main_results_consistent (lib : textlib) (cwd : string)
  (fs : filesystem) (org_dirs : list string) :
  organization_dirs fs spec_base_path_of_main = Ok org_dirs ->
  main_results lib cwd fs
  = Ok (map (recorded (analyze_organization lib cwd fs)
               spec_base_path_of_main) org_dirs)
  /\ Forall consistent_record
       (map (recorded (analyze_organization lib cwd fs)
               spec_base_path_of_main) org_dirs)
  /\ map organization
       (map (recorded (analyze_organization lib cwd fs)
               spec_base_path_of_main) org_dirs)
     = map posixpath.basename org_dirs.
Proof.
  intros H. split; [now apply main_results_cover_every_organization|].
  pose proof (organization_dirs_named fs _ _ spec_base_path_named H) as N.
  split.
  - apply Forall_map. rewrite Forall_forall in *. intros org Ho.
    now apply recorded_consistent, N.
  - rewrite map_map. apply map_ext_in. intros org Ho.
    rewrite Forall_forall in N. now apply recorded_consistent, N.
Qed.

Lemma rows_organizations (results : list OrgRecord) (rows : list ReportRow) :
  Forall2 row_of_record results rows ->
  map row_organization rows = map organization results.
Proof.
  induction 1 as [|r row rs rows' [O _] _ IH]; [reflexivity|].
  simpl. now rewrite O, IH.
Qed.

(** X12: [main] ends with an exception exactly when the specification
    directory cannot be listed, the exception being that of the listing;
    otherwise it builds a report with one row per organization directory,
    in the order of the listing, each row carrying the base name of its
    directory. *)
Theorem main_report_outcome (lib : textlib) (cwd : string) (fs : filesystem) :
  (forall e,
     os.listdir fs spec_base_path_of_main = Raise e ->
     main_report lib cwd fs = Raise e)
  /\ (forall items,
        os.listdir fs spec_base_path_of_main = Ok items ->
        exists org_dirs rep,
          organization_dirs fs spec_base_path_of_main = Ok org_dirs
          /\ main_report lib cwd fs = Ok rep
          /\ List.length (report_sheet rep) = List.length org_dirs
          /\ map row_organization (report_sheet rep)
             = map posixpath.basename org_dirs
          /\ In ("Total Organizations", List.length org_dirs)
               (report_summary rep)).
Proof.
  split.
  - intros e H. unfold main_report, main_results, organization_dirs.
    now rewrite H.
  - intros items H.
    assert (D : exists org_dirs,
               organization_dirs fs spec_base_path_of_main = Ok org_dirs)
      by (unfold organization_dirs; rewrite H; cbn [py_bind]; eauto).
    destruct D as [org_dirs D]. exists org_dirs.
    destruct (main_results_consistent lib cwd fs org_dirs D) as [M [C O]].
    destruct (report_rows_returns cwd spec_base_path_of_main _ C)
      as [rows [R F]].
    unfold main_report. rewrite M. cbn [py_bind]. cbv zeta. rewrite R.
    cbn [py_bind]. eexists. split; [exact D|]. split; [reflexivity|].
    cbn [report_sheet report_summary].
    pose proof (rows_organizations _ _ F) as RO. rewrite O in RO.
    split; [|split; [exact RO|]].
    + rewrite <- (length_map row_organization), RO. apply length_map.
    + unfold summary_data. cbv zeta. left. now rewrite length_map.
Qed.

Lemma sum_of_add (f g h : OrgRecord -> nat) (results : list OrgRecord) :
  Forall (fun r => f r = g r + h r) results ->
  sum_of f results = sum_of g results + sum_of h results.
Proof.
  induction 1 as [|r rest Hr _ IH]; [reflexivity|].
  simpl. rewrite Hr, IH. lia.
Qed.

Lemma sum_of_le (f g h : OrgRecord -> nat) (results : list OrgRecord) :
  Forall (fun r => g r + h r <= f r) results ->
  sum_of g results + sum_of h results <= sum_of f results.
Proof.
  induction 1 as [|r rest Hr _ IH]; simpl; lia.
Qed.

Lemma count_where_ext (p q : OrgRecord -> bool) (results : list OrgRecord) :
  Forall (fun r => p r = q r) results ->
  count_where p results = count_where q results.
Proof.
  unfold count_where. induction 1 as [|r rest Hr _ IH]; [reflexivity|].
  simpl. rewrite Hr. destruct (q r); simpl; now rewrite IH.
Qed.

Lemma rows_fully_compliant (results : list OrgRecord) (rows : list ReportRow) :
  Forall2 row_of_record results rows ->
  List.length (filter row_fully_compliant rows)
  = count_where org_fully_compliant results.
Proof.
  unfold count_where.
  induction 1 as [|r row rs rows' [_ [C _]] _ IH]; [reflexivity|].
  simpl. rewrite C. destruct (org_fully_compliant r); simpl; now rewrite IH.
Qed.

(** X13: in a report of [main] the totals agree with one another: the
    project total is the sum of the two planes' totals, the folder total is
    the sum of the compliant and the non-compliant totals, the swagger
    totals by plane do not exceed the swagger total, the number of rows
    marked fully compliant is the fully-compliant count of the summary,
    and the summary's two counts of organizations with TypeSpec are the
    same number. *)
Theorem report_totals_consistent (lib : textlib) (cwd : string)
  (fs : filesystem) (rep : Report) :
  main_report lib cwd fs = Ok rep ->
  total_typespec (report_totals rep)
  = total_mgmt_typespec (report_totals rep)
    + total_data_typespec (report_totals rep)
  /\ total_folders_analyzed (report_totals rep)
     = total_compliant_folders (report_totals rep)
       + total_non_compliant_folders (report_totals rep)
  /\ total_mgmt_swagger (report_totals rep)
     + total_data_swagger (report_totals rep)
     <= total_swagger (report_totals rep)
  /\ List.length (filter row_fully_compliant (report_sheet rep))
     = total_fully_compliant_orgs (report_totals rep)
  /\ In ("Fully Compliant Organizations",
         total_fully_compliant_orgs (report_totals rep))
        (report_summary rep)
  /\ exists n,
       In ("Organizations with TypeSpec Projects", n) (report_summary rep)
       /\ In ("Organizations with TypeSpec (Mgmt or Data Plane)", n)
             (report_summary rep).
Proof.
  unfold main_report.
  destruct (organization_dirs fs spec_base_path_of_main) as [org_dirs | e]
    eqn:D.
  - destruct (main_results_consistent lib cwd fs org_dirs D) as [M [C _]].
    rewrite M. cbn [py_bind]. cbv zeta.
    set (results := map _ org_dirs) in *.
    destruct (report_rows_returns cwd spec_base_path_of_main results C)
      as [rows [R F]].
    rewrite R. cbn [py_bind]. intros H. injection H as <-.
    cbn [report_totals report_sheet report_summary summary_totals
           total_typespec total_mgmt_typespec total_data_typespec
           total_folders_analyzed total_compliant_folders
           total_non_compliant_folders total_mgmt_swagger total_data_swagger
           total_swagger total_fully_compliant_orgs].
    split.
    { apply sum_of_add. eapply Forall_impl; [|exact C].
      intros r Hr. apply Hr. }
    split.
    { apply sum_of_add. eapply Forall_impl; [|exact C].
      intros r Hr. apply Hr. }
    split.
    { apply sum_of_le. eapply Forall_impl; [|exact C].
      intros r Hr. apply Hr. }
    split; [now apply rows_fully_compliant|].
    unfold summary_data. cbv zeta.
    split; [right; left; reflexivity|].
    eexists. split; [do 4 right; left; reflexivity|].
    do 6 right. left. f_equal.
    apply count_where_ext. eapply Forall_impl; [|exact C].
    intros r [T _]. cbv beta. rewrite T.
    destruct (management_plane_typespec_projects r);
      destruct (data_plane_typespec_projects r); reflexivity.
  - unfold main_results. rewrite D. discriminate.
Qed.

Lemma report_totals_consistent_witness :
  exists rep,
    main_report no_textlib "/" sample_specification_fs = Ok rep
    /\ map row_organization (report_sheet rep) = ["contoso"; "common-types"]
    /\ total_typespec (report_totals rep)
       = total_mgmt_typespec (report_totals rep)
         + total_data_typespec (report_totals rep)
    /\ total_folders_analyzed (report_totals rep)
       = total_compliant_folders (report_totals rep)
         + total_non_compliant_folders (report_totals rep)
    /\ List.length (filter row_fully_compliant (report_sheet rep))
       = total_fully_compliant_orgs (report_totals rep).
Proof.
  destruct (main_report no_textlib "/" sample_specification_fs)
    as [rep | e] eqn:E.
  - exists rep. split; [reflexivity|].
    destruct (report_totals_consistent no_textlib "/"
                sample_specification_fs rep E) as [T [F [_ [C _]]]].
    split; [|split; [exact T | split; [exact F | exact C]]].
    vm_compute in E. injection E as <-. reflexivity.
  - vm_compute in E. discriminate.
Defined.

(** ** The helpers of the scan *)

Lemma lower_name_is_readme (file : string) :
  file = "readme.md" \/ file = "README.md" ->
  Str.mem (Str.lower file) ["readme.md"; "README.md"] = true.
Proof. intros [-> | ->]; reflexivity. Qed.

Lemma pattern_files_are_readmes (fs : filesystem) (rm_path pattern p : string) :
  pattern = "readme.md" \/ pattern = "README.md" ->
  In p (find_files_with_pattern fs rm_path pattern) ->
  In p (readme_files_below fs rm_path).
Proof.
  intros Hpat. unfold find_files_with_pattern, readme_files_below.
  rewrite !in_flat_map. intros [st [Hst Hp]]. exists st. split; [exact Hst|].
  apply in_map_iff in Hp as [file [<- Hf]]. apply in_map.
  apply filter_In in Hf as [Hf E]. apply String.eqb_eq in E. subst file.
  apply filter_In. split; [exact Hf | now apply lower_name_is_readme].
Qed.

(** X15: the count of readme files is 0 when the organization has no
    [resource-manager] entry; every file it counts (named exactly
    [readme.md] or [README.md]) is one of the documents the
    version-uniformity check examines, so the count never exceeds the
    number of documents examined. *)
Theorem counted_readmes_are_checked (fs : filesystem) (org_path : string) :
  (os.path_exists fs (posixpath.join org_path "resource-manager") = false ->
   count_readme_files_in_resource_manager fs org_path = 0)
  /\ (forall p,
        In p (find_files_with_pattern fs
                (posixpath.join org_path "resource-manager") "readme.md")
        \/ In p (find_files_with_pattern fs
                   (posixpath.join org_path "resource-manager") "README.md") ->
        In p (readme_files_below fs
                (posixpath.join org_path "resource-manager")))
  /\ count_readme_files_in_resource_manager fs org_path
     <= List.length
          (readme_files_below fs (posixpath.join org_path "resource-manager")).
Proof.
  unfold count_readme_files_in_resource_manager. cbv zeta.
  set (rm_path := posixpath.join org_path "resource-manager").
  assert (I : forall p,
             In p (find_files_with_pattern fs rm_path "readme.md")
             \/ In p (find_files_with_pattern fs rm_path "README.md") ->
             In p (readme_files_below fs rm_path)).
  { intros p [H | H];
      [apply (pattern_files_are_readmes fs rm_path "readme.md")
      | apply (pattern_files_are_readmes fs rm_path "README.md")]; auto. }
  split; [intros ->; reflexivity|]. split; [exact I|].
  destruct (os.path_exists fs rm_path); cbn [negb]; [|lia].
  apply NoDup_incl_length; [apply NoDup_nodup|].
  intros p Hp. unfold Str.distinct in Hp. apply nodup_In in Hp.
  apply I. now apply in_app_or.
Qed.

(** ** The verdicts in the record *)

Lemma analyze_organization_folders (lib : textlib) (cwd : string)
  (fs : filesystem) (org_path base : string) :
  org_path <> "" ->
  exists r,
    analyze_organization lib cwd fs org_path base = Ok r
    /\ all_folder_paths r
       = (typespec_projects_of fs org_path
          ++ swagger_version_folders fs org_path)%list
    /\ non_compliant_folders r
       = List.length
           (filter (fun folder => negb (judged_compliant cwd fs base folder))
                   (all_folder_paths r))
    /\ org_fully_compliant r
       = Nat.eqb (non_compliant_folders r) 0
         && Nat.ltb 0 (List.length (all_folder_paths r)).
Proof.
  intros Horg. unfold analyze_organization. cbv zeta.
  rewrite (classify_swagger_files_filter cwd org_path _
             (swagger_files_named fs org_path Horg)).
  cbn [py_bind].
  destruct (check_all_folders_partition cwd fs base _
              (all_folders_named fs org_path Horg) ([], []))
    as [c [n [-> [C N]]]].
  cbn [py_bind].
  destruct (check_version_uniform_issues lib cwd fs org_path)
    as [issue readmes].
  eexists. split; [reflexivity|]. cbn [fst snd map app] in C, N.
  cbn -[filter]. split; [reflexivity|]. split; [|reflexivity].
  now rewrite <- N, length_map.
Qed.

Lemma no_rejected_folder (f : string -> bool) (l : list string) :
  List.length (filter (fun x => negb (f x)) l) = 0 <-> forallb f l = true.
Proof.
  induction l as [|x l IH]; [simpl; tauto|]. simpl.
  destruct (f x); simpl; [exact IH|]. split; discriminate.
Qed.

(** X18: an organization is marked fully compliant exactly when it has at
    least one candidate folder and the check accepts every candidate
    folder. *)
Theorem fully_compliant_means_all_pass (lib : textlib) (cwd : string)
  (fs : filesystem) (org_path base : string) :
  org_path <> "" ->
  exists r,
    analyze_organization lib cwd fs org_path base = Ok r
    /\ (org_fully_compliant r = true <->
        all_folder_paths r <> []
        /\ forallb (judged_compliant cwd fs base) (all_folder_paths r) = true).
Proof.
  intros Horg.
  destruct (analyze_organization_folders lib cwd fs org_path base Horg)
    as [r [E [_ [N F]]]].
  exists r. split; [exact E|].
  rewrite F, andb_true_iff, Nat.eqb_eq, Nat.ltb_lt, N, no_rejected_folder.
  destruct (all_folder_paths r); simpl; split; intros [A B]; split;
    try lia; try congruence; auto. 
Qed.

Lemma fully_compliant_means_all_pass_witness :
  exists r,
    analyze_organization no_textlib "/" one_project_fs "/spec/contoso" "/spec"
    = Ok r
    /\ org_fully_compliant r = true
    /\ forallb (judged_compliant "/" one_project_fs "/spec")
         (all_folder_paths r) = true.
Proof.
  destruct (fully_compliant_means_all_pass no_textlib "/" one_project_fs
              "/spec/contoso" "/spec" ltac:(discriminate)) as [r [E [F _]]].
  exists r. split; [exact E|].
  assert (C : org_fully_compliant r = true).
  { vm_compute in E. injection E as <-. reflexivity. }
  split; [exact C|]. exact (proj2 (F C)).
Defined.

(** X19: an organization in which the scan finds no project root has a
    true simple-structure flag, whatever version folders it has. *)
Theorem no_project_is_simple (lib : textlib) (cwd : string)
  (fs : filesystem) (org_path base : string) :
  org_path <> "" ->
  typespec_projects_of fs org_path = [] ->
  exists r,
    analyze_organization lib cwd fs org_path base = Ok r
    /\ total_typespec_projects r = 0
    /\ is_simple_structure r = true.
Proof.
  intros Horg P.
  destruct (analyze_organization_returns lib cwd fs org_path base Horg)
    as [r [E [_ [_ [_ [_ [M [D [_ [_ S]]]]]]]]]].
  exists r. split; [exact E|]. rewrite S, M, D, P. split; [|reflexivity].
  unfold analyze_organization in E. cbv zeta in E.
  destruct (classify_swagger_files _ _ _) as [[m d] | e]; [|discriminate].
  cbn [py_bind] in E.
  destruct (check_all_folders _ _ _ _ _) as [[c n] | e]; [|discriminate].
  cbn [py_bind] in E.
  destruct (check_version_uniform_issues _ _ _ _) as [i p].
  injection E as <-. cbn. now rewrite P.
Qed.

(** An organization with version folders and no project root. *)
Lemma no_project_is_simple_witness :
  exists r,
    analyze_organization no_textlib "/"
      {| fs_root := "/spec";
         fs_tree :=
           Dir [("legacy",
                 Dir [("data-plane",
                       Dir [("widgets",
                             Dir [("stable",
                                   Dir [("widgets.json",
                                         File (Some "{}"))])])])])] |}
      "/spec/legacy" "/spec" = Ok r
    /\ total_typespec_projects r = 0
    /\ is_simple_structure r = true.
Proof.
  apply no_project_is_simple; [discriminate | reflexivity].
Defined.
